(** * Licensy: the storage models of [bot/models/models.py]

    The models are Tortoise ORM classes.  Every class overrides the hooks
    [_pre_save] / [_post_save] that [Model.save] runs around the storage
    write.  The development embeds the hooks as they are written, the
    storage as finite maps keyed by primary key, and [Model.save] as the
    pipeline  [_pre_save] ; write ; [_post_save]. *)

From Stdlib Require Import ZArith Lia Ascii String.
From stdpp Require Import gmap strings list fin_maps sorting.

Local Open Scope Z_scope.

(** ** Exceptions and results *)

(** The exception classes the modelled code raises.  [FieldError],
    [IntegrityError] and [OperationalError] are Tortoise's; [AttributeError]
    is what Python raises when an attribute is read from [None] or from an
    unfetched relation, [IndexError] is a tuple index out of range,
    [TypeError] a call with the wrong number of arguments. *)
Inductive exception : Type :=
  | FieldError
  | IntegrityError
  | OperationalError
  | AttributeError
  | IndexError
  | TypeError.

#[global] Instance exception_eq_dec : EqDecision exception.
Proof. solve_decision. Defined.

Inductive outcome (A : Type) : Type :=
  | Returned (a : A)
  | Raised (e : exception).
Arguments Returned {A} a.
Arguments Raised {A} e.

Definition raises {A} (o : outcome A) : Prop :=
  match o with Raised _ => True | Returned _ => False end.

(** Sequencing of code that may raise and touches no storage. *)
Definition and_then {A B} (o : outcome A) (k : A -> outcome B) : outcome B :=
  match o with
  | Returned a => k a
  | Raised e => Raised e
  end.

(** [for x in l: body(x)] where the body may raise. *)
Fixpoint for_each {A} (l : list A) (body : A -> outcome unit) : outcome unit :=
  match l with
  | [] => Returned tt
  | x :: l' => and_then (body x) (fun _ => for_each l' body)
  end.

(** ** Storage schema

    One finite map per table, keyed by primary key.  A row holds the column
    values; a relation is stored as the primary key of its target.  Only the
    columns the modelled operations read or write are kept.  The storage
    refuses what a table cannot hold: a second row under a primary key, a
    row without a value for a relation column, a row whose relation column
    names a row that is not stored (foreign key), and a row that repeats a
    combination of values the model lists in [unique_together].  The
    uniqueness a [OneToOneField] adds to its own column is not part of the
    model. *)

(** table [reminders_settings] *)
Record ReminderRow : Type := mkReminderRow {
  c_first_activation : Z;
  c_second_activation : Z;
  c_third_activation : Z;
  c_fourth_activation : Z;
  c_fifth_activation : Z
}.

(** table [guilds] *)
Record GuildRow : Type := mkGuildRow {
  c_custom_license_format : string;
  c_license_branding : string;
  c_guild_reminder_activations_id : Z
}.

(** table [roles] *)
Record RoleRow : Type := mkRoleRow {
  c_role_guild_id : Z;
  c_tier_level : Z;
  c_tier_power : Z
}.

(** table [role_packets] *)
Record RolePacketRow : Type := mkRolePacketRow {
  c_packet_guild_id : Z;
  c_name : string;
  c_default_role_duration : Z
}.

(** table [packet_roles] *)
Record PacketRoleRow : Type := mkPacketRoleRow {
  c_role_id : Z;
  c_role_packet_id : Z;
  c_duration : Z
}.

(** table [licenses], and the table of [RegeneratingLicense], which adds the
    [role_packet] column ([None] in a plain license row). *)
Record LicenseRow : Type := mkLicenseRow {
  c_license_guild_id : Z;
  c_license_reminder_activations_id : Z;
  c_inactive : bool;
  c_license_role_packet_id : option Z
}.

#[global] Instance ReminderRow_eq_dec : EqDecision ReminderRow.
Proof. solve_decision. Defined.
#[global] Instance RoleRow_eq_dec : EqDecision RoleRow.
Proof. solve_decision. Defined.
#[global] Instance PacketRoleRow_eq_dec : EqDecision PacketRoleRow.
Proof. solve_decision. Defined.
#[global] Instance LicenseRow_eq_dec : EqDecision LicenseRow.
Proof. solve_decision. Defined.

Record DB : Type := mkDB {
  reminders_settings : gmap Z ReminderRow;
  guilds : gmap Z GuildRow;
  roles : gmap Z RoleRow;
  role_packets : gmap Z RolePacketRow;
  packet_roles : gmap Z PacketRoleRow;
  licenses : gmap string LicenseRow;
  regenerating_licenses : gmap string LicenseRow
}.

Definition empty_db : DB := mkDB ∅ ∅ ∅ ∅ ∅ ∅ ∅.

Definition set_reminders_settings (t : gmap Z ReminderRow) (d : DB) : DB :=
  mkDB t (guilds d) (roles d) (role_packets d) (packet_roles d) (licenses d)
       (regenerating_licenses d).
Definition set_roles (t : gmap Z RoleRow) (d : DB) : DB :=
  mkDB (reminders_settings d) (guilds d) t (role_packets d) (packet_roles d)
       (licenses d) (regenerating_licenses d).
Definition set_packet_roles (t : gmap Z PacketRoleRow) (d : DB) : DB :=
  mkDB (reminders_settings d) (guilds d) (roles d) (role_packets d) t
       (licenses d) (regenerating_licenses d).
Definition set_licenses (t : gmap string LicenseRow) (d : DB) : DB :=
  mkDB (reminders_settings d) (guilds d) (roles d) (role_packets d)
       (packet_roles d) t (regenerating_licenses d).
Definition set_regenerating_licenses (t : gmap string LicenseRow) (d : DB) : DB :=
  mkDB (reminders_settings d) (guilds d) (roles d) (role_packets d)
       (packet_roles d) (licenses d) t.

(** ** Storage operations

    An operation reads and writes the storage and may raise.  Besides the
    final storage it reports every storage state it produced, one per write
    statement, oldest first: no transaction is opened anywhere in the models,
    so each of these states is visible to a concurrent reader. *)
Definition db_op (A : Type) : Type := DB -> outcome A * DB * list DB.

Definition ret {A} (a : A) : db_op A := fun d => (Returned a, d, []).

Definition raise {A} (e : exception) : db_op A := fun d => (Raised e, d, []).

Definition bind {A B} (m : db_op A) (k : A -> db_op B) : db_op B :=
  fun d =>
    match m d with
    | (Returned a, d1, w1) =>
        match k a d1 with
        | (r, d2, w2) => (r, d2, w1 ++ w2)
        end
    | (Raised e, d1, w1) => (Raised e, d1, w1)
    end.

(** A query: reads, never writes. *)
Definition query {A} (f : DB -> A) : db_op A := fun d => (Returned (f d), d, []).

(** One write statement. *)
Definition execute (f : DB -> DB) : db_op unit :=
  fun d => (Returned tt, f d, [f d]).

(** Code that touches no storage, run inside an operation. *)
Definition lift {A} (o : outcome A) : db_op A := fun d => (o, d, []).

Declare Scope db_scope.
Delimit Scope db_scope with db.
Notation "x <- m ;; k" := (bind m (fun x => k))
  (at level 100, m at next level, right associativity) : db_scope.
Notation "m ;;; k" := (bind m (fun _ => k))
  (at level 100, right associativity) : db_scope.
Local Open Scope db_scope.

(** The two write statements of the ORM's executor, for the table read by
    [table] and replaced by [set_table].  [constraints k row d] tells whether
    the foreign keys and the [unique_together] of the table let [row] be
    stored under the key [k] in the storage [d].  An insert is refused by the
    storage when the primary key is already present or a constraint fails; an
    update addresses the row by primary key, is refused when a constraint
    fails for the new values, and changes nothing when that row is gone.  A
    refused statement writes nothing. *)
Section Executor.
Context {K R : Type} `{Countable K}.
Variable table : DB -> gmap K R.
Variable set_table : gmap K R -> DB -> DB.
Variable constraints : K -> R -> DB -> bool.

Definition execute_insert (k : K) (row : R) : db_op unit :=
  refused <- query (fun d => negb (constraints k row d)
                             || bool_decide (is_Some (table d !! k))) ;;
  if refused then raise IntegrityError
  else execute (fun d => set_table (<[k := row]> (table d)) d).

Definition execute_update (k : K) (row : R) : db_op unit :=
  refused <- query (fun d => negb (constraints k row d)
                             && bool_decide (is_Some (table d !! k))) ;;
  if refused then raise IntegrityError
  else
    execute (fun d =>
      match table d !! k with
      | Some _ => set_table (<[k := row]> (table d)) d
      | None => d
      end).

(** An insert that lets the storage generate the primary key. *)
Definition execute_insert_generated `{Fresh K (gset K)} (row : R) : db_op K :=
  k <- query (fun d => fresh (dom (table d))) ;;
  refused <- query (fun d => negb (constraints k row d)) ;;
  if refused then raise IntegrityError
  else
    execute (fun d => set_table (<[k := row]> (table d)) d) ;;;
    ret k.

End Executor.

(** The constraints of a table without foreign key and without
    [unique_together]. *)
Definition unconstrained {K R : Type} (k : K) (row : R) (d : DB) : bool := true.

(** The run [r] of a continuation, after the write states [w] that came
    before it. *)
Definition after_writes {A} (w : list DB) (r : outcome A * DB * list DB)
  : outcome A * DB * list DB :=
  (r.1.1, r.1.2, w ++ r.2).

Definition result_of {A} (r : outcome A * DB * list DB) : outcome A := r.1.1.
Definition db_after {A} (r : outcome A * DB * list DB) : DB := r.1.2.
Definition writes_of {A} (r : outcome A * DB * list DB) : list DB := r.2.

(** A relation attribute of a model instance: either the related object,
    already fetched, or a [QuerySet] that still has to be run against the
    storage and selects the row with the given primary key. *)
Inductive ForeignKeyRelation (A : Type) : Type :=
  | Fetched (a : A)
  | QuerySet (fk : Z).
Arguments Fetched {A} a.
Arguments QuerySet {A} fk.

(** ** ReminderActivations *)
Module ReminderActivations.

(** An instance: the generated primary key ([None] until the first save)
    and the five activation fields. *)
Record t : Type := mk {
  id : option Z;
  first_activation : Z;
  second_activation : Z;
  third_activation : Z;
  fourth_activation : Z;
  fifth_activation : Z
}.

(** Field defaults of the model. *)
Definition default_first_activation : Z := 720.
Definition default_other_activation : Z := 0.

Definition to_row (self : t) : ReminderRow :=
  mkReminderRow (first_activation self) (second_activation self)
                (third_activation self) (fourth_activation self)
                (fifth_activation self).

Definition of_row (k : Z) (r : ReminderRow) : t :=
  mk (Some k) (c_first_activation r) (c_second_activation r)
     (c_third_activation r) (c_fourth_activation r) (c_fifth_activation r).

Definition set_id (k : Z) (self : t) : t :=
  mk (Some k) (first_activation self) (second_activation self)
     (third_activation self) (fourth_activation self) (fifth_activation self).

(** [await queryset.first()] on the relation query selecting row [fk]. *)
Definition first (fk : Z) : db_op (option t) :=
  query (fun d => of_row fk <$> reminders_settings d !! fk).

Definition get_all_activations (self : t) : list Z :=
  [first_activation self; second_activation self; third_activation self;
   fourth_activation self; fifth_activation self].

(** [self[activation]], for a non-negative index. *)
Definition __getitem__ (self : t) (activation : nat) : outcome Z :=
  match get_all_activations self !! activation with
  | Some v => Returned v
  | None => Raised IndexError
  end.

Definition _check_valid_first_activation (self : t) : outcome unit :=
  and_then (__getitem__ self 0%nat) (fun a0 =>
    if negb (0 <? a0) then Raised FieldError else Returned tt).

Definition _check_activation_ranges (self : t) : outcome unit :=
  for_each (get_all_activations self) (fun activation =>
    if activation <? 0 then Raised FieldError else Returned tt).

Definition _check_valid_order_activations (self : t) : outcome unit :=
  let activations := get_all_activations self in
  for_each (zip activations (drop 1 activations)) (fun activation_pair =>
    if activation_pair.1 <? activation_pair.2 then Raised FieldError
    else Returned tt).

(** The three checks of [_post_save], in the order of the source. *)
Definition _post_save (self : t) : outcome unit :=
  and_then (_check_valid_first_activation self) (fun _ =>
  and_then (_check_activation_ranges self) (fun _ =>
  _check_valid_order_activations self)).

(** [Model.save]: the class does not override [_pre_save]; a new instance
    is inserted under a primary key the storage generates, a stored one
    updates its row; [_post_save] runs after the write. *)
Definition save (self : t) : db_op t :=
  saved <- match id self with
           | None =>
               k <- execute_insert_generated reminders_settings
                      set_reminders_settings unconstrained (to_row self) ;;
               ret (set_id k self)
           | Some k =>
               execute_update reminders_settings set_reminders_settings
                 unconstrained k (to_row self) ;;;
               ret self
           end ;;
  lift (_post_save saved) ;;;
  ret saved.

(** [cls.create] with keyword arguments: build the instance, omitted
    fields take their defaults, and save it. *)
Definition create (first second third fourth fifth : option Z) : db_op t :=
  save (mk None (default default_first_activation first)
           (default default_other_activation second)
           (default default_other_activation third)
           (default default_other_activation fourth)
           (default default_other_activation fifth)).

Definition create_easy (first_activation second_activation third_activation
                        fourth_activation fifth_activation : Z) : db_op t :=
  create (Some first_activation) (Some second_activation)
         (Some third_activation) (Some fourth_activation)
         (Some fifth_activation).

End ReminderActivations.


(** ** Guild *)
Module Guild.

(** The fields of a guild the modelled operations use. *)
Record t : Type := mk {
  id : Z;
  custom_license_format : string;
  license_branding : string;
  reminder_activations : ForeignKeyRelation ReminderActivations.t
}.

Definition of_row (k : Z) (r : GuildRow) : t :=
  mk k (c_custom_license_format r) (c_license_branding r)
     (QuerySet (c_guild_reminder_activations_id r)).

(** [await queryset.first()] on the relation query selecting guild [fk]:
    the guild, or [None] when no row matches. *)
Definition first (fk : Z) : db_op (option t) :=
  query (fun d => of_row fk <$> guilds d !! fk).

(** [reminder_activations = OneToOneField("models.ReminderActivations", ...)]:
    the foreign key of the table. *)
Definition foreign_keys (row : GuildRow) (d : DB) : bool :=
  bool_decide (is_Some (reminders_settings d !! c_guild_reminder_activations_id row)).

End Guild.

(** ** Role *)
Module Role.

(** An instance.  [guild] is [None] only after a lazy load that found no
    row; [_saved_in_db] tells [save] whether the instance came from the
    storage (update) or is new (insert). *)
Record t : Type := mk {
  id : Z;
  guild : option (ForeignKeyRelation Guild.t);
  tier_level : Z;
  tier_power : Z;
  _saved_in_db : bool
}.

Definition set_guild (g : option (ForeignKeyRelation Guild.t)) (self : t) : t :=
  mk (id self) g (tier_level self) (tier_power self) (_saved_in_db self).

Definition set_saved_in_db (b : bool) (self : t) : t :=
  mk (id self) (guild self) (tier_level self) (tier_power self) b.

(** The [guild_id] column value the instance carries. *)
Definition guild_id (self : t) : option Z :=
  match guild self with
  | Some (Fetched g) => Some (Guild.id g)
  | Some (QuerySet fk) => Some fk
  | None => None
  end.

(** The filter of
    [Role.get(~Q(id=self.id), guild=self.guild, tier_level=..., tier_power=...)]. *)
Definition same_slot_other_role (self : t) (k : Z) (r : RoleRow) : Prop :=
  k ≠ id self ∧ Some (c_role_guild_id r) = guild_id self ∧
  c_tier_level r = tier_level self ∧ c_tier_power r = tier_power self.

#[global] Instance same_slot_other_role_dec self k r :
  Decision (same_slot_other_role self k r).
Proof. unfold same_slot_other_role. apply _. Defined.

(** [.exists()] on that query. *)
Definition slot_taken (self : t) : db_op bool :=
  query (fun d => bool_decide (map_Exists (same_slot_other_role self) (roles d))).

(** Returns the instance, whose [guild] attribute the hook may have
    replaced by the fetched guild. *)
Definition _pre_save (self : t) : db_op t :=
  if negb ((0 <=? tier_level self) && (tier_level self <=? 100)) then
    raise FieldError
  else if negb ((0 <=? tier_power self) && (tier_power self <=? 9)) then
    raise FieldError
  else if negb (tier_level self =? 0) then
    self <- match guild self with
            | Some (QuerySet fk) =>
                g <- Guild.first fk ;;
                ret (set_guild (Fetched <$> g) self)
            | _ => ret self
            end ;;
    taken <- slot_taken self ;;
    if taken then raise IntegrityError else ret self
  else ret self.

Definition to_row (self : t) : option RoleRow :=
  gid ← guild_id self; Some (mkRoleRow gid (tier_level self) (tier_power self)).

(** [guild = ForeignKeyField("models.Guild", ...)]: the foreign key of the
    table.  [unique_together = (("guild", "id"),)] adds nothing to the
    primary key [id]. *)
Definition foreign_keys (row : RoleRow) (d : DB) : bool :=
  bool_decide (is_Some (guilds d !! c_role_guild_id row)).

(** [Model.save]: [_pre_save], then the write: an update when the instance
    came from the storage, an insert when it is new.  A row without guild is
    refused by the storage (the column is not nullable). *)
Definition save (self : t) : db_op t :=
  self <- _pre_save self ;;
  match to_row self with
  | None => raise IntegrityError
  | Some row =>
      (if _saved_in_db self then
         execute_update roles set_roles (fun _ => foreign_keys) (id self) row
       else execute_insert roles set_roles (fun _ => foreign_keys) (id self) row) ;;;
      ret (set_saved_in_db true self)
  end.

End Role.

(** ** RolePacket *)
Module RolePacket.

Definition MAXIMUM_ROLES : Z := 20.

Record t : Type := mk {
  id : Z;
  guild : option (ForeignKeyRelation Guild.t);
  name : string;
  default_role_duration : Z
}.

Definition of_row (k : Z) (r : RolePacketRow) : t :=
  mk k (Some (QuerySet (c_packet_guild_id r))) (c_name r)
     (c_default_role_duration r).

Definition first (fk : Z) : db_op (option t) :=
  query (fun d => of_row fk <$> role_packets d !! fk).

(** The rows of [packet_roles] that belong to packet [pid]: the reverse
    relation [role_packet.packet_roles.all()]. *)
Definition packet_roles_of (pid : Z) (d : DB) : gmap Z PacketRoleRow :=
  filter (fun kr => c_role_packet_id kr.2 = pid) (packet_roles d).

(** [await role_packet.packet_roles.all().count()] *)
Definition count_packet_roles (pid : Z) : db_op Z :=
  query (fun d => Z.of_nat (size (packet_roles_of pid d))).

End RolePacket.

(** ** PacketRole *)
Module PacketRole.

Record t : Type := mk {
  id : option Z;
  role : ForeignKeyRelation Role.t;
  role_packet : ForeignKeyRelation RolePacket.t;
  duration : Z
}.

Definition set_id (k : Z) (self : t) : t :=
  mk (Some k) (role self) (role_packet self) (duration self).

Definition role_id (self : t) : Z :=
  match role self with Fetched r => Role.id r | QuerySet fk => fk end.

Definition role_packet_id (self : t) : Z :=
  match role_packet self with Fetched p => RolePacket.id p | QuerySet fk => fk end.

Definition to_row (self : t) : PacketRoleRow :=
  mkPacketRoleRow (role_id self) (role_packet_id self) (duration self).

(** [x = rel; if isinstance(x, QuerySet): x = await rel.first()] for a guild
    relation. *)
Definition load_guild (rel : option (ForeignKeyRelation Guild.t))
  : db_op (option Guild.t) :=
  match rel with
  | Some (Fetched g) => ret (Some g)
  | Some (QuerySet fk) => Guild.first fk
  | None => ret None
  end.

(** [obj.id] where [obj] may be [None]. *)
Definition guild_id_of (g : option Guild.t) : outcome Z :=
  match g with Some g => Returned (Guild.id g) | None => Raised AttributeError end.

Definition _pre_save (self : t) : db_op unit :=
  (if duration self <? 0 then raise FieldError
   else
     match role_packet self with
     | QuerySet _ => raise AttributeError
     | Fetched packet =>
         n <- RolePacket.count_packet_roles (RolePacket.id packet) ;;
         if n + 1 >? RolePacket.MAXIMUM_ROLES then raise IntegrityError
         else ret tt
     end) ;;;
  match role self, role_packet self with
  | Fetched r, Fetched packet =>
      role_guild <- load_guild (Role.guild r) ;;
      role_packet_guild <- load_guild (RolePacket.guild packet) ;;
      a <- lift (guild_id_of role_guild) ;;
      b <- lift (guild_id_of role_packet_guild) ;;
      if negb (a =? b) then raise IntegrityError else ret tt
  | _, _ => raise AttributeError
  end.

(** [role = ForeignKeyField("models.Role", ...)] and
    [role_packet = ForeignKeyField("models.RolePacket", ...)]: the foreign
    keys of the table. *)
Definition foreign_keys (row : PacketRoleRow) (d : DB) : bool :=
  bool_decide (is_Some (roles d !! c_role_id row))
  && bool_decide (is_Some (role_packets d !! c_role_packet_id row)).

(** Another stored row, one under a key other than [k], holds the role and
    the packet of [row]. *)
Definition same_pair_other_row (k : Z) (row : PacketRoleRow) (j : Z) (r : PacketRoleRow)
  : Prop :=
  j ≠ k ∧ c_role_id r = c_role_id row ∧ c_role_packet_id r = c_role_packet_id row.

#[global] Instance same_pair_other_row_dec k row j r :
  Decision (same_pair_other_row k row j r).
Proof. unfold same_pair_other_row. apply _. Defined.

(** [unique_together = (("role", "role_packet"),)] *)
Definition unique_together (k : Z) (row : PacketRoleRow) (d : DB) : bool :=
  negb (bool_decide (map_Exists (same_pair_other_row k row) (packet_roles d))).

Definition constraints (k : Z) (row : PacketRoleRow) (d : DB) : bool :=
  foreign_keys row d && unique_together k row d.

(** [Model.save]: [_pre_save], then insert under a generated primary key
    (new instance) or update of the stored row. *)
Definition save (self : t) : db_op t :=
  _pre_save self ;;;
  match id self with
  | None =>
      k <- execute_insert_generated packet_roles set_packet_roles constraints
             (to_row self) ;;
      ret (set_id k self)
  | Some k =>
      execute_update packet_roles set_packet_roles constraints k (to_row self) ;;;
      ret self
  end.

(** [PacketRole.create(role=..., role_packet=..., duration=...)]: a missing
    or zero duration is replaced by the packet's default. *)
Definition create (role : ForeignKeyRelation Role.t)
    (role_packet : ForeignKeyRelation RolePacket.t) (duration : option Z)
  : db_op t :=
  duration <- match duration with
              | Some v => if v =? 0 then
                            match role_packet with
                            | Fetched p => ret (RolePacket.default_role_duration p)
                            | QuerySet _ => raise AttributeError
                            end
                          else ret v
              | None => match role_packet with
                        | Fetched p => ret (RolePacket.default_role_duration p)
                        | QuerySet _ => raise AttributeError
                        end
              end ;;
  save (mk None role role_packet duration).

End PacketRole.

(** ** License *)
Module License.

Definition KEY_MIN_LENGTH : Z := 14.

Record t : Type := mk {
  key : string;
  guild : option (ForeignKeyRelation Guild.t);
  reminder_activations : option (ForeignKeyRelation ReminderActivations.t);
  inactive : bool;
  _saved_in_db : bool
}.

Definition set_inactive (b : bool) (self : t) : t :=
  mk (key self) (guild self) (reminder_activations self) b (_saved_in_db self).

Definition set_saved_in_db (b : bool) (self : t) : t :=
  mk (key self) (guild self) (reminder_activations self) (inactive self) b.

Definition guild_id (self : t) : option Z :=
  match guild self with
  | Some (Fetched g) => Some (Guild.id g)
  | Some (QuerySet fk) => Some fk
  | None => None
  end.

Definition reminder_activations_id (self : t) : option Z :=
  match reminder_activations self with
  | Some (Fetched ra) => ReminderActivations.id ra
  | Some (QuerySet fk) => Some fk
  | None => None
  end.

(** The column values, [role_packet] being the column a subclass adds. *)
Definition to_row (role_packet : option Z) (self : t) : option LicenseRow :=
  g ← guild_id self;
  ra ← reminder_activations_id self;
  Some (mkLicenseRow g ra (inactive self) role_packet).

Definition _pre_save (self : t) : outcome unit :=
  if Z.of_nat (String.length (key self)) <? KEY_MIN_LENGTH then Raised FieldError
  else Returned tt.

(** [guild = ForeignKeyField("models.Guild", ...)],
    [reminder_activations = OneToOneField("models.ReminderActivations", ...)]
    and, in the subclass that has it,
    [role_packet = ForeignKeyField("models.RolePacket", ...)]: the foreign
    keys of a license table. *)
Definition foreign_keys (row : LicenseRow) (d : DB) : bool :=
  bool_decide (is_Some (guilds d !! c_license_guild_id row))
  && bool_decide (is_Some (reminders_settings d !! c_license_reminder_activations_id row))
  && match c_license_role_packet_id row with
     | Some p => bool_decide (is_Some (role_packets d !! p))
     | None => true
     end.

(** [Model.save] on the table [licenses]. *)
Definition save (self : t) : db_op t :=
  lift (_pre_save self) ;;;
  match to_row None self with
  | None => raise IntegrityError
  | Some row =>
      (if _saved_in_db self then
         execute_update licenses set_licenses (fun _ => foreign_keys) (key self) row
       else
         execute_insert licenses set_licenses (fun _ => foreign_keys) (key self) row) ;;;
      ret (set_saved_in_db true self)
  end.

(** [License.create(key=..., guild=..., reminder_activations=...)].  The
    keyword [reminder_activations] may be omitted or [None]; a model instance
    is never falsy.  Passing an instance that was never saved is refused
    when the license object is built. *)
Definition create (key : string) (guild : Guild.t)
    (reminder_activations : option ReminderActivations.t) : db_op t :=
  reminder_activations <-
    match reminder_activations with
    | Some ra => ret ra
    | None => ReminderActivations.create None None None None None
    end ;;
  match ReminderActivations.id reminder_activations with
  | None => raise OperationalError
  | Some _ =>
      save (mk key (Some (Fetched guild)) (Some (Fetched reminder_activations))
               false false)
  end.

End License.

(** ** RegeneratingLicense *)
Module RegeneratingLicense.

(** [class RegeneratingLicense(License)]: the fields of [License] and the
    [role_packet] relation. *)
Record t : Type := mk {
  base : License.t;
  role_packet : option (ForeignKeyRelation RolePacket.t)
}.

Definition key (self : t) : string := License.key (base self).
Definition inactive (self : t) : bool := License.inactive (base self).

Definition set_inactive (b : bool) (self : t) : t :=
  mk (License.set_inactive b (base self)) (role_packet self).

Definition set_saved_in_db (b : bool) (self : t) : t :=
  mk (License.set_saved_in_db b (base self)) (role_packet self).

Definition role_packet_id (self : t) : option Z :=
  match role_packet self with
  | Some (Fetched p) => Some (RolePacket.id p)
  | Some (QuerySet fk) => Some fk
  | None => None
  end.

Definition to_row (self : t) : option LicenseRow :=
  p ← role_packet_id self; License.to_row (Some p) (base self).

(** Inherited from [License]. *)
Definition _pre_save (self : t) : outcome unit := License._pre_save (base self).

(** [Model.save] on the table of the subclass. *)
Definition save (self : t) : db_op t :=
  lift (_pre_save self) ;;;
  match to_row self with
  | None => raise IntegrityError
  | Some row =>
      (if License._saved_in_db (base self) then
         execute_update regenerating_licenses set_regenerating_licenses
           (fun _ => License.foreign_keys) (key self) row
       else
         execute_insert regenerating_licenses set_regenerating_licenses
           (fun _ => License.foreign_keys) (key self) row) ;;;
      ret (set_saved_in_db true self)
  end.

(** [x = self.rel; if isinstance(x, QuerySet): x = await self.rel.first()] *)
Definition load {A} (first : Z -> db_op (option A))
    (rel : option (ForeignKeyRelation A)) : db_op (option A) :=
  match rel with
  | Some (Fetched a) => ret (Some a)
  | Some (QuerySet fk) => first fk
  | None => ret None
  end.

(** Reading an attribute of an object that may be [None]. *)
Definition attr {A B} (o : option A) (f : A -> B) : db_op B :=
  match o with
  | Some a => ret (f a)
  | None => raise AttributeError
  end.

Section Regenerate.

(** [LicenseFormatter.generate_single(format, branding)] of
    [bot.utils.licence_helper]: the key it hands back on this call.  The
    formatter draws the key from a random source, so nothing is assumed
    about it. *)
Variable generate_single : string -> string -> string.

(** Returns the new license and [self] as the call leaves it. *)
Definition regenerate (self : t) : db_op (t * t) :=
  guild <- load Guild.first (License.guild (base self)) ;;
  reminder_activations <-
    load ReminderActivations.first (License.reminder_activations (base self)) ;;
  role_packet <- load RolePacket.first (role_packet self) ;;
  custom_license_format <- attr guild Guild.custom_license_format ;;
  license_branding <- attr guild Guild.license_branding ;;
  let new_key := generate_single custom_license_format license_branding in
  activations <- attr reminder_activations ReminderActivations.get_all_activations ;;
  new_reminder_activations <-
    match activations with
    | [a1; a2; a3; a4; a5] => ReminderActivations.create_easy a1 a2 a3 a4 a5
    | _ => raise TypeError
    end ;;
  let new_license :=
    mk (License.mk new_key (Fetched <$> guild)
          (Some (Fetched new_reminder_activations)) false false)
       (Fetched <$> role_packet) in
  new_license <- save new_license ;;
  let self := set_inactive true self in
  self <- save self ;;
  ret (new_license, self).

End Regenerate.

End RegeneratingLicense.

(** ** LicenseFormatter *)
Module LicenseFormatter.

Section Formatter.

(** Modelled from the spec: [bot/utils/licence_helper.py], which defines
    [LicenseFormatter], is missing, so the placeholder table and the
    threshold are taken as given.  [class_size c] is the size of the character class the template
    character [c] stands for, [None] when [c] is a literal character. *)
Variable class_size : ascii -> option Z.
Variable min_permutation_count : Z.

(** Modelled from the spec: the maximal runs of consecutive equal
    characters of a template, each with its length ("the count of
    consecutive occurrences of that placeholder"). *)
Fixpoint runs (template : list ascii) : list (ascii * nat) :=
  match template with
  | [] => []
  | c :: rest =>
      match runs rest with
      | (c', n) :: rs =>
          if decide (c = c') then (c, S n) :: rs else (c, 1%nat) :: (c', n) :: rs
      | [] => [(c, 1%nat)]
      end
  end.

(** Modelled from the spec: the factor of one run, the class size raised to
    the run length for a placeholder, 1 for literal characters. *)
Definition run_factor (r : ascii * nat) : Z :=
  match class_size r.1 with
  | Some size => size ^ Z.of_nat r.2
  | None => 1
  end.

(** Modelled from the spec: [get_format_permutations] of the missing
    [LicenseFormatter], the product of the factors of all runs. *)
Definition get_format_permutations (template : string) : Z :=
  foldr (fun r acc => run_factor r * acc) 1 (runs (list_ascii_of_string template)).

(** Modelled from the spec: [is_secure] of the missing [LicenseFormatter],
    true when the count reaches [min_permutation_count]. *)
Definition is_secure (template : string) : bool :=
  min_permutation_count <=? get_format_permutations template.

End Formatter.

End LicenseFormatter.

(** * Stated properties *)

(** ** ReminderActivations *)

(** What the three checks of [_post_save] accept. *)
Definition accepted_activations (self : ReminderActivations.t) : Prop :=
  0 < ReminderActivations.first_activation self /\
  0 <= ReminderActivations.second_activation self /\
  0 <= ReminderActivations.third_activation self /\
  0 <= ReminderActivations.fourth_activation self /\
  0 <= ReminderActivations.fifth_activation self /\
  ReminderActivations.second_activation self <= ReminderActivations.first_activation self /\
  ReminderActivations.third_activation self <= ReminderActivations.second_activation self /\
  ReminderActivations.fourth_activation self <= ReminderActivations.third_activation self /\
  ReminderActivations.fifth_activation self <= ReminderActivations.fourth_activation self.

(** The ordering the claim and the docstring of
    [_check_valid_order_activations] ask for: each next activation is
    smaller than the previous one, set (non-zero) values are never repeated,
    and unset (zero) entries come last. *)
Definition strictly_ordered (l : list Z) : bool :=
  forallb (fun p => (p.2 =? 0) || (p.2 <? p.1)) (zip l (drop 1 l)).

Definition documented_valid (self : ReminderActivations.t) : Prop :=
  0 < ReminderActivations.first_activation self /\
  Forall (fun a => 0 <= a) (ReminderActivations.get_all_activations self) /\
  strictly_ordered (ReminderActivations.get_all_activations self) = true.

(** ** Role *)

(** No two stored roles of one guild share a tier slot with
    [tier_level > 0]. *)
Definition tier_slots_unique (d : DB) : Prop :=
  forall i j ri rj,
    roles d !! i = Some ri -> roles d !! j = Some rj ->
    c_role_guild_id ri = c_role_guild_id rj ->
    c_tier_level ri = c_tier_level rj ->
    c_tier_power ri = c_tier_power rj ->
    0 < c_tier_level ri -> i = j.

(** Another stored role of the guild of [self] holds the tier slot of
    [self]. *)
Definition slot_held_by_other (d : DB) (self : Role.t) : Prop :=
  exists j rj, roles d !! j = Some rj /\ j <> Role.id self /\
    Role.guild_id self = Some (c_role_guild_id rj) /\
    c_tier_level rj = Role.tier_level self /\
    c_tier_power rj = Role.tier_power self.

(** The tier values pass the two range checks of [Role._pre_save]. *)
Definition tier_in_range (self : Role.t) : Prop :=
  0 <= Role.tier_level self <= 100 /\ 0 <= Role.tier_power self <= 9.

(** The guild of the instance is there: the instance names a guild, fetched
    or still to be fetched, and the row of that guild is stored. *)
Definition guild_available (d : DB) (rel : option (ForeignKeyRelation Guild.t)) : Prop :=
  match rel with
  | Some (Fetched g) => is_Some (guilds d !! Guild.id g)
  | Some (QuerySet fk) => is_Some (guilds d !! fk)
  | None => False
  end.

(** The instance knows whether its row is stored. *)
Definition role_flag_accurate (d : DB) (self : Role.t) : Prop :=
  Role._saved_in_db self = bool_decide (is_Some (roles d !! Role.id self)).

(** Every stored role has its tier values within the ranges of
    [Role._pre_save]. *)
Definition stored_tiers_in_range (d : DB) : Prop :=
  forall i r, roles d !! i = Some r ->
    0 <= c_tier_level r <= 100 /\ 0 <= c_tier_power r <= 9.

(** The storage after the write statement of [Role.save] for [row]. *)
Definition role_written (d : DB) (self : Role.t) (row : RoleRow) : DB :=
  if Role._saved_in_db self then
    match roles d !! Role.id self with
    | Some _ => set_roles (<[Role.id self := row]> (roles d)) d
    | None => d
    end
  else set_roles (<[Role.id self := row]> (roles d)) d.

(** ** Sample data *)

Definition guild_7 : Guild.t := Guild.mk 7 "" "" (QuerySet 1).

(** A storage with guild 7, its default reminder settings (row 1) and no
    role. *)
Definition db_guild_only : DB :=
  mkDB {[1 := mkReminderRow 720 0 0 0 0]} {[7 := mkGuildRow "" "" 1]} ∅ ∅ ∅ ∅ ∅.

(** The same storage with role 1 of guild 7 in slot (1, 1). *)
Definition db_guild_one_role : DB := set_roles {[1 := mkRoleRow 7 1 1]} db_guild_only.

(** A new role of guild 7 asking for the slot (1, 1), which role 1 holds. *)
Definition role_same_slot : Role.t := Role.mk 2 (Some (Fetched guild_7)) 1 1 false.

(** A new role of guild 7 asking for the free slot (1, 2). *)
Definition role_free_slot : Role.t := Role.mk 2 (Some (Fetched guild_7)) 1 2 false.

(** A new untiered role with [tier_power] 0. *)
Definition role_power_zero : Role.t := Role.mk 1 (Some (Fetched guild_7)) 0 0 false.

(** A new role with [tier_level] 101. *)
Definition role_level_101 : Role.t := Role.mk 3 (Some (Fetched guild_7)) 101 1 false.

(** ** PacketRole *)

(** Number of roles stored in packet [pid]. *)
Definition packet_size (d : DB) (pid : Z) : nat :=
  size (RolePacket.packet_roles_of pid d).

(** No stored packet holds more than [MAXIMUM_ROLES] roles. *)
Definition packets_within_limit (d : DB) : Prop :=
  forall pid, Z.of_nat (packet_size d pid) <= RolePacket.MAXIMUM_ROLES.

(** The role and the packet of the instance are fetched and belong to the
    same guild, which is there for both. *)
Definition same_guild_available (d : DB) (self : PacketRole.t) : Prop :=
  match PacketRole.role self, PacketRole.role_packet self with
  | Fetched r, Fetched p =>
      exists g1 g2,
        result_of (PacketRole.load_guild (Role.guild r) d) = Returned (Some g1) /\
        result_of (PacketRole.load_guild (RolePacket.guild p) d) = Returned (Some g2) /\
        Guild.id g1 = Guild.id g2
  | _, _ => False
  end.

(** The rows of the role and of the packet of the instance are stored. *)
Definition role_and_packet_stored (d : DB) (self : PacketRole.t) : Prop :=
  is_Some (roles d !! PacketRole.role_id self) /\
  is_Some (role_packets d !! PacketRole.role_packet_id self).

(** A stored packet role already puts role [rid] into packet [pid]. *)
Definition role_in_packet (d : DB) (rid pid : Z) : Prop :=
  exists j r, packet_roles d !! j = Some r /\
    c_role_id r = rid /\ c_role_packet_id r = pid.

(** A storage with guild 7, its reminder settings, the untiered roles 1..19,
    101..120 and 500 of that guild and two packets: packet 5 holds the 19
    roles 1..19 (rows 1..19), packet 6 holds the 20 roles 101..120 (rows
    101..120). *)
Definition db_two_packets : DB :=
  mkDB {[1 := mkReminderRow 720 0 0 0 0]}
       {[7 := mkGuildRow "" "" 1]}
       (list_to_map
          ((fun i => (i, mkRoleRow 7 0 1)) <$> (seqZ 1 19 ++ seqZ 101 20 ++ [500])))
       (list_to_map [(5, mkRolePacketRow 7 "gold" 60); (6, mkRolePacketRow 7 "full" 60)])
       (list_to_map
          (((fun i => (i, mkPacketRoleRow i 5 60)) <$> seqZ 1 19) ++
           ((fun i => (i, mkPacketRoleRow i 6 60)) <$> seqZ 101 20)))
       ∅ ∅.

Definition role_500 : Role.t := Role.mk 500 (Some (Fetched guild_7)) 0 1 true.
Definition role_1 : Role.t := Role.mk 1 (Some (Fetched guild_7)) 0 1 true.
Definition packet_5 : RolePacket.t := RolePacket.mk 5 (Some (Fetched guild_7)) "gold" 60.
Definition packet_6 : RolePacket.t := RolePacket.mk 6 (Some (Fetched guild_7)) "full" 60.

(** A new packet role for the packet with 19 roles, and one for the full
    packet. *)
Definition packet_role_20th : PacketRole.t :=
  PacketRole.mk None (Fetched role_500) (Fetched packet_5) 60.
Definition packet_role_21st : PacketRole.t :=
  PacketRole.mk None (Fetched role_500) (Fetched packet_6) 60.

(** ** License *)

(** Every stored license key has at least [KEY_MIN_LENGTH] characters. *)
Definition stored_keys_long (d : DB) : Prop :=
  forall k row, licenses d !! k = Some row ->
    License.KEY_MIN_LENGTH <= Z.of_nat (String.length k).

Definition license_13 : License.t :=
  License.mk "ABCDEFGHIJKLM" (Some (Fetched guild_7)) (Some (QuerySet 1)) false false.
Definition license_14 : License.t :=
  License.mk "ABCDEFGHIJKLMN" (Some (Fetched guild_7)) (Some (QuerySet 1)) false false.

(** A storage in which guild 7 has its own reminder settings
    (100, 50, 0, 0, 0), stored as row 1. *)
Definition db_guild_reminders : DB :=
  mkDB {[1 := mkReminderRow 100 50 0 0 0]} {[7 := mkGuildRow "" "" 1]} ∅ ∅ ∅ ∅ ∅.

(** ** RegeneratingLicense *)

(** What the relation attributes of a license give once loaded from the
    storage. *)
Definition loaded_guild (d : DB) (rel : option (ForeignKeyRelation Guild.t))
  : option Guild.t :=
  match rel with
  | Some (Fetched g) => Some g
  | Some (QuerySet fk) => Guild.of_row fk <$> guilds d !! fk
  | None => None
  end.

Definition loaded_reminders (d : DB)
    (rel : option (ForeignKeyRelation ReminderActivations.t))
  : option ReminderActivations.t :=
  match rel with
  | Some (Fetched ra) => Some ra
  | Some (QuerySet fk) => ReminderActivations.of_row fk <$> reminders_settings d !! fk
  | None => None
  end.

Definition loaded_packet (d : DB) (rel : option (ForeignKeyRelation RolePacket.t))
  : option RolePacket.t :=
  match rel with
  | Some (Fetched p) => Some p
  | Some (QuerySet fk) => RolePacket.of_row fk <$> role_packets d !! fk
  | None => None
  end.

(** The license stored under [key] is Active, respectively Inactive. *)
Definition active_in (d : DB) (key : string) : Prop :=
  exists row, regenerating_licenses d !! key = Some row /\ c_inactive row = false.

Definition inactive_in (d : DB) (key : string) : Prop :=
  exists row, regenerating_licenses d !! key = Some row /\ c_inactive row = true.

(** The states [regenerate] goes through.  First the copy of the reminder
    row is inserted under a new key, *)
Definition regen_reminders_key (d : DB) : Z := fresh (dom (reminders_settings d)).

Definition regen_d1 (d : DB) (ra0 : ReminderActivations.t) : DB :=
  set_reminders_settings
    (<[regen_reminders_key d := ReminderActivations.to_row ra0]> (reminders_settings d)) d.

(** then the new license is inserted, *)
Definition regen_new_license (new_key : string) (d : DB) (g : Guild.t)
    (ra0 : ReminderActivations.t) (p : option RolePacket.t) : RegeneratingLicense.t :=
  RegeneratingLicense.mk
    (License.mk new_key (Some (Fetched g))
       (Some (Fetched (ReminderActivations.set_id (regen_reminders_key d) ra0)))
       false false)
    (Fetched <$> p).

Definition regen_d2 (new_key : string) (d : DB) (g : Guild.t)
    (ra0 : ReminderActivations.t) (p : RolePacket.t) : DB :=
  set_regenerating_licenses
    (<[new_key := mkLicenseRow (Guild.id g) (regen_reminders_key d) false
                    (Some (RolePacket.id p))]>
       (regenerating_licenses d))
    (regen_d1 d ra0).

(** and last the row of the original license is written. *)
Definition regen_written (d : DB) (self : RegeneratingLicense.t) (row : LicenseRow) : DB :=
  if License._saved_in_db (RegeneratingLicense.base self) then
    match regenerating_licenses d !! RegeneratingLicense.key self with
    | Some _ => set_regenerating_licenses
                  (<[RegeneratingLicense.key self := row]> (regenerating_licenses d)) d
    | None => d
    end
  else set_regenerating_licenses
         (<[RegeneratingLicense.key self := row]> (regenerating_licenses d)) d.

(** The instance is a row of the storage: it came from there, a row is
    stored under its key, and it has a value for every relation column. *)
Definition stored_license (d : DB) (self : RegeneratingLicense.t) : Prop :=
  License._saved_in_db (RegeneratingLicense.base self) = true /\
  is_Some (regenerating_licenses d !! RegeneratingLicense.key self) /\
  is_Some (RegeneratingLicense.to_row self).

(** The rows that the relation columns of [row] name are stored: what the
    foreign keys of a license table ask for. *)
Definition relations_stored (d : DB) (row : LicenseRow) : Prop :=
  is_Some (guilds d !! c_license_guild_id row) /\
  is_Some (reminders_settings d !! c_license_reminder_activations_id row) /\
  (forall p, c_license_role_packet_id row = Some p -> is_Some (role_packets d !! p)).

(** A storage with guild 7, its reminder settings (row 1), packet 5 and one
    active regenerating license with reminder settings of its own (row 2). *)
Definition db_regen : DB :=
  mkDB (<[1 := mkReminderRow 100 50 0 0 0]> {[2 := mkReminderRow 720 60 0 0 0]})
       {[7 := mkGuildRow "" "" 1]} ∅ {[5 := mkRolePacketRow 7 "gold" 60]} ∅ ∅
       {["OLDKEY-ABCDEFGH" := mkLicenseRow 7 2 false (Some 5)]}.

Definition license_old : RegeneratingLicense.t :=
  RegeneratingLicense.mk
    (License.mk "OLDKEY-ABCDEFGH" (Some (QuerySet 7)) (Some (QuerySet 2)) false true)
    (Some (QuerySet 5)).

(** A formatter call that hands back the key [NEWKEY-ABCDEFGH]. *)
Definition generate_new_key (format branding : string) : string := "NEWKEY-ABCDEFGH".

(** ** LicenseFormatter *)

(** The factor one template character contributes on its own. *)
Definition char_factor (class_size : ascii -> option Z) (c : ascii) : Z :=
  match class_size c with
  | Some size => size
  | None => 1
  end.

Definition product_of_chars (class_size : ascii -> option Z) (l : list ascii) : Z :=
  foldr (fun c acc => char_factor class_size c * acc) 1 l.

(** The placeholder table of the scenario of the specification: [X] stands
    for an alphanumeric character (36), [A] for a digit (10). *)
Definition scenario_classes (c : ascii) : option Z :=
  if decide (c = "X"%char) then Some 36
  else if decide (c = "A"%char) then Some 10
  else None.

(** * Further operations

    The other methods of the models, and the commands of the cogs that call
    them. *)

(** ** Lookups, caught exceptions, replies *)

(** The result of [Model.get]: the object, or
    [tortoise.exceptions.DoesNotExist].  Only lookups raise it, and it is
    reported here, apart from the exceptions of [exception]; an operation
    whose result is [DoesNotExist] let that exception pass to its caller. *)
Inductive fetched (A : Type) : Type :=
  | Found (a : A)
  | DoesNotExist.
Arguments Found {A} a.
Arguments DoesNotExist {A}.

(** [try: body  except E: handler], where [caught] tells the exceptions of
    class [E]. *)
Definition try_except {A} (body : db_op A) (caught : exception -> bool)
    (handler : db_op A) : db_op A :=
  fun d =>
    match body d with
    | (Raised e, d1, w1) =>
        if caught e then after_writes w1 (handler d1) else (Raised e, d1, w1)
    | r => r
    end.

Definition is_IntegrityError (e : exception) : bool :=
  bool_decide (e = IntegrityError).
Definition is_FieldError (e : exception) : bool :=
  bool_decide (e = FieldError).

(** What a command sends back: [ctx.send(embed=success(...))] or
    [ctx.send(embed=failure(...))]. *)
Inductive embed : Type :=
  | success
  | failure.

Definition set_guilds (t : gmap Z GuildRow) (d : DB) : DB :=
  mkDB (reminders_settings d) t (roles d) (role_packets d) (packet_roles d)
       (licenses d) (regenerating_licenses d).
Definition set_role_packets (t : gmap Z RolePacketRow) (d : DB) : DB :=
  mkDB (reminders_settings d) (guilds d) (roles d) t (packet_roles d)
       (licenses d) (regenerating_licenses d).

(** ** MultipleUseLicense *)
Module MultipleUseLicense.

Definition MAXIMUM_USES_LEFT : Z := 1000000.

(** [class MultipleUseLicense(License)]: the fields of [License] and
    [uses_left]. *)
Record t : Type := mk {
  base : License.t;
  uses_left : Z
}.

Definition _pre_save (self : t) : outcome unit :=
  if uses_left self <? 0 then Raised FieldError
  else if uses_left self >? MAXIMUM_USES_LEFT then Raised FieldError
  else License._pre_save (base self).

End MultipleUseLicense.

(** ** Role: lookup and creation *)
Module RoleMethods.

(** The instance [Role.get] builds from a stored row: the guild relation is
    not fetched. *)
Definition of_row (k : Z) (r : RoleRow) : Role.t :=
  Role.mk k (Some (QuerySet (c_role_guild_id r))) (c_tier_level r) (c_tier_power r) true.

(** [await cls.get(id=role_id)] *)
Definition get (role_id : Z) : db_op (fetched Role.t) :=
  query (fun d =>
    match roles d !! role_id with
    | Some r => Found (of_row role_id r)
    | None => DoesNotExist
    end).

(** [await Guild.get(id=guild_id)] *)
Definition get_guild (guild_id : Z) : db_op (fetched Guild.t) :=
  query (fun d =>
    match guilds d !! guild_id with
    | Some g => Found (Guild.of_row guild_id g)
    | None => DoesNotExist
    end).

(** Field defaults of the model. *)
Definition default_tier_level : Z := 0.
Definition default_tier_power : Z := 1.

(** [await cls.create(guild=guild, id=role_id)] *)
Definition create (guild : Guild.t) (role_id : Z) : db_op Role.t :=
  Role.save (Role.mk role_id (Some (Fetched guild)) default_tier_level
               default_tier_power false).

Definition get_or_create_easy (guild_id role_id : Z) : db_op (fetched Role.t) :=
  found <- get role_id ;;
  match found with
  | Found role => ret (Found role)
  | DoesNotExist =>
      guild <- get_guild guild_id ;;
      match guild with
      | Found guild => role <- create guild role_id ;; ret (Found role)
      | DoesNotExist => ret DoesNotExist
      end
  end.

End RoleMethods.


(** ** RolePacket: validation and creation *)
Module RolePacketMethods.

(** [self._meta.fields_map['name'].max_length], from
    [name = CharField(max_length=50)]. *)
Definition name_max_length : Z := 50.

Definition _pre_save (self : RolePacket.t) : outcome unit :=
  let max_name_length := name_max_length in
  if max_name_length <? Z.of_nat (String.length (RolePacket.name self)) then
    Raised FieldError
  else if bool_decide (RolePacket.name self = EmptyString) then Raised FieldError
  else if RolePacket.default_role_duration self <? 0 then Raised FieldError
  else Returned tt.

(** [unique_together = (("name", "guild"),)]: a stored packet of guild
    [guild_id] has the name [name]. *)
Definition name_taken (guild_id : Z) (name : string) (d : DB) : bool :=
  bool_decide (map_Exists (fun _ r => c_packet_guild_id r = guild_id /\ c_name r = name)
                 (role_packets d)).

(** [guild = ForeignKeyField("models.Guild", ...)]: the foreign key of the
    table. *)
Definition foreign_keys (row : RolePacketRow) (d : DB) : bool :=
  bool_decide (is_Some (guilds d !! c_packet_guild_id row)).

(** [RolePacket.create(guild=..., name=..., default_role_duration=...)].
    The instance gets its primary key from the insert; [_pre_save] does not
    read it, so the key the storage will hand out is looked up first.  The
    storage refuses a second packet with the same name in the same guild,
    and a packet of a guild that is not stored. *)
Definition create (guild : Guild.t) (name : string) (default_role_duration : Z)
  : db_op RolePacket.t :=
  k <- query (fun d => fresh (dom (role_packets d))) ;;
  let self := RolePacket.mk k (Some (Fetched guild)) name default_role_duration in
  let row := mkRolePacketRow (Guild.id guild) name default_role_duration in
  lift (_pre_save self) ;;;
  refused <- query (fun d => negb (foreign_keys row d)
                             || name_taken (Guild.id guild) name d) ;;
  if refused then raise IntegrityError
  else
    execute (fun d => set_role_packets (<[k := row]> (role_packets d)) d) ;;;
    ret self.

End RolePacketMethods.

(** ** AuthorizedRole *)
Module AuthorizedRole.

Module AuthorizationLevel.
Definition moderator : Z := 1.
Definition administrator : Z := 2.
Definition is_valid (authorization_level : Z) : bool :=
  (1 <=? authorization_level) && (authorization_level <=? 2).
End AuthorizationLevel.

Record t : Type := mk {
  role : ForeignKeyRelation Role.t;
  guild : option (ForeignKeyRelation Guild.t);
  authorization_level : Z
}.

Definition set_guild (g : option (ForeignKeyRelation Guild.t)) (self : t) : t :=
  mk (role self) g (authorization_level self).

(** Returns the instance, whose [guild] attribute the hook may have
    replaced by the fetched guild. *)
Definition _pre_save (self : t) : db_op t :=
  if negb (AuthorizationLevel.is_valid (authorization_level self)) then
    raise FieldError
  else
    match role self with
    | QuerySet _ => raise AttributeError
    | Fetched r =>
        role_guild <- PacketRole.load_guild (Role.guild r) ;;
        self <- match guild self with
                | Some (QuerySet fk) =>
                    g <- Guild.first fk ;;
                    ret (set_guild (Fetched <$> g) self)
                | _ => ret self
                end ;;
        a <- lift (PacketRole.guild_id_of role_guild) ;;
        b <- match guild self with
             | Some (Fetched g) => ret (Guild.id g)
             | _ => raise AttributeError
             end ;;
        if negb (a =? b) then raise IntegrityError else ret self
    end.

End AuthorizedRole.

(** ** Guild: validation and creation *)
Module GuildMethods.

Definition MAX_PREFIX_LENGTH : Z := 10.
Definition MAX_BRANDING_LENGTH : Z := 50.
(** [max_length] of the fields [custom_license_format] and [language]. *)
Definition custom_license_format_max_length : Z := 100.
Definition language_max_length : Z := 2.

(** The fields of a guild that [_pre_save] checks, with its primary key. *)
Record t : Type := mk {
  id : Z;
  custom_prefix : string;
  custom_license_format : string;
  license_branding : string;
  timezone : Z;
  language : string
}.

Section Validation.

(** [LicenseFormatter.is_secure] of [bot.utils.licence_helper] and
    [LANGUAGES] of [bot.utils.i18n_handler], two modules that are missing,
    and Python's [str.islower] on one character. *)
Variable is_secure : string -> bool.
Variable LANGUAGES : list string.
Variable islower : ascii -> bool.

Definition _pre_save (self : t) : outcome unit :=
  if Z.of_nat (String.length (custom_prefix self)) >? MAX_PREFIX_LENGTH then
    Raised FieldError
  else if Z.of_nat (String.length (custom_license_format self))
          >? custom_license_format_max_length then
    Raised FieldError
  else if negb (bool_decide (custom_license_format self = EmptyString))
          && negb (is_secure (custom_license_format self)) then
    Raised FieldError
  else if Z.of_nat (String.length (license_branding self)) >? MAX_BRANDING_LENGTH then
    Raised FieldError
  else if negb ((-12 <=? timezone self) && (timezone self <? 15)) then
    Raised FieldError
  else if existsb (fun char => negb (islower char))
            (list_ascii_of_string (language self)) then
    Raised FieldError
  else if negb (bool_decide (language self ∈ LANGUAGES))
          || (Z.of_nat (String.length (language self)) >? language_max_length) then
    Raised FieldError
  else Returned tt.

(** [Guild.create(id=..., ...)], the keyword [reminder_activations] being
    omitted ([None]) or an instance. *)
Definition create (self : t) (reminder_activations : option ReminderActivations.t)
  : db_op Guild.t :=
  reminder_activations <-
    match reminder_activations with
    | Some ra => ret ra
    | None => ReminderActivations.create None None None None None
    end ;;
  match ReminderActivations.id reminder_activations with
  | None => raise OperationalError
  | Some k =>
      lift (_pre_save self) ;;;
      execute_insert guilds set_guilds (fun _ => Guild.foreign_keys) (id self)
        (mkGuildRow (custom_license_format self) (license_branding self) k) ;;;
      ret (Guild.mk (id self) (custom_license_format self) (license_branding self)
             (Fetched reminder_activations))
  end.

End Validation.

End GuildMethods.

(** ** The cog [Roles] *)
Module Roles.

Definition set_tier (tier_level tier_power : Z) (role : Role.t) : Role.t :=
  Role.mk (Role.id role) (Role.guild role) tier_level tier_power
          (Role._saved_in_db role).

(** The command [edit_role], for the guild [guild_id] of the invocation and
    the id of the role argument.  [IntegrityError] is the one exception the
    command catches. *)
Definition edit_role (guild_id role_id tier_level tier_power : Z)
  : db_op (fetched embed) :=
  role <- RoleMethods.get_or_create_easy guild_id role_id ;;
  match role with
  | DoesNotExist => ret DoesNotExist
  | Found role =>
      let role := set_tier tier_level tier_power role in
      try_except (Role.save role ;;; ret (Found success))
                 is_IntegrityError
                 (ret (Found failure))
  end.

(** The command [show_tier_hierarchy], up to the dictionary [levels] it
    prints. *)

(** The sort key [(_role.tier_power, _role.tier_level)] and the order of
    Python on pairs. *)
Definition sort_key (_role : Role.t) : Z * Z :=
  (Role.tier_power _role, Role.tier_level _role).

Definition key_le (a b : Z * Z) : bool :=
  (a.1 <? b.1) || ((a.1 =? b.1) && (a.2 <=? b.2)).

(** [sorted(roles, key=...)].  Python's sort is stable, and a stable sort has
    one result: the one this insertion sort computes, which puts an element
    in front of the elements after it whose key is not smaller. *)
Fixpoint insert_by_key (x : Role.t) (l : list Role.t) : list Role.t :=
  match l with
  | [] => [x]
  | y :: l' =>
      if key_le (sort_key x) (sort_key y) then x :: y :: l'
      else y :: insert_by_key x l'
  end.

Definition sorted (roles : list Role.t) : list Role.t :=
  foldr insert_by_key [] roles.

(** [levels.setdefault(k, []); levels[k].append(v)] on a dictionary, which
    keeps its keys in the order of their first insertion. *)
Fixpoint setdefault_append (k : Z) (v : Z * Z) (levels : list (Z * list (Z * Z)))
  : list (Z * list (Z * Z)) :=
  match levels with
  | [] => [(k, [v])]
  | (k', vs) :: rest =>
      if decide (k = k') then (k', vs ++ [v]) :: rest
      else (k', vs) :: setdefault_append k v rest
  end.

Definition entry (role : Role.t) : Z * Z := (Role.id role, Role.tier_level role).

(** The loop over [hierarchy] that fills [levels]. *)
Definition fill_levels (hierarchy : list Role.t) (levels : list (Z * list (Z * Z)))
  : list (Z * list (Z * Z)) :=
  fold_left (fun levels role =>
               setdefault_append (Role.tier_power role) (entry role) levels)
            hierarchy levels.

(** [None] stands for the reply sent when the query found no role. *)
Definition tier_hierarchy (roles : list Role.t) : option (list (Z * list (Z * Z))) :=
  match roles with
  | [] => None
  | _ => Some (fill_levels (sorted roles) [])
  end.

End Roles.

(** ** The cog [Configuration] *)
Module Configuration.

(** [await models.ReminderActivations.get(guild__id=guild_id)]: the reminder
    row the guild row points to. *)
Definition get_reminders_of_guild (guild_id : Z) : db_op (fetched ReminderActivations.t) :=
  query (fun d =>
    match guilds d !! guild_id with
    | Some g =>
        match reminders_settings d !! c_guild_reminder_activations_id g with
        | Some r =>
            Found (ReminderActivations.of_row (c_guild_reminder_activations_id g) r)
        | None => DoesNotExist
        end
    | None => DoesNotExist
    end).

(** The command [edit_default_reminders]; the last four arguments may be
    left out and are then 0.  [FieldError] is the one exception the command
    catches. *)
Definition edit_default_reminders (guild_id first_activation : Z)
    (second_activation third_activation fourth_activation fifth_activation : option Z)
  : db_op (fetched embed) :=
  reminders <- get_reminders_of_guild guild_id ;;
  match reminders with
  | DoesNotExist => ret DoesNotExist
  | Found reminders =>
      let reminders :=
        ReminderActivations.mk (ReminderActivations.id reminders) first_activation
          (default 0 second_activation) (default 0 third_activation)
          (default 0 fourth_activation) (default 0 fifth_activation) in
      try_except (ReminderActivations.save reminders ;;; ret (Found success))
                 is_FieldError
                 (ret (Found failure))
  end.

(** [await models.Guild.get(id=guild_id).update(license_branding=...)]: an
    update statement on the rows with that id; it changes nothing, and raises
    nothing, when there is none. *)
Definition update_license_branding (guild_id : Z) (license_branding : string)
  : db_op unit :=
  execute (fun d =>
    match guilds d !! guild_id with
    | Some g =>
        set_guilds (<[guild_id := mkGuildRow (c_custom_license_format g) license_branding
                                    (c_guild_reminder_activations_id g)]> (guilds d)) d
    | None => d
    end).

Definition update_custom_license_format (guild_id : Z) (license_format : string)
  : db_op unit :=
  execute (fun d =>
    match guilds d !! guild_id with
    | Some g =>
        set_guilds (<[guild_id := mkGuildRow license_format (c_license_branding g)
                                    (c_guild_reminder_activations_id g)]> (guilds d)) d
    | None => d
    end).

(** The command [license_branding]. *)
Definition license_branding (guild_id : Z) (license_branding : string) : db_op embed :=
  if Z.of_nat (String.length license_branding) >? GuildMethods.MAX_BRANDING_LENGTH then
    ret failure
  else
    update_license_branding guild_id license_branding ;;;
    ret success.

Section LicenseFormat.

(** [LicenseFormatter.is_secure] of the missing [bot.utils.licence_helper]. *)
Variable is_secure : string -> bool.

(** The command [license_format]. *)
Definition license_format (guild_id : Z) (license_format : string) : db_op embed :=
  if is_secure license_format then
    update_custom_license_format guild_id license_format ;;;
    ret success
  else ret failure.

End LicenseFormat.

End Configuration.

(** * Stated properties of the further operations *)

(** The tier values [tier_level], [tier_power] pass the range checks of
    [Role._pre_save]. *)
Definition tier_values_in_range (tier_level tier_power : Z) : Prop :=
  0 <= tier_level <= 100 /\ 0 <= tier_power <= 9.

(** Another stored role of guild [gid] holds the slot
    ([tier_level], [tier_power]). *)
Definition slot_taken_in (d : DB) (gid rid tier_level tier_power : Z) : Prop :=
  exists j rj, roles d !! j = Some rj /\ j <> rid /\
    c_role_guild_id rj = gid /\ c_tier_level rj = tier_level /\
    c_tier_power rj = tier_power.

(** The name and the default duration pass the checks of
    [RolePacket._pre_save]. *)
Definition packet_fields_valid (name : string) (default_role_duration : Z) : Prop :=
  1 <= Z.of_nat (String.length name) <= 50 /\ 0 <= default_role_duration.

(** A stored packet of guild [gid] is called [name]. *)
Definition packet_name_taken (d : DB) (gid : Z) (name : string) : Prop :=
  exists j r, role_packets d !! j = Some r /\ c_packet_guild_id r = gid /\ c_name r = name.

(** Every stored packet passed the checks, and no two packets of a guild
    share their name. *)
Definition stored_packets_valid (d : DB) : Prop :=
  forall k r, role_packets d !! k = Some r ->
    packet_fields_valid (c_name r) (c_default_role_duration r).

Definition packet_names_unique (d : DB) : Prop :=
  forall i j ri rj, role_packets d !! i = Some ri -> role_packets d !! j = Some rj ->
    c_packet_guild_id ri = c_packet_guild_id rj -> c_name ri = c_name rj -> i = j.

(** The duration [PacketRole.create] stores: the packet default stands in
    for a duration that is left out or 0. *)
Definition effective_duration (p : RolePacket.t) (duration : option Z) : Z :=
  match duration with
  | Some v => if v =? 0 then RolePacket.default_role_duration p else v
  | None => RolePacket.default_role_duration p
  end.

Definition license_uses_7 : MultipleUseLicense.t :=
  MultipleUseLicense.mk license_14 1000001.

(** The role of an authorized role is fetched, and its guild and the guild
    of the entry load to guilds with the same id. *)
Definition authorized_guilds_match (d : DB) (self : AuthorizedRole.t) : Prop :=
  match AuthorizedRole.role self with
  | Fetched r =>
      exists g1 g2,
        loaded_guild d (Role.guild r) = Some g1 /\
        loaded_guild d (AuthorizedRole.guild self) = Some g2 /\
        Guild.id g1 = Guild.id g2
  | QuerySet _ => False
  end.

(** The conditions [Guild._pre_save] asks of the fields of a guild. *)
Definition guild_fields_valid (is_secure : string -> bool) (LANGUAGES : list string)
    (islower : ascii -> bool) (self : GuildMethods.t) : Prop :=
  Z.of_nat (String.length (GuildMethods.custom_prefix self)) <= 10 /\
  Z.of_nat (String.length (GuildMethods.custom_license_format self)) <= 100 /\
  (GuildMethods.custom_license_format self = EmptyString \/
   is_secure (GuildMethods.custom_license_format self) = true) /\
  Z.of_nat (String.length (GuildMethods.license_branding self)) <= 50 /\
  -12 <= GuildMethods.timezone self <= 14 /\
  Forall (fun char => islower char = true)
         (list_ascii_of_string (GuildMethods.language self)) /\
  GuildMethods.language self ∈ LANGUAGES /\
  Z.of_nat (String.length (GuildMethods.language self)) <= 2.

(** No stored guild has a branding of more than 50 characters; every stored
    license format is empty or secure. *)
Definition brandings_short (d : DB) : Prop :=
  forall i g, guilds d !! i = Some g ->
    Z.of_nat (String.length (c_license_branding g)) <= 50.

Definition formats_secure (is_secure : string -> bool) (d : DB) : Prop :=
  forall i g, guilds d !! i = Some g ->
    c_custom_license_format g = EmptyString \/ is_secure (c_custom_license_format g) = true.

(** Sample values: the lower-case ASCII letters, two languages, a formatter
    that takes templates of 14 characters or more to be secure, and the
    fields of a guild with its defaults. *)
Definition ascii_islower (c : ascii) : bool :=
  (97 <=? Z.of_nat (nat_of_ascii c)) && (Z.of_nat (nat_of_ascii c) <=? 122).
Definition sample_languages : list string := ["en"; "hr"]%string.
Definition long_is_secure (template : string) : bool :=
  14 <=? Z.of_nat (String.length template).
Definition guild_fields_default : GuildMethods.t :=
  GuildMethods.mk 7 "" "" "" 0 "en".
Definition guild_fields_timezone_15 : GuildMethods.t :=
  GuildMethods.mk 7 "" "" "" 15 "en".

(** The order of [sorted] on roles: by [tier_power], then by
    [tier_level]. *)
Definition key_order (a b : Role.t) : Prop :=
  Roles.key_le (Roles.sort_key a) (Roles.sort_key b) = true.

(** The list stored under key [p] of the dictionary, empty when there is
    none. *)
Fixpoint group_of (p : Z) (levels : list (Z * list (Z * Z))) : list (Z * Z) :=
  match levels with
  | [] => []
  | (k, vs) :: rest => if decide (p = k) then vs else group_of p rest
  end.

(** The roles of a list with [tier_power] [p], in the order of the list. *)
Definition with_power (p : Z) (roles : list Role.t) : list Role.t :=
  filter (fun r => Role.tier_power r = p) roles.

(** Three roles of guild 7. *)
Definition sample_roles : list Role.t :=
  [Role.mk 11 (Some (QuerySet 7)) 2 2 true;
   Role.mk 12 (Some (QuerySet 7)) 1 1 true;
   Role.mk 13 (Some (QuerySet 7)) 1 2 true].

(** * Properties *)

(** ** The storage monad *)

Lemma bind_returned {A B} (m : db_op A) (k : A -> db_op B) d b d' w :
  bind m k d = (Returned b, d', w) ->
  exists a d1 w1 w2,
    m d = (Returned a, d1, w1) /\ k a d1 = (Returned b, d', w2) /\ w = w1 ++ w2.
Proof.
  unfold bind. destruct (m d) as [[[a|e] d1] w1]; [|discriminate].
  destruct (k a d1) as [[r d2] w2] eqn:Hk. intros [= -> -> <-].
  exists a, d1, w1, w2. auto.
Qed.

Lemma bind_step {A B} (m : db_op A) (k : A -> db_op B) d a d1 w1 :
  m d = (Returned a, d1, w1) ->
  bind m k d = (let '(r, d2, w2) := k a d1 in (r, d2, w1 ++ w2)).
Proof. unfold bind. intros ->. reflexivity. Qed.

Lemma bind_raised {A B} (m : db_op A) (k : A -> db_op B) d e d1 w1 :
  m d = (Raised e, d1, w1) -> bind m k d = (Raised e, d1, w1).
Proof. unfold bind. intros ->. reflexivity. Qed.

Lemma bind_pure {A B} (m : db_op A) (k : A -> db_op B) d a :
  m d = (Returned a, d, []) -> bind m k d = k a d.
Proof.
  unfold bind. intros ->. destruct (k a d) as [[r d2] w2]. reflexivity.
Qed.

Lemma bind_write {A B} (m : db_op A) (k : A -> db_op B) d a d1 w1 :
  m d = (Returned a, d1, w1) -> bind m k d = after_writes w1 (k a d1).
Proof.
  unfold bind, after_writes. intros ->. destruct (k a d1) as [[r d2] w2]. reflexivity.
Qed.

(** The write statements, as one case distinction each. *)
Lemma execute_insert_run {K R : Type} `{Countable K}
    (table : DB -> gmap K R) (set_table : gmap K R -> DB -> DB)
    (constraints : K -> R -> DB -> bool) (k : K) (row : R) (d : DB) :
  execute_insert table set_table constraints k row d
  = if negb (constraints k row d) || bool_decide (is_Some (table d !! k))
    then (Raised IntegrityError, d, [])
    else (Returned tt, set_table (<[k := row]> (table d)) d,
          [set_table (<[k := row]> (table d)) d]).
Proof.
  unfold execute_insert, bind, query, raise, execute. cbn.
  destruct (negb (constraints k row d) || bool_decide (is_Some (table d !! k)));
    reflexivity.
Qed.

Lemma execute_update_run {K R : Type} `{Countable K}
    (table : DB -> gmap K R) (set_table : gmap K R -> DB -> DB)
    (constraints : K -> R -> DB -> bool) (k : K) (row : R) (d : DB) :
  execute_update table set_table constraints k row d
  = if negb (constraints k row d) && bool_decide (is_Some (table d !! k))
    then (Raised IntegrityError, d, [])
    else
      let d' := match table d !! k with
                | Some _ => set_table (<[k := row]> (table d)) d
                | None => d
                end in
      (Returned tt, d', [d']).
Proof.
  unfold execute_update, bind, query, raise, execute. cbn.
  destruct (negb (constraints k row d) && bool_decide (is_Some (table d !! k)));
    reflexivity.
Qed.

Lemma execute_insert_generated_run {K R : Type} `{Countable K} `{Fresh K (gset K)}
    (table : DB -> gmap K R) (set_table : gmap K R -> DB -> DB)
    (constraints : K -> R -> DB -> bool) (row : R) (d : DB) :
  let k := fresh (dom (table d)) in
  execute_insert_generated table set_table constraints row d
  = if negb (constraints k row d) then (Raised IntegrityError, d, [])
    else (Returned k, set_table (<[k := row]> (table d)) d,
          [set_table (<[k := row]> (table d)) d]).
Proof.
  cbv zeta. unfold execute_insert_generated, bind, query, raise, execute, ret. cbn.
  destruct (negb (constraints (fresh (dom (table d))) row d)); reflexivity.
Qed.

(** ** ReminderActivations *)

Ltac z_cases :=
  repeat match goal with
  | |- context [?a <? ?b] => destruct (Z.ltb_spec a b)
  | |- context [?a <=? ?b] => destruct (Z.leb_spec a b)
  | |- context [?a >? ?b] => rewrite (Z.gtb_ltb a b)
  | |- context [?a =? ?b] => destruct (Z.eqb_spec a b)
  end.

Lemma post_save_accepts (self : ReminderActivations.t) :
  ReminderActivations._post_save self = Returned tt <-> accepted_activations self.
Proof.
  destruct self as [k a1 a2 a3 a4 a5].
  unfold ReminderActivations._post_save, accepted_activations,
    ReminderActivations._check_valid_first_activation,
    ReminderActivations._check_activation_ranges,
    ReminderActivations._check_valid_order_activations,
    ReminderActivations.__getitem__, ReminderActivations.get_all_activations.
  cbn. z_cases; cbn; split; intros; try discriminate; try reflexivity; lia.
Qed.

Lemma post_save_raises_FieldError (self : ReminderActivations.t) e :
  ReminderActivations._post_save self = Raised e -> e = FieldError.
Proof.
  destruct self as [k a1 a2 a3 a4 a5].
  unfold ReminderActivations._post_save,
    ReminderActivations._check_valid_first_activation,
    ReminderActivations._check_activation_ranges,
    ReminderActivations._check_valid_order_activations,
    ReminderActivations.__getitem__, ReminderActivations.get_all_activations.
  cbn. z_cases; cbn; congruence.
Qed.

(** Every row the documentation allows is accepted by the checks. *)
Lemma documented_valid_accepted (self : ReminderActivations.t) :
  documented_valid self -> ReminderActivations._post_save self = Returned tt.
Proof.
  intros (H1 & H2 & H3). apply post_save_accepts.
  destruct self as [k a1 a2 a3 a4 a5].
  unfold accepted_activations, strictly_ordered,
    ReminderActivations.get_all_activations in *.
  cbn in *. rewrite !Forall_cons in H2. destruct H2 as (? & ? & ? & ? & ? & _).
  repeat match goal with
  | H : _ && _ = true |- _ => apply andb_prop in H; destruct H
  | H : _ || _ = true |- _ => apply orb_prop in H
  end.
  repeat match goal with
  | H : _ \/ _ |- _ => destruct H
  | H : (_ =? _) = true |- _ => apply Z.eqb_eq in H
  | H : (_ <? _) = true |- _ => apply Z.ltb_lt in H
  end; lia.
Qed.

(** How [save] of a new instance runs on any storage: the row is inserted
    under an unused key, and only then do the checks of [_post_save] decide
    the result. *)
Lemma reminder_save_new (d : DB) (self : ReminderActivations.t) :
  ReminderActivations.id self = None ->
  let k := fresh (dom (reminders_settings d)) in
  let d' := set_reminders_settings
              (<[k := ReminderActivations.to_row self]> (reminders_settings d)) d in
  reminders_settings d !! k = None /\
  ReminderActivations.save self d =
    (and_then (ReminderActivations._post_save self)
       (fun _ => Returned (ReminderActivations.set_id k self)), d', [d']).
Proof.
  intros Hid k d'. split.
  - apply not_elem_of_dom. apply is_fresh.
  - unfold ReminderActivations.save. rewrite Hid.
    unfold execute_insert_generated, bind, query, execute, ret, lift. cbn.
    fold k. fold d'.
    replace (ReminderActivations._post_save (ReminderActivations.set_id k self))
      with (ReminderActivations._post_save self) by (destruct self; reflexivity).
    destruct (ReminderActivations._post_save self) as [[]|e]; reflexivity.
Qed.

(** C2: the checks accept a row whose first two activations are the same
    non-zero value, although such a row is not strictly decreasing: saving
    (5, 5, 0, 0, 0) returns and stores the row. *)
Theorem reminder_equal_activations_accepted :
  let self := ReminderActivations.mk None 5 5 0 0 0 in
  ~ documented_valid self /\
  ReminderActivations._post_save self = Returned tt /\
  exists k,
    result_of (ReminderActivations.save self empty_db)
      = Returned (ReminderActivations.set_id k self) /\
    reminders_settings (db_after (ReminderActivations.save self empty_db)) !! k
      = Some (mkReminderRow 5 5 0 0 0).
Proof.
  cbv zeta. split; [|split].
  - intros (_ & _ & H). vm_compute in H. discriminate.
  - reflexivity.
  - eexists. split; vm_compute; reflexivity.
Qed.

(** C5: the validity checks run in [_post_save], after the write.  Saving
    the new row (0, 0, 0, 0, 0), whose first activation is not enabled,
    raises [FieldError] and nevertheless leaves the row in the storage. *)
Theorem reminder_rejected_row_is_persisted :
  let self := ReminderActivations.mk None 0 0 0 0 0 in
  let r := ReminderActivations.save self empty_db in
  result_of r = Raised FieldError /\
  db_after r <> empty_db /\
  exists k, reminders_settings (db_after r) !! k = Some (mkReminderRow 0 0 0 0 0).
Proof.
  cbv zeta. split; [|split].
  - vm_compute. reflexivity.
  - intros H. apply (f_equal (fun d => size (reminders_settings d))) in H.
    vm_compute in H. discriminate.
  - exists 0. vm_compute. reflexivity.
Qed.

(** On every storage, a new row that fails the checks is written all the
    same, under a key that was free before. *)
Lemma reminder_rejected_insert_persists (d : DB) (self : ReminderActivations.t) e :
  ReminderActivations.id self = None ->
  ReminderActivations._post_save self = Raised e ->
  let r := ReminderActivations.save self d in
  result_of r = Raised FieldError /\
  exists k, reminders_settings d !! k = None /\
    reminders_settings (db_after r) !! k = Some (ReminderActivations.to_row self).
Proof.
  intros Hid He r. destruct (reminder_save_new d self Hid) as [Hfree Hrun].
  subst r. rewrite Hrun, He. cbn. split.
  - f_equal. eapply post_save_raises_FieldError, He.
  - eexists. split; [exact Hfree|]. unfold db_after. cbn. apply lookup_insert_eq.
Qed.

(** ** Role *)

Lemma slot_taken_spec (d : DB) (self : Role.t) :
  map_Exists (Role.same_slot_other_role self) (roles d) <-> slot_held_by_other d self.
Proof.
  rewrite map_Exists_lookup. unfold slot_held_by_other, Role.same_slot_other_role.
  split; intros (j & rj & H1 & H2 & H3 & H4); exists j, rj; repeat split;
    try tauto; symmetry; tauto.
Qed.

Lemma tier_in_range_checks (self : Role.t) :
  tier_in_range self <->
  negb ((0 <=? Role.tier_level self) && (Role.tier_level self <=? 100)) = false /\
  negb ((0 <=? Role.tier_power self) && (Role.tier_power self <=? 9)) = false.
Proof.
  unfold tier_in_range. rewrite !negb_false_iff, !andb_true_iff, !Z.leb_le. tauto.
Qed.

(** What [_pre_save] does: it never writes; it raises [FieldError] exactly
    on tier values out of range and [IntegrityError] exactly when another
    role of the guild holds the slot; otherwise it hands back the instance
    with its guild fetched. *)
Lemma role_pre_save_spec (d : DB) (self : Role.t) :
  exists o, Role._pre_save self d = (o, d, []) /\
  match o with
  | Raised e =>
      (~ tier_in_range self /\ e = FieldError) \/
      (tier_in_range self /\ Role.tier_level self <> 0 /\
       e = IntegrityError /\ slot_held_by_other d self)
  | Returned self' =>
      tier_in_range self /\
      Role.id self' = Role.id self /\
      Role.tier_level self' = Role.tier_level self /\
      Role.tier_power self' = Role.tier_power self /\
      Role._saved_in_db self' = Role._saved_in_db self /\
      (Role.tier_level self <> 0 -> ~ slot_held_by_other d self') /\
      (Role.guild_id self' = Role.guild_id self \/
       (Role.guild_id self' = None /\ ~ guild_available d (Role.guild self)))
  end.
Proof.
  unfold Role._pre_save.
  destruct (negb ((0 <=? Role.tier_level self) && (Role.tier_level self <=? 100))) eqn:E1.
  { eexists; split; [reflexivity|]. left. split; [|reflexivity].
    rewrite tier_in_range_checks. rewrite E1. intros [? _]; discriminate. }
  destruct (negb ((0 <=? Role.tier_power self) && (Role.tier_power self <=? 9))) eqn:E2.
  { eexists; split; [reflexivity|]. left. split; [|reflexivity].
    rewrite tier_in_range_checks. rewrite E2. intros [_ ?]; discriminate. }
  assert (Hr : tier_in_range self) by (apply tier_in_range_checks; auto).
  destruct (Z.eqb_spec (Role.tier_level self) 0) as [E0|E0]; cbn [negb].
  { eexists; split; [reflexivity|]. repeat split; auto; try apply Hr; congruence. }
  assert (Hgen : forall self0 : Role.t,
            Role.id self0 = Role.id self -> Role.tier_level self0 = Role.tier_level self ->
            Role.tier_power self0 = Role.tier_power self ->
            Role._saved_in_db self0 = Role._saved_in_db self ->
            (Role.guild_id self0 = Role.guild_id self \/
             (Role.guild_id self0 = None /\ ~ guild_available d (Role.guild self))) ->
            (slot_held_by_other d self0 -> slot_held_by_other d self) ->
            exists o, (taken <- Role.slot_taken self0 ;;
                       if taken then raise IntegrityError else ret self0) d = (o, d, []) /\
              match o with
              | Raised e =>
                  (~ tier_in_range self /\ e = FieldError) \/
                  (tier_in_range self /\ Role.tier_level self <> 0 /\
                   e = IntegrityError /\ slot_held_by_other d self)
              | Returned self' =>
                  tier_in_range self /\
                  Role.id self' = Role.id self /\
                  Role.tier_level self' = Role.tier_level self /\
                  Role.tier_power self' = Role.tier_power self /\
                  Role._saved_in_db self' = Role._saved_in_db self /\
                  (Role.tier_level self <> 0 -> ~ slot_held_by_other d self') /\
                  (Role.guild_id self' = Role.guild_id self \/
                   (Role.guild_id self' = None /\ ~ guild_available d (Role.guild self)))
              end).
  { intros self0 H1 H2 H3 H4 H5 H6.
    unfold bind, Role.slot_taken, query, raise, ret.
    destruct (bool_decide (map_Exists (Role.same_slot_other_role self0) (roles d))) eqn:Et.
    - apply bool_decide_eq_true in Et. apply slot_taken_spec in Et.
      eexists; split; [reflexivity|]. right. auto.
    - apply bool_decide_eq_false in Et. rewrite slot_taken_spec in Et.
      eexists; split; [reflexivity|]. repeat split; auto; apply Hr. }
  destruct (Role.guild self) as [[g|fk]|] eqn:Eg.
  - rewrite bind_step with (a := self) (d1 := d) (w1 := []) by reflexivity.
    destruct (Hgen self) as (o & -> & Ho); auto. exists o. split; auto.
  - unfold Guild.first.
    rewrite bind_step with (a := Role.set_guild (Fetched <$> (Guild.of_row fk <$> guilds d !! fk)) self)
                           (d1 := d) (w1 := []) by reflexivity.
    destruct (Hgen (Role.set_guild (Fetched <$> (Guild.of_row fk <$> guilds d !! fk)) self))
      as (o & -> & Ho); auto.
    + unfold Role.guild_id. rewrite Eg. cbn. destruct (guilds d !! fk) eqn:Egl; cbn.
      * left; reflexivity.
      * right. split; [reflexivity|]. intros [? ?]; discriminate.
    + unfold slot_held_by_other, Role.guild_id. rewrite Eg. cbn.
      destruct (guilds d !! fk); cbn; intros (j & rj & ? & ? & ? & ? & ?); try discriminate.
      exists j, rj. auto.
    + exists o. split; auto.
  - rewrite bind_step with (a := self) (d1 := d) (w1 := []) by reflexivity.
    destruct (Hgen self) as (o & -> & Ho); auto. exists o. split; auto.
Qed.

Lemma slot_held_by_other_ext (d : DB) (a b : Role.t) :
  Role.id a = Role.id b -> Role.guild_id a = Role.guild_id b ->
  Role.tier_level a = Role.tier_level b -> Role.tier_power a = Role.tier_power b ->
  slot_held_by_other d a -> slot_held_by_other d b.
Proof.
  unfold slot_held_by_other. intros <- <- <- <-. auto.
Qed.

(** What [save] does, in every case: either it raises and the storage is
    as before, or the range checks and the slot check passed and the one
    write statement stored the tier values of the instance. *)
Lemma role_save_spec (d : DB) (self : Role.t) :
  let r := Role.save self d in
  (raises (result_of r) /\ db_after r = d /\ writes_of r = []) \/
  (exists gid saved,
     result_of r = Returned saved /\
     tier_in_range self /\
     Role.guild_id self = Some gid /\
     (Role.tier_level self <> 0 -> ~ slot_held_by_other d self) /\
     (Role._saved_in_db self = false -> roles d !! Role.id self = None) /\
     db_after r = role_written d self
                    (mkRoleRow gid (Role.tier_level self) (Role.tier_power self))).
Proof.
  cbv zeta. unfold Role.save.
  destruct (role_pre_save_spec d self) as (o & Hpre & Ho).
  destruct o as [self'|e].
  2:{ left. rewrite (bind_raised _ _ _ _ _ _ Hpre). cbn. auto. }
  rewrite (bind_step _ _ _ _ _ _ Hpre).
  destruct Ho as (Hr & Hid & Hl & Hp & Hs & Hfree & Hg).
  unfold Role.to_row. destruct Hg as [Hg|[Hg _]]; rewrite Hg; cbn.
  2:{ left. cbn. auto. }
  destruct (Role.guild_id self) as [gid|] eqn:Egid; cbn.
  2:{ left. cbn. auto. }
  rewrite Hs, Hid, Hl, Hp.
  assert (Hfree' : Role.tier_level self <> 0 -> ~ slot_held_by_other d self).
  { intros H0 Hh. apply (Hfree H0).
    apply (slot_held_by_other_ext d self self'); auto. congruence. }
  unfold role_written.
  destruct (Role._saved_in_db self) eqn:Esaved.
  - unfold bind. rewrite execute_update_run.
    destruct (negb _ && _); cbn; [left; auto|].
    right. exists gid. eexists. repeat split; auto; try apply Hr; discriminate.
  - unfold bind. rewrite execute_insert_run.
    destruct (negb _ || bool_decide (is_Some (roles d !! Role.id self))) eqn:Ep; cbn.
    + left. auto.
    + right. exists gid. eexists. repeat split; auto; try apply Hr.
      intros _. apply orb_false_iff in Ep. destruct Ep as [_ Ep].
      apply bool_decide_eq_false in Ep.
      apply eq_None_not_Some. exact Ep.
Qed.

(** Under the stated conditions [save] does return, and the row is there
    afterwards. *)
Lemma role_save_returns (d : DB) (self : Role.t) :
  tier_in_range self ->
  guild_available d (Role.guild self) ->
  (Role.tier_level self = 0 \/ ~ slot_held_by_other d self) ->
  role_flag_accurate d self ->
  exists gid saved,
    Role.guild_id self = Some gid /\
    result_of (Role.save self d) = Returned saved /\
    roles (db_after (Role.save self d)) !! Role.id self
      = Some (mkRoleRow gid (Role.tier_level self) (Role.tier_power self)).
Proof.
  intros Hr Hg Hfree Hflag. unfold Role.save.
  destruct (role_pre_save_spec d self) as (o & Hpre & Ho).
  destruct o as [self'|e].
  2:{ destruct Ho as [[Hn _]|(_ & H0 & _ & Hh)]; [tauto|]. destruct Hfree; tauto. }
  rewrite (bind_step _ _ _ _ _ _ Hpre).
  destruct Ho as (_ & Hid & Hl & Hp & Hs & _ & Hgid).
  destruct Hgid as [Hgid|[_ Hgid]]; [|tauto].
  assert (exists gid, Role.guild_id self = Some gid /\ is_Some (guilds d !! gid))
    as (gid & Egid & Hstored).
  { unfold Role.guild_id. unfold guild_available in Hg.
    destruct (Role.guild self) as [[g|fk]|]; eauto. tauto. }
  unfold Role.to_row. rewrite Hgid, Egid. cbn. rewrite Hs, Hid, Hl, Hp.
  assert (Hfk : Role.foreign_keys
                  (mkRoleRow gid (Role.tier_level self) (Role.tier_power self)) d = true)
    by (apply bool_decide_eq_true; exact Hstored).
  unfold role_flag_accurate in Hflag. exists gid.
  destruct (Role._saved_in_db self) eqn:Esaved.
  - symmetry in Hflag. apply bool_decide_eq_true in Hflag. destruct Hflag as [r0 Hr0].
    eexists. unfold bind. rewrite execute_update_run, Hfk. cbn. rewrite Hr0.
    repeat split; auto. cbn. apply lookup_insert_eq.
  - unfold bind. rewrite execute_insert_run, Hfk.
    rewrite <- Hflag. cbn. eexists. repeat split; auto. apply lookup_insert_eq.
Qed.

Lemma role_written_cases (d : DB) (self : Role.t) (row : RoleRow) :
  role_written d self row = d \/
  role_written d self row = set_roles (<[Role.id self := row]> (roles d)) d.
Proof.
  unfold role_written. destruct (Role._saved_in_db self); auto.
  destruct (roles d !! Role.id self); auto.
Qed.

Lemma tier_slots_unique_insert (d : DB) (k : Z) (row : RoleRow) :
  tier_slots_unique d ->
  (0 < c_tier_level row ->
   forall j rj, roles d !! j = Some rj -> j <> k ->
     c_role_guild_id rj = c_role_guild_id row ->
     c_tier_level rj = c_tier_level row ->
     c_tier_power rj = c_tier_power row -> False) ->
  tier_slots_unique (set_roles (<[k := row]> (roles d)) d).
Proof.
  intros Hu Hfree i j ri rj Hi Hj Hg Hl Hp Hpos. cbn in Hi, Hj.
  apply lookup_insert_Some in Hi. apply lookup_insert_Some in Hj.
  destruct Hi as [[<- <-]|[Hik Hi]], Hj as [[<- <-]|[Hjk Hj]]; auto.
  - exfalso. eapply (Hfree Hpos j rj); eauto; congruence.
  - exfalso. eapply (Hfree ltac:(lia) i ri); eauto.
  - eapply Hu; eauto.
Qed.

(** C1: a role whose tier slot is held by another role of its guild is
    refused and nothing is written; a role whose slot is free, or whose
    [tier_level] is 0, is stored, provided its tier values are in range, the
    row of its guild is stored and the instance knows whether its own row
    exists; and no save ever breaks the uniqueness of the non-zero slots of
    a guild. *)
Theorem role_tier_slot_unique (d : DB) (self : Role.t) :
  let r := Role.save self d in
  (slot_held_by_other d self -> 0 < Role.tier_level self ->
   raises (result_of r) /\ db_after r = d) /\
  (tier_in_range self -> guild_available d (Role.guild self) ->
   role_flag_accurate d self ->
   Role.tier_level self = 0 \/ ~ slot_held_by_other d self ->
   exists gid saved,
     Role.guild_id self = Some gid /\
     result_of r = Returned saved /\
     roles (db_after r) !! Role.id self
       = Some (mkRoleRow gid (Role.tier_level self) (Role.tier_power self))) /\
  (tier_slots_unique d -> tier_slots_unique (db_after r)).
Proof.
  cbv zeta. split; [|split].
  - intros Hheld Hpos.
    destruct (role_save_spec d self) as [(Hraise & Hd & _)|(gid & saved & _ & _ & _ & Hfree & _)].
    + auto.
    + exfalso. apply Hfree; [lia|exact Hheld].
  - intros Hr Hg Hflag Hfree. apply role_save_returns; auto.
  - intros Hu.
    destruct (role_save_spec d self)
      as [(_ & Hd & _)|(gid & saved & _ & Hr & Hgid & Hfree & _ & Hd)]; rewrite Hd; auto.
    destruct (role_written_cases d self
                (mkRoleRow gid (Role.tier_level self) (Role.tier_power self)))
      as [->| ->]; auto.
    apply tier_slots_unique_insert; auto. cbn.
    intros Hpos j rj Hj Hne Hg' Hl Hp.
    apply Hfree; [lia|]. exists j, rj. repeat split; auto. congruence.
Qed.

Lemma db_guild_one_role_unique : tier_slots_unique db_guild_one_role.
Proof.
  intros i j ri rj Hi Hj _ _ _ _. cbn in Hi, Hj.
  apply lookup_singleton_Some in Hi. apply lookup_singleton_Some in Hj.
  destruct Hi as [<- _], Hj as [<- _]. reflexivity.
Defined.

Lemma role_free_slot_is_free : ~ slot_held_by_other db_guild_one_role role_free_slot.
Proof.
  intros (j & rj & Hj & _ & _ & _ & Hp). cbn in Hj.
  apply lookup_singleton_Some in Hj. destruct Hj as [_ <-]. discriminate Hp.
Defined.

Lemma role_tier_slot_unique_witness :
  (raises (result_of (Role.save role_same_slot db_guild_one_role)) /\
   db_after (Role.save role_same_slot db_guild_one_role) = db_guild_one_role) /\
  (exists gid saved,
     Role.guild_id role_free_slot = Some gid /\
     result_of (Role.save role_free_slot db_guild_one_role) = Returned saved /\
     roles (db_after (Role.save role_free_slot db_guild_one_role)) !! 2
       = Some (mkRoleRow gid 1 2)) /\
  tier_slots_unique (db_after (Role.save role_free_slot db_guild_one_role)).
Proof.
  split; [|split].
  - apply (proj1 (role_tier_slot_unique db_guild_one_role role_same_slot)).
    + exists 1, (mkRoleRow 7 1 1).
      split; [cbn; apply lookup_singleton_eq|].
      split; [discriminate|]. repeat split.
    + cbn. lia.
  - apply (proj1 (proj2 (role_tier_slot_unique db_guild_one_role role_free_slot))).
    + unfold tier_in_range. cbn. lia.
    + eexists. reflexivity.
    + reflexivity.
    + right. exact role_free_slot_is_free.
  - apply (proj2 (proj2 (role_tier_slot_unique db_guild_one_role role_free_slot))).
    exact db_guild_one_role_unique.
Defined.

(** C6, the input that contradicts it: in a storage that holds its guild, a
    role with [tier_power] 0, outside 1..9, is saved without error and its
    row is stored. *)
Lemma role_tier_power_zero_is_stored :
  ~ (1 <= Role.tier_power role_power_zero <= 9) /\
  is_Some (guilds db_guild_only !! 7) /\
  Role.guild_id role_power_zero = Some 7 /\
  (exists saved, result_of (Role.save role_power_zero db_guild_only) = Returned saved) /\
  roles (db_after (Role.save role_power_zero db_guild_only)) !! 1
  = Some (mkRoleRow 7 0 0).
Proof.
  split; [cbn; lia|]. split; [eexists; reflexivity|]. split; [reflexivity|].
  split; [eexists|]; vm_compute; reflexivity.
Qed.

Lemma role_save_no_FieldError_in_range (d : DB) (self : Role.t) :
  tier_in_range self -> result_of (Role.save self d) <> Raised FieldError.
Proof.
  intros Hr. unfold Role.save.
  destruct (role_pre_save_spec d self) as (o & Hpre & Ho).
  destruct o as [self'|e].
  - rewrite (bind_step _ _ _ _ _ _ Hpre).
    destruct (Role.to_row self') as [row|]; [|cbn; discriminate].
    destruct (Role._saved_in_db self').
    + unfold bind. rewrite execute_update_run.
      destruct (negb _ && _); cbn; discriminate.
    + unfold bind. rewrite execute_insert_run.
      destruct (negb _ || _); cbn; discriminate.
  - rewrite (bind_raised _ _ _ _ _ _ Hpre). cbn.
    destruct Ho as [[Hn _]|(_ & _ & -> & _)]; [tauto|discriminate].
Qed.

Lemma stored_tiers_in_range_insert (d : DB) (k : Z) (row : RoleRow) :
  stored_tiers_in_range d ->
  0 <= c_tier_level row <= 100 /\ 0 <= c_tier_power row <= 9 ->
  stored_tiers_in_range (set_roles (<[k := row]> (roles d)) d).
Proof.
  intros Hs Hrow i r Hi. cbn in Hi. apply lookup_insert_Some in Hi.
  destruct Hi as [[_ <-]|[_ Hi]]; eauto.
Qed.

(** C6 as the code has it: a role is refused with [FieldError], and nothing
    is written, exactly when [tier_level] is outside 0..100 or [tier_power]
    is outside 0..9; the range checks let every other role through, a save
    that returns had its values in these ranges, and so has every stored
    role once all had. *)
Theorem role_tier_ranges (d : DB) (self : Role.t) :
  let r := Role.save self d in
  (~ tier_in_range self -> result_of r = Raised FieldError /\ db_after r = d) /\
  (tier_in_range self -> result_of r <> Raised FieldError) /\
  (forall saved, result_of r = Returned saved -> tier_in_range self) /\
  (stored_tiers_in_range d -> stored_tiers_in_range (db_after r)).
Proof.
  cbv zeta. split; [|split; [|split]].
  - intros Hn. unfold Role.save.
    destruct (role_pre_save_spec d self) as (o & Hpre & Ho).
    destruct o as [self'|e]; [tauto|].
    rewrite (bind_raised _ _ _ _ _ _ Hpre). cbn.
    destruct Ho as [[_ ->]|(Hr & _)]; [auto|tauto].
  - apply role_save_no_FieldError_in_range.
  - intros saved Hres.
    destruct (role_save_spec d self) as [(Hraise & _)|(gid & s & _ & Hr & _)]; auto.
    rewrite Hres in Hraise. destruct Hraise.
  - intros Hs.
    destruct (role_save_spec d self)
      as [(_ & Hd & _)|(gid & saved & _ & Hr & _ & _ & _ & Hd)]; rewrite Hd; auto.
    destruct (role_written_cases d self
                (mkRoleRow gid (Role.tier_level self) (Role.tier_power self)))
      as [->| ->]; auto.
    apply stored_tiers_in_range_insert; auto.
Qed.

Lemma role_tier_ranges_witness :
  (result_of (Role.save role_level_101 db_guild_only) = Raised FieldError /\
   db_after (Role.save role_level_101 db_guild_only) = db_guild_only) /\
  result_of (Role.save role_power_zero db_guild_only) <> Raised FieldError /\
  tier_in_range role_power_zero /\
  stored_tiers_in_range (db_after (Role.save role_power_zero db_guild_only)).
Proof.
  split; [|split; [|split]].
  - apply (proj1 (role_tier_ranges db_guild_only role_level_101)).
    unfold tier_in_range. cbn. lia.
  - apply (proj1 (proj2 (role_tier_ranges db_guild_only role_power_zero))).
    unfold tier_in_range. cbn. lia.
  - apply (proj1 (proj2 (proj2 (role_tier_ranges db_guild_only role_power_zero)))
             (Role.set_saved_in_db true role_power_zero)).
    vm_compute. reflexivity.
  - apply (proj2 (proj2 (proj2 (role_tier_ranges db_guild_only role_power_zero)))).
    intros i r Hi. cbn in Hi. rewrite lookup_empty in Hi. discriminate.
Defined.

(** ** PacketRole *)

Lemma load_guild_pure (d : DB) (rel : option (ForeignKeyRelation Guild.t)) :
  exists g, PacketRole.load_guild rel d = (Returned g, d, []).
Proof.
  destruct rel as [[g|fk]|]; cbn; eauto.
Qed.

Lemma packet_size_insert_le (d : DB) (k : Z) (row : PacketRoleRow) (pid : Z) :
  (packet_size (set_packet_roles (<[k := row]> (packet_roles d)) d) pid
   <= S (packet_size d pid))%nat.
Proof.
  unfold packet_size, RolePacket.packet_roles_of. cbn.
  rewrite map_filter_insert. case_decide.
  - rewrite map_size_insert. destruct (filter _ (packet_roles d) !! k); cbn; lia.
  - rewrite map_filter_delete, map_size_delete.
    destruct (filter _ (packet_roles d) !! k); cbn; lia.
Qed.

Lemma packet_size_insert_other (d : DB) (k : Z) (row : PacketRoleRow) (pid : Z) :
  c_role_packet_id row <> pid ->
  (packet_size (set_packet_roles (<[k := row]> (packet_roles d)) d) pid
   <= packet_size d pid)%nat.
Proof.
  intros Hne. unfold packet_size, RolePacket.packet_roles_of. cbn.
  rewrite map_filter_insert_False by (cbn; exact Hne).
  rewrite map_filter_delete, map_size_delete.
  destruct (filter _ (packet_roles d) !! k); cbn; lia.
Qed.

Lemma packet_size_insert_fresh (d : DB) (k : Z) (row : PacketRoleRow) :
  packet_roles d !! k = None ->
  packet_size (set_packet_roles (<[k := row]> (packet_roles d)) d) (c_role_packet_id row)
  = S (packet_size d (c_role_packet_id row)).
Proof.
  intros Hk. unfold packet_size, RolePacket.packet_roles_of. cbn.
  rewrite map_filter_insert_True by reflexivity.
  rewrite map_size_insert.
  rewrite (proj2 (map_lookup_filter_None _ _ _)); [reflexivity|].
  left. exact Hk.
Qed.

(** What [_pre_save] does: it never writes; when it returns, the duration
    is not negative and the packet has room for one more role; a full packet
    makes it raise; and it returns whenever duration, room and guilds are in
    order. *)
Lemma packet_role_pre_save_spec (d : DB) (self : PacketRole.t) :
  exists o, PacketRole._pre_save self d = (o, d, []) /\
    (o = Returned tt ->
     0 <= PacketRole.duration self /\
     Z.of_nat (packet_size d (PacketRole.role_packet_id self)) + 1
       <= RolePacket.MAXIMUM_ROLES) /\
    (RolePacket.MAXIMUM_ROLES
       <= Z.of_nat (packet_size d (PacketRole.role_packet_id self)) -> raises o) /\
    (0 <= PacketRole.duration self ->
     Z.of_nat (packet_size d (PacketRole.role_packet_id self)) + 1
       <= RolePacket.MAXIMUM_ROLES ->
     same_guild_available d self -> o = Returned tt).
Proof.
  unfold PacketRole._pre_save, same_guild_available, PacketRole.role_packet_id.
  pose proof (eq_refl : RolePacket.MAXIMUM_ROLES = 20) as Hmax.
  destruct (Z.ltb_spec (PacketRole.duration self) 0) as [Hd|Hd].
  { eexists. split; [reflexivity|].
    repeat split; try discriminate; try exact I; try lia. }
  destruct (PacketRole.role_packet self) as [p|fk].
  2:{ eexists. split; [reflexivity|].
      repeat split; try discriminate; try exact I.
      destruct (PacketRole.role self); tauto. }
  unfold RolePacket.count_packet_roles, packet_size.
  unfold bind at 1. unfold bind at 1. unfold query at 1. cbn beta iota.
  rewrite Z.gtb_ltb.
  destruct (Z.ltb_spec RolePacket.MAXIMUM_ROLES
              (Z.of_nat (size (RolePacket.packet_roles_of (RolePacket.id p) d)) + 1))
    as [Hfull|Hroom].
  { eexists. split; [reflexivity|].
    repeat split; try discriminate; try exact I; try lia. }
  cbn [ret raise].
  destruct (PacketRole.role self) as [r|fk].
  2:{ eexists. split; [reflexivity|].
      repeat split; try discriminate; try tauto; try lia. }
  destruct (load_guild_pure d (Role.guild r)) as [g1 Hg1].
  destruct (load_guild_pure d (RolePacket.guild p)) as [g2 Hg2].
  rewrite (bind_step _ _ _ _ _ _ Hg1), (bind_step _ _ _ _ _ _ Hg2).
  rewrite Hg1, Hg2. unfold result_of. cbn [fst snd].
  destruct g1 as [g1|]; cbn.
  2:{ eexists. split; [reflexivity|]. repeat split; try discriminate; try lia.
      intros _ _ (g1 & g2' & [=] & _). }
  destruct g2 as [g2|]; cbn.
  2:{ eexists. split; [reflexivity|]. repeat split; try discriminate; try lia.
      intros _ _ (g1' & g2' & _ & [=] & _). }
  destruct (Z.eqb_spec (Guild.id g1) (Guild.id g2)) as [He|He]; cbn.
  - eexists. split; [reflexivity|]. repeat split; auto; try lia.
  - eexists. split; [reflexivity|]. repeat split; try discriminate; try lia.
    intros _ _ (g1' & g2' & [= <-] & [= <-] & Heq). contradiction.
Qed.

(** What [save] does, in every case: either it raises and the storage is
    as before, or [_pre_save] let it through and its one write statement
    stored the row of the instance, under a new key for a new instance. *)
Lemma packet_role_save_spec (d : DB) (self : PacketRole.t) :
  let r := PacketRole.save self d in
  (raises (result_of r) /\ db_after r = d) \/
  (exists saved k,
     result_of r = Returned saved /\
     0 <= PacketRole.duration self /\
     Z.of_nat (packet_size d (PacketRole.role_packet_id self)) + 1
       <= RolePacket.MAXIMUM_ROLES /\
     (db_after r = d \/
      db_after r = set_packet_roles
                     (<[k := PacketRole.to_row self]> (packet_roles d)) d) /\
     (PacketRole.id self = None ->
      packet_roles d !! k = None /\
      db_after r = set_packet_roles
                     (<[k := PacketRole.to_row self]> (packet_roles d)) d)).
Proof.
  cbv zeta. unfold PacketRole.save.
  destruct (packet_role_pre_save_spec d self) as (o & Hpre & Hret & _ & _).
  destruct o as [[]|e].
  2:{ left. rewrite (bind_raised _ _ _ _ _ _ Hpre). cbn. auto. }
  rewrite (bind_step _ _ _ _ _ _ Hpre).
  destruct (Hret eq_refl) as [Hdur Hroom].
  destruct (PacketRole.id self) as [k|] eqn:Eid.
  - unfold bind. rewrite execute_update_run.
    destruct (negb _ && _); cbn; [left; auto|].
    right. eexists. exists k.
    split; [reflexivity|]. split; [exact Hdur|]. split; [exact Hroom|].
    split; [|discriminate].
    destruct (packet_roles d !! k); auto.
  - unfold bind.
    rewrite (execute_insert_generated_run packet_roles set_packet_roles
               PacketRole.constraints (PacketRole.to_row self) d).
    destruct (negb _); cbn; [left; auto|].
    right. eexists. exists (fresh (dom (packet_roles d))).
    split; [reflexivity|]. split; [exact Hdur|]. split; [exact Hroom|].
    split; [right; reflexivity|]. intros _. split; [|reflexivity].
    apply not_elem_of_dom. apply is_fresh.
Qed.

(** The constraints of the table let a row through when the rows it names
    are stored and the packet does not hold the role yet. *)
Lemma packet_role_constraints_hold (d : DB) (self : PacketRole.t) (k : Z) :
  role_and_packet_stored d self ->
  ~ role_in_packet d (PacketRole.role_id self) (PacketRole.role_packet_id self) ->
  PacketRole.constraints k (PacketRole.to_row self) d = true.
Proof.
  intros [Hr Hp] Hnot.
  unfold PacketRole.constraints, PacketRole.foreign_keys, PacketRole.unique_together.
  cbn [PacketRole.to_row c_role_id c_role_packet_id].
  rewrite !bool_decide_eq_true_2 by assumption. cbn [andb].
  apply negb_true_iff, bool_decide_eq_false. rewrite map_Exists_lookup.
  intros (j & r & Hj & _ & H1 & H2). apply Hnot. exists j, r. auto.
Qed.

(** They refuse a new row for a role the packet already holds. *)
Lemma packet_role_constraints_duplicate (d : DB) (self : PacketRole.t) (k : Z) :
  packet_roles d !! k = None ->
  role_in_packet d (PacketRole.role_id self) (PacketRole.role_packet_id self) ->
  PacketRole.constraints k (PacketRole.to_row self) d = false.
Proof.
  intros Hk (j & r & Hj & H1 & H2).
  unfold PacketRole.constraints, PacketRole.unique_together.
  apply andb_false_iff. right. apply negb_false_iff, bool_decide_eq_true.
  rewrite map_Exists_lookup. exists j, r. split; [exact Hj|].
  split; [congruence|]. cbn. auto.
Qed.

(** Under the stated conditions a new packet role is stored, and its packet
    has one role more. *)
Lemma packet_role_save_returns (d : DB) (self : PacketRole.t) :
  PacketRole.id self = None ->
  0 <= PacketRole.duration self ->
  Z.of_nat (packet_size d (PacketRole.role_packet_id self)) < RolePacket.MAXIMUM_ROLES ->
  same_guild_available d self ->
  role_and_packet_stored d self ->
  ~ role_in_packet d (PacketRole.role_id self) (PacketRole.role_packet_id self) ->
  let r := PacketRole.save self d in
  (exists saved, result_of r = Returned saved) /\
  packet_size (db_after r) (PacketRole.role_packet_id self)
    = S (packet_size d (PacketRole.role_packet_id self)).
Proof.
  intros Hid Hdur Hroom Hg Hstored Hnew. cbv zeta. unfold PacketRole.save.
  destruct (packet_role_pre_save_spec d self) as (o & Hpre & _ & _ & Hok).
  rewrite (Hok Hdur ltac:(lia) Hg) in Hpre.
  rewrite (bind_step _ _ _ _ _ _ Hpre). rewrite Hid.
  unfold bind.
  rewrite (execute_insert_generated_run packet_roles set_packet_roles
             PacketRole.constraints (PacketRole.to_row self) d).
  rewrite (packet_role_constraints_hold d self _ Hstored Hnew). cbn.
  split; [eexists; reflexivity|].
  apply (packet_size_insert_fresh d _ (PacketRole.to_row self)).
  apply not_elem_of_dom. apply is_fresh.
Qed.

(** C7: saving a packet role whose packet already holds [MAXIMUM_ROLES]
    (20) roles raises and nothing is written; a save that returns found
    fewer than 20 roles in the packet; a new packet role for a packet with
    fewer than 20 roles (19 included) is stored and the packet grows by one,
    provided its duration is not negative, role and packet share their
    guild, the rows of the role and of the packet are stored and the packet
    does not hold the role yet; and no save makes any packet exceed 20
    roles. *)
Theorem packet_role_limit (d : DB) (self : PacketRole.t) :
  let r := PacketRole.save self d in
  let pid := PacketRole.role_packet_id self in
  (RolePacket.MAXIMUM_ROLES <= Z.of_nat (packet_size d pid) ->
   raises (result_of r) /\ db_after r = d) /\
  (forall saved, result_of r = Returned saved ->
   Z.of_nat (packet_size d pid) < RolePacket.MAXIMUM_ROLES) /\
  (Z.of_nat (packet_size d pid) < RolePacket.MAXIMUM_ROLES ->
   PacketRole.id self = None -> 0 <= PacketRole.duration self ->
   same_guild_available d self ->
   role_and_packet_stored d self ->
   ~ role_in_packet d (PacketRole.role_id self) pid ->
   (exists saved, result_of r = Returned saved) /\
   packet_size (db_after r) pid = S (packet_size d pid)) /\
  (packets_within_limit d -> packets_within_limit (db_after r)).
Proof.
  cbv zeta. split; [|split; [|split]].
  - intros Hfull.
    destruct (packet_role_save_spec d self) as [?|(saved & k & _ & _ & Hroom & _)]; auto.
    lia.
  - intros saved Hres.
    destruct (packet_role_save_spec d self) as [[Hraise _]|(s & k & _ & _ & Hroom & _)].
    + rewrite Hres in Hraise. destruct Hraise.
    + lia.
  - intros Hroom Hid Hdur Hg Hstored Hnew. apply packet_role_save_returns; auto.
  - intros Hlim pid.
    destruct (packet_role_save_spec d self)
      as [[_ ->]|(s & k & _ & _ & Hroom & [-> | ->] & _)]; auto.
    destruct (decide (c_role_packet_id (PacketRole.to_row self) = pid)) as [<-|Hne].
    + pose proof (packet_size_insert_le d k (PacketRole.to_row self)
                    (c_role_packet_id (PacketRole.to_row self))) as Hle.
      cbn [PacketRole.to_row c_role_packet_id] in *. lia.
    + pose proof (packet_size_insert_other d k (PacketRole.to_row self) pid Hne) as Hle.
      specialize (Hlim pid). lia.
Qed.

Lemma db_two_packets_within_limit : packets_within_limit db_two_packets.
Proof.
  intros pid. unfold packet_size.
  destruct (decide (pid = 5)) as [->|H5]; [vm_compute; discriminate|].
  destruct (decide (pid = 6)) as [->|H6]; [vm_compute; discriminate|].
  replace (RolePacket.packet_roles_of pid db_two_packets)
    with (∅ : gmap Z PacketRoleRow).
  - rewrite map_size_empty. unfold RolePacket.MAXIMUM_ROLES. lia.
  - symmetry. apply map_empty_filter_2. intros j r Hj Hpid. cbn in Hpid.
    assert (Hall : map_Forall (fun _ r => c_role_packet_id r = 5 \/ c_role_packet_id r = 6)
                     (packet_roles db_two_packets))
      by (apply (bool_decide_unpack _); vm_compute; exact I).
    destruct (Hall j r Hj); congruence.
Defined.

Lemma role_500_not_in_packet_5 : ~ role_in_packet db_two_packets 500 5.
Proof.
  intros (j & r & Hj & H1 & H2).
  assert (Hall : map_Forall (fun _ r => c_role_id r <> 500) (packet_roles db_two_packets))
    by (apply (bool_decide_unpack _); vm_compute; exact I).
  exact (Hall j r Hj H1).
Defined.

Lemma packet_role_limit_witness :
  (raises (result_of (PacketRole.save packet_role_21st db_two_packets)) /\
   db_after (PacketRole.save packet_role_21st db_two_packets) = db_two_packets) /\
  Z.of_nat (packet_size db_two_packets 5) < RolePacket.MAXIMUM_ROLES /\
  ((exists saved,
      result_of (PacketRole.save packet_role_20th db_two_packets) = Returned saved) /\
   packet_size (db_after (PacketRole.save packet_role_20th db_two_packets)) 5 = 20%nat) /\
  packets_within_limit (db_after (PacketRole.save packet_role_20th db_two_packets)).
Proof.
  split; [|split; [|split]].
  - apply (proj1 (packet_role_limit db_two_packets packet_role_21st)).
    vm_compute. discriminate.
  - apply (proj1 (proj2 (packet_role_limit db_two_packets packet_role_20th))
             (PacketRole.set_id 121 packet_role_20th)).
    vm_compute. reflexivity.
  - apply (proj1 (proj2 (proj2 (packet_role_limit db_two_packets packet_role_20th)))).
    + vm_compute. reflexivity.
    + reflexivity.
    + vm_compute. discriminate.
    + exists guild_7, guild_7. repeat split.
    + split; eexists; reflexivity.
    + exact role_500_not_in_packet_5.
  - apply (proj2 (proj2 (proj2 (packet_role_limit db_two_packets packet_role_20th)))).
    exact db_two_packets_within_limit.
Defined.

(** ** License *)

Lemma license_pre_save_spec (self : License.t) :
  (Z.of_nat (String.length (License.key self)) < License.KEY_MIN_LENGTH ->
   License._pre_save self = Raised FieldError) /\
  (License.KEY_MIN_LENGTH <= Z.of_nat (String.length (License.key self)) ->
   License._pre_save self = Returned tt).
Proof.
  unfold License._pre_save.
  destruct (Z.ltb_spec (Z.of_nat (String.length (License.key self))) License.KEY_MIN_LENGTH);
    split; intros; auto; lia.
Qed.

(** What [save] does on the table [licenses]: it raises and leaves the
    storage as it was, or the key passed the length check and the one write
    statement stored the row under the key. *)
Lemma license_save_spec (d : DB) (self : License.t) :
  let r := License.save self d in
  (raises (result_of r) /\ db_after r = d) \/
  (exists saved row,
     result_of r = Returned saved /\
     License.KEY_MIN_LENGTH <= Z.of_nat (String.length (License.key self)) /\
     License.to_row None self = Some row /\
     (License._saved_in_db self = false -> licenses d !! License.key self = None) /\
     (db_after r = d \/
      db_after r = set_licenses (<[License.key self := row]> (licenses d)) d) /\
     (License._saved_in_db self = false ->
      db_after r = set_licenses (<[License.key self := row]> (licenses d)) d)).
Proof.
  cbv zeta. unfold License.save.
  destruct (Z.ltb_spec (Z.of_nat (String.length (License.key self))) License.KEY_MIN_LENGTH)
    as [Hshort|Hlong].
  { rewrite (proj1 (license_pre_save_spec self) Hshort). left. cbn. auto. }
  rewrite (proj2 (license_pre_save_spec self) Hlong).
  unfold lift. rewrite bind_step with (a := tt) (d1 := d) (w1 := []) by reflexivity.
  destruct (License.to_row None self) as [row|]; [|left; cbn; auto].
  destruct (License._saved_in_db self) eqn:Esaved.
  - unfold bind. rewrite execute_update_run.
    destruct (negb _ && _); cbn; [left; auto|].
    right. eexists. exists row.
    repeat split; auto; try discriminate.
    destruct (licenses d !! License.key self); auto.
  - unfold bind. rewrite execute_insert_run.
    destruct (negb _ || bool_decide (is_Some (licenses d !! License.key self))) eqn:Ep;
      cbn.
    + left. auto.
    + right. eexists. exists row. repeat split; auto.
      intros _. apply orb_false_iff in Ep. destruct Ep as [_ Ep].
      apply bool_decide_eq_false in Ep. apply eq_None_not_Some. exact Ep.
Qed.

(** [License.save] as one case distinction. *)
Lemma license_save_run (d : DB) (self : License.t) :
  License.save self d =
  if Z.of_nat (String.length (License.key self)) <? License.KEY_MIN_LENGTH then
    (Raised FieldError, d, [])
  else
    match License.to_row None self with
    | None => (Raised IntegrityError, d, [])
    | Some row =>
        if License._saved_in_db self then
          if negb (License.foreign_keys row d)
             && bool_decide (is_Some (licenses d !! License.key self)) then
            (Raised IntegrityError, d, [])
          else
            let d' := match licenses d !! License.key self with
                      | Some _ => set_licenses (<[License.key self := row]> (licenses d)) d
                      | None => d
                      end in
            (Returned (License.set_saved_in_db true self), d', [d'])
        else if negb (License.foreign_keys row d)
                || bool_decide (is_Some (licenses d !! License.key self)) then
          (Raised IntegrityError, d, [])
        else
          let d' := set_licenses (<[License.key self := row]> (licenses d)) d in
          (Returned (License.set_saved_in_db true self), d', [d'])
    end.
Proof.
  unfold License.save, License._pre_save.
  destruct (_ <? _); [reflexivity|].
  unfold lift. rewrite bind_pure with (a := tt) by reflexivity.
  destruct (License.to_row None self) as [row|]; [|reflexivity].
  destruct (License._saved_in_db self).
  - unfold bind. rewrite execute_update_run.
    destruct (negb _ && _); reflexivity.
  - unfold bind. rewrite execute_insert_run.
    destruct (negb _ || _); reflexivity.
Qed.

(** C8: a license whose key has fewer than [KEY_MIN_LENGTH] (14) characters
    is refused with [FieldError] and nothing is written; a key of 14 or more
    characters passes the length check; and every stored license key has at
    least 14 characters once all had. *)
Theorem license_key_min_length (d : DB) (self : License.t) :
  let r := License.save self d in
  (Z.of_nat (String.length (License.key self)) < 14 ->
   License._pre_save self = Raised FieldError /\
   result_of r = Raised FieldError /\ db_after r = d) /\
  (14 <= Z.of_nat (String.length (License.key self)) ->
   License._pre_save self = Returned tt) /\
  (stored_keys_long d -> stored_keys_long (db_after r)).
Proof.
  cbv zeta. split; [|split].
  - intros Hshort. pose proof (proj1 (license_pre_save_spec self) Hshort) as Hpre.
    split; [exact Hpre|]. unfold License.save. rewrite Hpre. cbn. auto.
  - apply license_pre_save_spec.
  - intros Hs.
    destruct (license_save_spec d self)
      as [[_ ->]|(saved & row & _ & Hlong & _ & _ & [-> | ->] & _)]; auto.
    intros k row' Hk. cbn in Hk. apply lookup_insert_Some in Hk.
    destruct Hk as [[<- _]|[_ Hk]]; eauto.
Qed.

Lemma license_key_min_length_witness :
  (License._pre_save license_13 = Raised FieldError /\
   result_of (License.save license_13 db_guild_reminders) = Raised FieldError /\
   db_after (License.save license_13 db_guild_reminders) = db_guild_reminders) /\
  License._pre_save license_14 = Returned tt /\
  stored_keys_long (db_after (License.save license_14 db_guild_reminders)).
Proof.
  split; [|split].
  - apply (proj1 (license_key_min_length db_guild_reminders license_13)). cbn. lia.
  - apply (proj1 (proj2 (license_key_min_length db_guild_reminders license_14))).
    cbn. lia.
  - apply (proj2 (proj2 (license_key_min_length db_guild_reminders license_14))).
    intros k row Hk. cbn in Hk. rewrite lookup_empty in Hk. discriminate.
Defined.

Lemma reminder_create_defaults (d : DB) :
  let k := fresh (dom (reminders_settings d)) in
  let d' := set_reminders_settings
              (<[k := mkReminderRow 720 0 0 0 0]> (reminders_settings d)) d in
  ReminderActivations.create None None None None None d
  = (Returned (ReminderActivations.mk (Some k) 720 0 0 0 0), d', [d']).
Proof.
  cbv zeta. unfold ReminderActivations.create.
  destruct (reminder_save_new d (ReminderActivations.mk None 720 0 0 0 0) eq_refl)
    as [_ Hrun].
  exact Hrun.
Qed.

(** C10: [License.create] without [reminder_activations] first stores a
    brand-new reminder row with the model defaults (720, 0, 0, 0, 0), whatever
    the guild and its own reminder settings are; when the license itself can
    be stored (key long enough and unused, row of the guild stored) it is
    linked to that new row, and a call that returns always ended that way. *)
Theorem license_create_default_reminders (d : DB) (key : string) (guild : Guild.t) :
  let r := License.create key guild None d in
  let k := fresh (dom (reminders_settings d)) in
  (reminders_settings d !! k = None /\
   reminders_settings (db_after r) !! k = Some (mkReminderRow 720 0 0 0 0)) /\
  (14 <= Z.of_nat (String.length key) -> licenses d !! key = None ->
   is_Some (guilds d !! Guild.id guild) ->
   exists lic,
     result_of r = Returned lic /\
     License.reminder_activations lic
       = Some (Fetched (ReminderActivations.mk (Some k) 720 0 0 0 0)) /\
     licenses (db_after r) !! key = Some (mkLicenseRow (Guild.id guild) k false None)) /\
  (forall lic, result_of r = Returned lic ->
     License.reminder_activations lic
       = Some (Fetched (ReminderActivations.mk (Some k) 720 0 0 0 0)) /\
     licenses (db_after r) !! key = Some (mkLicenseRow (Guild.id guild) k false None)).
Proof.
  cbv zeta. unfold License.create.
  rewrite (bind_write _ _ _ _ _ _ (reminder_create_defaults d)).
  cbn [ReminderActivations.id]. rewrite license_save_run.
  cbn [License.key License.to_row License.guild_id License.reminder_activations_id
       License.guild License.reminder_activations License._saved_in_db
       ReminderActivations.id mbind option_bind License.inactive].
  set (k := fresh (dom (reminders_settings d))).
  set (d1 := set_reminders_settings _ d).
  assert (Hk : reminders_settings d !! k = None)
    by (apply not_elem_of_dom, is_fresh).
  assert (Hd1 : reminders_settings d1 !! k = Some (mkReminderRow 720 0 0 0 0))
    by (subst d1; cbn; apply lookup_insert_eq).
  assert (Hfk : License.foreign_keys (mkLicenseRow (Guild.id guild) k false None) d1
                = bool_decide (is_Some (guilds d !! Guild.id guild))).
  { unfold License.foreign_keys.
    cbn [c_license_guild_id c_license_reminder_activations_id c_license_role_packet_id].
    change (guilds d1) with (guilds d).
    rewrite (bool_decide_eq_true_2 (is_Some (reminders_settings d1 !! k)))
      by (rewrite Hd1; eauto).
    rewrite !andb_true_r. reflexivity. }
  rewrite Hfk. change (licenses d1) with (licenses d).
  unfold License.KEY_MIN_LENGTH.
  destruct (Z.ltb_spec (Z.of_nat (String.length key)) 14) as [Hs|Hl].
  { unfold after_writes, result_of, db_after. cbn [fst snd].
    split; [auto|]. split; [lia|]. intros lic [=]. }
  destruct (bool_decide (is_Some (guilds d !! Guild.id guild))) eqn:Eg; cbn [negb orb].
  2:{ unfold after_writes, result_of, db_after. cbn [fst snd].
      split; [auto|]. split; [|intros lic [=]].
      intros _ _ Hg. apply bool_decide_eq_false in Eg. contradiction. }
  destruct (bool_decide (is_Some (licenses d !! key))) eqn:Ep.
  { unfold after_writes, result_of, db_after. cbn [fst snd].
    split; [auto|]. split; [|intros lic [=]].
    intros _ Hfree _. apply bool_decide_eq_true in Ep. rewrite Hfree in Ep.
    destruct Ep; discriminate. }
  unfold after_writes, result_of, db_after. cbn [fst snd].
  split; [split; [exact Hk|exact Hd1]|]. split.
  - intros _ _ _. eexists. split; [reflexivity|]. split; [reflexivity|].
    cbn. apply lookup_insert_eq.
  - intros lic [= <-]. split; [reflexivity|]. cbn. apply lookup_insert_eq.
Qed.

Lemma license_create_default_reminders_witness :
  reminders_settings db_guild_reminders !! 1 = Some (mkReminderRow 100 50 0 0 0) /\
  exists lic,
    result_of (License.create "ABCDEFGHIJKLMN" guild_7 None db_guild_reminders)
      = Returned lic /\
    License.reminder_activations lic
      = Some (Fetched (ReminderActivations.mk
                         (Some (fresh (dom (reminders_settings db_guild_reminders))))
                         720 0 0 0 0)) /\
    licenses (db_after (License.create "ABCDEFGHIJKLMN" guild_7 None db_guild_reminders))
      !! "ABCDEFGHIJKLMN"
      = Some (mkLicenseRow 7 (fresh (dom (reminders_settings db_guild_reminders)))
                false None).
Proof.
  split; [reflexivity|].
  apply (proj1 (proj2 (license_create_default_reminders
                         db_guild_reminders "ABCDEFGHIJKLMN" guild_7))).
  - cbn. lia.
  - reflexivity.
  - eexists. reflexivity.
Defined.

(** ** RegeneratingLicense *)

Lemma load_guild_run (d : DB) rel :
  RegeneratingLicense.load Guild.first rel d = (Returned (loaded_guild d rel), d, []).
Proof. destruct rel as [[g|fk]|]; reflexivity. Qed.

Lemma load_reminders_run (d : DB) rel :
  RegeneratingLicense.load ReminderActivations.first rel d
  = (Returned (loaded_reminders d rel), d, []).
Proof. destruct rel as [[g|fk]|]; reflexivity. Qed.

Lemma load_packet_run (d : DB) rel :
  RegeneratingLicense.load RolePacket.first rel d = (Returned (loaded_packet d rel), d, []).
Proof. destruct rel as [[g|fk]|]; reflexivity. Qed.

(** [save] of a regenerating license, in every case, with its write
    states. *)
Lemma regenerating_save_spec (d : DB) (self : RegeneratingLicense.t) :
  let r := RegeneratingLicense.save self d in
  (raises (result_of r) /\ db_after r = d /\ writes_of r = []) \/
  (exists row,
     r = (Returned (RegeneratingLicense.set_saved_in_db true self),
          regen_written d self row, [regen_written d self row]) /\
     License.KEY_MIN_LENGTH <= Z.of_nat (String.length (RegeneratingLicense.key self)) /\
     RegeneratingLicense.to_row self = Some row /\
     (License._saved_in_db (RegeneratingLicense.base self) = false ->
      regenerating_licenses d !! RegeneratingLicense.key self = None)).
Proof.
  cbv zeta. unfold RegeneratingLicense.save, RegeneratingLicense._pre_save.
  destruct (Z.ltb_spec (Z.of_nat (String.length (RegeneratingLicense.key self)))
              License.KEY_MIN_LENGTH) as [Hshort|Hlong].
  { rewrite (proj1 (license_pre_save_spec _) Hshort). left. cbn. auto. }
  rewrite (proj2 (license_pre_save_spec _) Hlong).
  unfold lift. rewrite bind_pure with (a := tt) by reflexivity.
  destruct (RegeneratingLicense.to_row self) as [row|]; [|left; cbn; auto].
  unfold regen_written.
  destruct (License._saved_in_db (RegeneratingLicense.base self)) eqn:Esaved.
  - unfold bind. rewrite execute_update_run.
    destruct (negb _ && _); cbn; [left; auto|].
    right. exists row. repeat split; auto; try discriminate.
  - unfold bind. rewrite execute_insert_run.
    destruct (negb _ || bool_decide
                (is_Some (regenerating_licenses d !! RegeneratingLicense.key self)))
      eqn:Ep; cbn.
    + left. auto.
    + right. exists row. repeat split; auto.
      intros _. apply orb_false_iff in Ep. destruct Ep as [_ Ep].
      apply bool_decide_eq_false in Ep. apply eq_None_not_Some. exact Ep.
Qed.

Lemma license_foreign_keys_spec (d : DB) (row : LicenseRow) :
  License.foreign_keys row d = true <-> relations_stored d row.
Proof.
  unfold License.foreign_keys, relations_stored.
  rewrite !andb_true_iff, !bool_decide_eq_true.
  destruct (c_license_role_packet_id row) as [p|].
  - rewrite bool_decide_eq_true. split.
    + intros [[Hg Hr] Hp]. repeat split; auto. intros p' [= <-]. exact Hp.
    + intros (Hg & Hr & Hp). auto.
  - split; [intros [[Hg Hr] _]; repeat split; auto; discriminate|].
    intros (Hg & Hr & _). auto.
Qed.

Section RegenerateRuns.

Variable generate_single : string -> string -> string.

(** Every run of [regenerate], stage by stage: it stops before any write;
    or after the copy of the reminder row was inserted; or after the new
    license was inserted as well; or it returns, after the row of the
    original was written last. *)
Lemma regenerate_spec (d : DB) (self : RegeneratingLicense.t) :
  let r := RegeneratingLicense.regenerate generate_single self d in
  (raises (result_of r) /\ writes_of r = [] /\ db_after r = d) \/
  (exists g ra0,
     loaded_guild d (License.guild (RegeneratingLicense.base self)) = Some g /\
     loaded_reminders d (License.reminder_activations (RegeneratingLicense.base self))
       = Some ra0 /\
     let new_key :=
       generate_single (Guild.custom_license_format g) (Guild.license_branding g) in
     let d1 := regen_d1 d ra0 in
     ((raises (result_of r) /\ writes_of r = [d1] /\ db_after r = d1) \/
      (exists p,
         loaded_packet d (RegeneratingLicense.role_packet self) = Some p /\
         accepted_activations ra0 /\
         License.KEY_MIN_LENGTH <= Z.of_nat (String.length new_key) /\
         regenerating_licenses d !! new_key = None /\
         let new := regen_new_license new_key d g ra0 (Some p) in
         let d2 := regen_d2 new_key d g ra0 p in
         ((raises (result_of r) /\ writes_of r = [d1; d2] /\ db_after r = d2) \/
          (exists row,
             RegeneratingLicense.to_row (RegeneratingLicense.set_inactive true self)
               = Some row /\
             License.KEY_MIN_LENGTH
               <= Z.of_nat (String.length (RegeneratingLicense.key self)) /\
             (License._saved_in_db (RegeneratingLicense.base self) = false ->
              regenerating_licenses d2 !! RegeneratingLicense.key self = None) /\
             let self1 := RegeneratingLicense.set_inactive true self in
             let d3 := regen_written d2 self1 row in
             r = (Returned (RegeneratingLicense.set_saved_in_db true new,
                            RegeneratingLicense.set_saved_in_db true self1),
                  d3, [d1; d2; d3])))))).
Proof.
  cbv zeta. unfold RegeneratingLicense.regenerate.
  rewrite (bind_pure _ _ _ _ (load_guild_run d _)).
  rewrite (bind_pure _ _ _ _ (load_reminders_run d _)).
  rewrite (bind_pure _ _ _ _ (load_packet_run d _)).
  destruct (loaded_guild d _) as [g|] eqn:Eg; [|left; cbn; auto].
  cbn [RegeneratingLicense.attr].
  rewrite bind_pure with (a := Guild.custom_license_format g) by reflexivity.
  rewrite bind_pure with (a := Guild.license_branding g) by reflexivity.
  destruct (loaded_reminders d _) as [ra0|] eqn:Era; [|left; cbn; auto].
  cbn [RegeneratingLicense.attr].
  rewrite bind_pure with (a := ReminderActivations.get_all_activations ra0) by reflexivity.
  right. exists g, ra0. split; [reflexivity|]. split; [reflexivity|].
  set (new_key := generate_single _ _).
  unfold ReminderActivations.get_all_activations, ReminderActivations.create_easy,
    ReminderActivations.create. cbn [default].
  destruct (reminder_save_new d
              (ReminderActivations.mk None (ReminderActivations.first_activation ra0)
                 (ReminderActivations.second_activation ra0)
                 (ReminderActivations.third_activation ra0)
                 (ReminderActivations.fourth_activation ra0)
                 (ReminderActivations.fifth_activation ra0)) eq_refl) as [Hk Hrun].
  change (set_reminders_settings _ d) with (regen_d1 d ra0) in Hrun.
  change (fresh (dom (reminders_settings d))) with (regen_reminders_key d) in Hrun, Hk.
  change (ReminderActivations.set_id (regen_reminders_key d) _)
    with (ReminderActivations.set_id (regen_reminders_key d) ra0) in Hrun.
  replace (ReminderActivations._post_save _)
    with (ReminderActivations._post_save ra0) in Hrun by (destruct ra0; reflexivity).
  destruct (ReminderActivations._post_save ra0) as [[]|e] eqn:Epost.
  2:{ left. rewrite (bind_raised _ _ _ _ _ _ Hrun). cbn. auto. }
  cbn [and_then] in Hrun. rewrite (bind_write _ _ _ _ _ _ Hrun).
  apply post_save_accepts in Epost.
  change (RegeneratingLicense.mk _ _)
    with (regen_new_license new_key d g ra0
            (loaded_packet d (RegeneratingLicense.role_packet self))).
  pose proof (regenerating_save_spec (regen_d1 d ra0)
                (regen_new_license new_key d g ra0
                   (loaded_packet d (RegeneratingLicense.role_packet self)))) as Hnew.
  cbv zeta in Hnew.
  destruct Hnew as [(Hraise & Hd & Hw)|(row & Hsave & Hlong & Hrow & Hfree)].
  { left.
    destruct (RegeneratingLicense.save _ (regen_d1 d ra0)) as [[[s|e] d2] w2] eqn:Hs;
      cbn in Hraise, Hd, Hw; [destruct Hraise|].
    rewrite (bind_raised _ _ _ _ _ _ Hs). rewrite Hd, Hw. cbn. auto. }
  destruct (loaded_packet d (RegeneratingLicense.role_packet self)) as [p|] eqn:Ep;
    [|discriminate Hrow].
  cbn in Hrow. injection Hrow as <-.
  assert (regen_written (regen_d1 d ra0) (regen_new_license new_key d g ra0 (Some p))
            (mkLicenseRow (Guild.id g) (regen_reminders_key d) false
               (Some (RolePacket.id p)))
          = regen_d2 new_key d g ra0 p) as Hd2 by reflexivity.
  rewrite Hd2 in Hsave.
  right. exists p. split; [reflexivity|]. split; [exact Epost|].
  split; [exact Hlong|]. split; [exact (Hfree eq_refl)|].
  rewrite (bind_write _ _ _ _ _ _ Hsave).
  pose proof (regenerating_save_spec (regen_d2 new_key d g ra0 p)
                (RegeneratingLicense.set_inactive true self)) as Hold.
  cbv zeta in Hold.
  destruct Hold as [(Hraise & Hd & Hw)|(row & Hsave' & Hlong' & Hrow' & Hfree')].
  { left.
    destruct (RegeneratingLicense.save (RegeneratingLicense.set_inactive true self)
                (regen_d2 new_key d g ra0 p)) as [[[s|e] d3] w3] eqn:Hs;
      cbn in Hraise, Hd, Hw; [destruct Hraise|].
    rewrite (bind_raised _ _ _ _ _ _ Hs). rewrite Hd, Hw. cbn. auto. }
  right. exists row. split; [exact Hrow'|]. split; [exact Hlong'|].
  split; [exact Hfree'|].
  rewrite (bind_write _ _ _ _ _ _ Hsave'). reflexivity.
Qed.

End RegenerateRuns.

Lemma regenerating_save_returns (d : DB) (self : RegeneratingLicense.t) (row : LicenseRow) :
  License.KEY_MIN_LENGTH <= Z.of_nat (String.length (RegeneratingLicense.key self)) ->
  RegeneratingLicense.to_row self = Some row ->
  (License._saved_in_db (RegeneratingLicense.base self) = false ->
   regenerating_licenses d !! RegeneratingLicense.key self = None) ->
  relations_stored d row ->
  RegeneratingLicense.save self d
  = (Returned (RegeneratingLicense.set_saved_in_db true self),
     regen_written d self row, [regen_written d self row]).
Proof.
  intros Hlong Hrow Hfree Hfk. apply license_foreign_keys_spec in Hfk.
  unfold RegeneratingLicense.save, RegeneratingLicense._pre_save.
  rewrite (proj2 (license_pre_save_spec _) Hlong).
  unfold lift. rewrite bind_pure with (a := tt) by reflexivity.
  rewrite Hrow. unfold regen_written.
  destruct (License._saved_in_db (RegeneratingLicense.base self)) eqn:Esaved.
  - unfold bind. rewrite execute_update_run, Hfk. reflexivity.
  - unfold bind. rewrite execute_insert_run, Hfk.
    rewrite (Hfree eq_refl). reflexivity.
Qed.

Lemma loaded_guild_id (d : DB) (self : License.t) (g : Guild.t) :
  loaded_guild d (License.guild self) = Some g ->
  License.guild_id self = Some (Guild.id g).
Proof.
  unfold loaded_guild, License.guild_id.
  destruct (License.guild self) as [[g'|fk]|]; try discriminate.
  - intros [= ->]. reflexivity.
  - destruct (guilds d !! fk); [|discriminate]. intros [= <-]. reflexivity.
Qed.

Lemma loaded_packet_id (d : DB) (self : RegeneratingLicense.t) (p : RolePacket.t) :
  loaded_packet d (RegeneratingLicense.role_packet self) = Some p ->
  RegeneratingLicense.role_packet_id self = Some (RolePacket.id p).
Proof.
  unfold loaded_packet, RegeneratingLicense.role_packet_id.
  destruct (RegeneratingLicense.role_packet self) as [[p'|fk]|]; try discriminate.
  - intros [= ->]. reflexivity.
  - destruct (role_packets d !! fk); [|discriminate]. intros [= <-]. reflexivity.
Qed.

Lemma to_row_set_inactive (self : RegeneratingLicense.t) (row : LicenseRow) (b : bool) :
  RegeneratingLicense.to_row self = Some row ->
  RegeneratingLicense.to_row (RegeneratingLicense.set_inactive b self)
  = Some (mkLicenseRow (c_license_guild_id row) (c_license_reminder_activations_id row)
            b (c_license_role_packet_id row)).
Proof.
  destruct self as [[k g ra i s] rp].
  unfold RegeneratingLicense.to_row, License.to_row,
    RegeneratingLicense.role_packet_id, License.guild_id,
    License.reminder_activations_id. cbn.
  destruct rp as [[p|fk]|]; cbn; try discriminate;
    destruct g as [[g|fk']|]; cbn; try discriminate;
    destruct ra as [[[[rid|] ? ? ? ? ?]|fk'']|]; cbn; try discriminate;
    intros [= <-]; reflexivity.
Qed.

Lemma to_row_relations (d : DB) (self : RegeneratingLicense.t) (g : Guild.t)
    (p : RolePacket.t) (row : LicenseRow) :
  loaded_guild d (License.guild (RegeneratingLicense.base self)) = Some g ->
  loaded_packet d (RegeneratingLicense.role_packet self) = Some p ->
  RegeneratingLicense.to_row self = Some row ->
  c_license_guild_id row = Guild.id g /\
  c_license_role_packet_id row = Some (RolePacket.id p).
Proof.
  intros Eg Ep.
  pose proof (loaded_guild_id d _ g Eg) as Hgid.
  pose proof (loaded_packet_id d self p Ep) as Hpid.
  unfold RegeneratingLicense.to_row, License.to_row.
  rewrite Hpid, Hgid. cbn.
  destruct (License.reminder_activations_id _); cbn; [|discriminate].
  intros [= <-]. auto.
Qed.

Section RegenerateReturns.

Variable generate_single : string -> string -> string.

(** With everything in order, [regenerate] runs through its three writes
    and returns. *)
Lemma regenerate_returns (d : DB) (self : RegeneratingLicense.t) g ra0 p row :
  loaded_guild d (License.guild (RegeneratingLicense.base self)) = Some g ->
  loaded_reminders d (License.reminder_activations (RegeneratingLicense.base self))
    = Some ra0 ->
  loaded_packet d (RegeneratingLicense.role_packet self) = Some p ->
  accepted_activations ra0 ->
  let new_key := generate_single (Guild.custom_license_format g) (Guild.license_branding g) in
  License.KEY_MIN_LENGTH <= Z.of_nat (String.length new_key) ->
  regenerating_licenses d !! new_key = None ->
  License.KEY_MIN_LENGTH <= Z.of_nat (String.length (RegeneratingLicense.key self)) ->
  License._saved_in_db (RegeneratingLicense.base self) = true ->
  RegeneratingLicense.to_row (RegeneratingLicense.set_inactive true self) = Some row ->
  relations_stored d row ->
  let d1 := regen_d1 d ra0 in
  let d2 := regen_d2 new_key d g ra0 p in
  let d3 := regen_written d2 (RegeneratingLicense.set_inactive true self) row in
  RegeneratingLicense.regenerate generate_single self d
  = (Returned (RegeneratingLicense.set_saved_in_db true
                 (regen_new_license new_key d g ra0 (Some p)),
               RegeneratingLicense.set_saved_in_db true
                 (RegeneratingLicense.set_inactive true self)),
     d3, [d1; d2; d3]).
Proof.
  intros Eg Era Ep Hacc new_key Hlong Hfree Hlong' Hsaved Hrow Hrel d1 d2 d3.
  destruct (to_row_relations d (RegeneratingLicense.set_inactive true self) g p row
              Eg Ep Hrow) as [Hcg Hcp].
  destruct Hrel as (Hrg & Hrr & Hrp).
  assert (Hrel1 : relations_stored d1
                    (mkLicenseRow (Guild.id g) (regen_reminders_key d) false
                       (Some (RolePacket.id p)))).
  { split; [|split].
    - cbn. rewrite <- Hcg. exact Hrg.
    - cbn. rewrite lookup_insert_eq. eauto.
    - cbn. intros p' [= <-]. apply Hrp. exact Hcp. }
  assert (Hrel2 : relations_stored d2 row).
  { split; [exact Hrg|]. split; [|exact Hrp].
    cbn. destruct (decide (regen_reminders_key d = c_license_reminder_activations_id row))
      as [<-|Hne]; [rewrite lookup_insert_eq; eauto|].
    rewrite lookup_insert_ne by exact Hne. exact Hrr. }
  unfold RegeneratingLicense.regenerate.
  rewrite (bind_pure _ _ _ _ (load_guild_run d _)).
  rewrite (bind_pure _ _ _ _ (load_reminders_run d _)).
  rewrite (bind_pure _ _ _ _ (load_packet_run d _)).
  rewrite Eg, Era, Ep. cbn [RegeneratingLicense.attr].
  rewrite bind_pure with (a := Guild.custom_license_format g) by reflexivity.
  rewrite bind_pure with (a := Guild.license_branding g) by reflexivity.
  rewrite bind_pure with (a := ReminderActivations.get_all_activations ra0) by reflexivity.
  fold new_key.
  unfold ReminderActivations.get_all_activations, ReminderActivations.create_easy,
    ReminderActivations.create. cbn [default].
  destruct (reminder_save_new d
              (ReminderActivations.mk None (ReminderActivations.first_activation ra0)
                 (ReminderActivations.second_activation ra0)
                 (ReminderActivations.third_activation ra0)
                 (ReminderActivations.fourth_activation ra0)
                 (ReminderActivations.fifth_activation ra0)) eq_refl) as [Hk Hrun].
  change (set_reminders_settings _ d) with d1 in Hrun.
  change (fresh (dom (reminders_settings d))) with (regen_reminders_key d) in Hrun.
  change (ReminderActivations.set_id (regen_reminders_key d) _)
    with (ReminderActivations.set_id (regen_reminders_key d) ra0) in Hrun.
  replace (ReminderActivations._post_save _)
    with (ReminderActivations._post_save ra0) in Hrun by (destruct ra0; reflexivity).
  rewrite (proj2 (post_save_accepts ra0) Hacc) in Hrun. cbn [and_then] in Hrun.
  rewrite (bind_write _ _ _ _ _ _ Hrun).
  change (RegeneratingLicense.mk _ _) with (regen_new_license new_key d g ra0 (Some p)).
  rewrite (bind_write _ _ _ _ _ _
             (regenerating_save_returns d1 (regen_new_license new_key d g ra0 (Some p))
                (mkLicenseRow (Guild.id g) (regen_reminders_key d) false
                   (Some (RolePacket.id p)))
                Hlong eq_refl (fun _ => Hfree) Hrel1)).
  change (regen_written d1 _ _) with d2.
  rewrite (bind_write _ _ _ _ _ _
             (regenerating_save_returns d2 (RegeneratingLicense.set_inactive true self)
                row Hlong' Hrow
                (fun H => False_ind _ (eq_true_false_abs _ Hsaved H)) Hrel2)).
  reflexivity.
Qed.

End RegenerateReturns.


Lemma raises_not_returned {A} (o : outcome A) (a : A) : raises o -> o <> Returned a.
Proof. intros H ->. exact H. Qed.

Section RegenerateClaims.

Variable generate_single : string -> string -> string.


End RegenerateClaims.

Lemma db_regen_stored : stored_license db_regen license_old.
Proof.
  split; [reflexivity|]. split; eexists; reflexivity.
Defined.


(** The run of [regenerate] on the sample storage. *)
Lemma sample_regenerate_run :
  let new_license :=
    regen_new_license "NEWKEY-ABCDEFGH" db_regen (Guild.of_row 7 (mkGuildRow "" "" 1))
      (ReminderActivations.of_row 2 (mkReminderRow 720 60 0 0 0))
      (Some (RolePacket.of_row 5 (mkRolePacketRow 7 "gold" 60))) in
  let d1 := regen_d1 db_regen (ReminderActivations.of_row 2 (mkReminderRow 720 60 0 0 0)) in
  let d2 := regen_d2 "NEWKEY-ABCDEFGH" db_regen (Guild.of_row 7 (mkGuildRow "" "" 1))
              (ReminderActivations.of_row 2 (mkReminderRow 720 60 0 0 0))
              (RolePacket.of_row 5 (mkRolePacketRow 7 "gold" 60)) in
  let d3 := regen_written d2 (RegeneratingLicense.set_inactive true license_old)
              (mkLicenseRow 7 2 true (Some 5)) in
  RegeneratingLicense.regenerate generate_new_key license_old db_regen
  = (Returned (RegeneratingLicense.set_saved_in_db true new_license,
               RegeneratingLicense.set_saved_in_db true
                 (RegeneratingLicense.set_inactive true license_old)),
     d3, [d1; d2; d3]).
Proof.
  cbv zeta.
  apply (regenerate_returns generate_new_key db_regen license_old
           (Guild.of_row 7 (mkGuildRow "" "" 1))
           (ReminderActivations.of_row 2 (mkReminderRow 720 60 0 0 0))
           (RolePacket.of_row 5 (mkRolePacketRow 7 "gold" 60))
           (mkLicenseRow 7 2 true (Some 5))
           eq_refl eq_refl eq_refl).
  - unfold accepted_activations. cbn. lia.
  - unfold License.KEY_MIN_LENGTH. cbn. lia.
  - reflexivity.
  - unfold License.KEY_MIN_LENGTH. cbn. lia.
  - reflexivity.
  - reflexivity.
  - split; [eexists; reflexivity|]. split; [eexists; reflexivity|].
    intros p' [= <-]. eexists. reflexivity.
Defined.

(** C4, the run that contradicts it: regenerating the active license
    [OLDKEY-ABCDEFGH] writes the new license first, so the storage state
    after the second write holds both the original and the replacement as
    Active. *)
Lemma regenerate_both_active_between_writes :
  let r := RegeneratingLicense.regenerate generate_new_key license_old db_regen in
  exists new self' s,
    result_of r = Returned (new, self') /\
    writes_of r !! 1%nat = Some s /\
    active_in s (RegeneratingLicense.key license_old) /\
    active_in s (RegeneratingLicense.key new).
Proof.
  cbv zeta. pose proof sample_regenerate_run as Hrun. cbv zeta in Hrun. rewrite Hrun.
  eexists. eexists. eexists. split; [reflexivity|]. split; [reflexivity|].
  split; eexists; (split; [reflexivity|reflexivity]).
Qed.

Section RegenerateOrder.

Variable generate_single : string -> string -> string.

(** C4 as the code has it: in a run of [regenerate] that returns, on a
    stored license, no storage state (the initial one and the one after each
    write) holds the original and the replacement both Inactive; and when
    the original was Active there are exactly three writes: after the first
    the replacement does not exist yet, after the second the original and
    the replacement are both Active, after the third the original is
    Inactive and the replacement Active. *)
Theorem regenerate_write_order (d : DB) (self : RegeneratingLicense.t) :
  stored_license d self ->
  let r := RegeneratingLicense.regenerate generate_single self d in
  forall new self', result_of r = Returned (new, self') ->
    (forall s, s ∈ d :: writes_of r ->
       ~ (inactive_in s (RegeneratingLicense.key self) /\
          inactive_in s (RegeneratingLicense.key new))) /\
    (active_in d (RegeneratingLicense.key self) ->
     exists d1 d2 d3,
       writes_of r = [d1; d2; d3] /\
       (active_in d1 (RegeneratingLicense.key self) /\
        regenerating_licenses d1 !! RegeneratingLicense.key new = None) /\
       (active_in d2 (RegeneratingLicense.key self) /\
        active_in d2 (RegeneratingLicense.key new)) /\
       (inactive_in d3 (RegeneratingLicense.key self) /\
        active_in d3 (RegeneratingLicense.key new))).
Proof.
  intros (Hsaved & [row0 Hstored] & [rowi Hrowi]). cbv zeta. intros new self' Hres.
  destruct (regenerate_spec generate_single d self)
    as [(Hraise & _)|(g & ra0 & Eg & Era & [(Hraise & _)|(p & Ep & Hacc & Hlong & Hfree &
         [(Hraise & _)|(row & Hrow & Hlong' & _ & Hrun)])])];
    try (exfalso; exact (raises_not_returned _ _ Hraise Hres)).
  cbv zeta in Hrun. rewrite Hrun in Hres |- *. unfold result_of, writes_of in *.
  cbn [fst snd] in *. injection Hres as <- <-.
  set (new_key := generate_single _ _) in *.
  change (RegeneratingLicense.key (RegeneratingLicense.set_saved_in_db true _))
    with new_key.
  assert (Hne : new_key <> RegeneratingLicense.key self)
    by (intros Heq; rewrite Heq, Hstored in Hfree; discriminate).
  set (rown := mkLicenseRow (Guild.id g) (regen_reminders_key d) false
                 (Some (RolePacket.id p))).
  assert (Hd1 : regenerating_licenses (regen_d1 d ra0) = regenerating_licenses d)
    by reflexivity.
  assert (Hd2 : regenerating_licenses (regen_d2 new_key d g ra0 p)
                = <[new_key := rown]> (regenerating_licenses d)) by reflexivity.
  assert (Hd3 : regenerating_licenses
                  (regen_written (regen_d2 new_key d g ra0 p)
                     (RegeneratingLicense.set_inactive true self) row)
                = <[RegeneratingLicense.key self := row]>
                    (<[new_key := rown]> (regenerating_licenses d))).
  { unfold regen_written.
    change (RegeneratingLicense.key (RegeneratingLicense.set_inactive true self))
      with (RegeneratingLicense.key self).
    change (License._saved_in_db
              (RegeneratingLicense.base (RegeneratingLicense.set_inactive true self)))
      with (License._saved_in_db (RegeneratingLicense.base self)).
    rewrite Hsaved, Hd2. rewrite lookup_insert_ne by exact Hne.
    rewrite Hstored. reflexivity. }
  rewrite (to_row_set_inactive self rowi true Hrowi) in Hrow. injection Hrow as Hrow.
  assert (Hnew2 : active_in (regen_d2 new_key d g ra0 p) new_key).
  { exists rown. rewrite Hd2. split; [apply lookup_insert_eq|reflexivity]. }
  assert (Hnew3 : active_in (regen_written (regen_d2 new_key d g ra0 p)
                               (RegeneratingLicense.set_inactive true self) row) new_key).
  { exists rown. rewrite Hd3. split; [|reflexivity].
    rewrite lookup_insert_ne by (intros H; apply Hne; auto). apply lookup_insert_eq. }
  assert (Hexcl : forall s k, active_in s k -> inactive_in s k -> False).
  { intros s k (r1 & H1 & H1') (r2 & H2 & H2'). congruence. }
  split.
  - intros s Hs [_ (rn & Hrn & Hin)].
    rewrite !elem_of_cons in Hs. destruct Hs as [->|[->|[->|[->|Hs]]]].
    + rewrite Hfree in Hrn. discriminate.
    + rewrite Hd1, Hfree in Hrn. discriminate.
    + apply (Hexcl _ _ Hnew2). exists rn. auto.
    + apply (Hexcl _ _ Hnew3). exists rn. auto.
    + apply elem_of_nil in Hs. exact Hs.
  - intros (ro & Hro & Hact).
    eexists. eexists. eexists. split; [reflexivity|].
    split; [split|split; [split|split]]; auto.
    + exists ro. rewrite Hd1. auto.
    + exists ro. rewrite Hd2. split; [|exact Hact].
      rewrite lookup_insert_ne by exact Hne. exact Hro.
    + exists row. rewrite Hd3. split; [apply lookup_insert_eq|].
      rewrite <- Hrow. reflexivity.
Qed.

End RegenerateOrder.

Lemma regenerate_write_order_witness :
  exists new self',
    result_of (RegeneratingLicense.regenerate generate_new_key license_old db_regen)
    = Returned (new, self') /\
    exists d1 d2 d3,
      writes_of (RegeneratingLicense.regenerate generate_new_key license_old db_regen)
      = [d1; d2; d3] /\
      (active_in d2 "OLDKEY-ABCDEFGH" /\ active_in d2 (RegeneratingLicense.key new)) /\
      (inactive_in d3 "OLDKEY-ABCDEFGH" /\ active_in d3 (RegeneratingLicense.key new)).
Proof.
  eexists. eexists. split; [rewrite sample_regenerate_run; reflexivity|].
  destruct (regenerate_write_order generate_new_key db_regen license_old
              db_regen_stored _ _ (f_equal result_of sample_regenerate_run))
    as [_ Hthree].
  destruct Hthree as (d1 & d2 & d3 & Hw & _ & H2 & H3).
  - eexists. split; reflexivity.
  - exists d1, d2, d3. auto.
Defined.

(** ** LicenseFormatter *)

Section FormatterProperties.

Variable class_size : ascii -> option Z.
Variable min_permutation_count : Z.

Lemma run_factor_succ (c : ascii) (n : nat) :
  LicenseFormatter.run_factor class_size (c, S n)
  = char_factor class_size c * LicenseFormatter.run_factor class_size (c, n).
Proof.
  unfold LicenseFormatter.run_factor, char_factor. cbn [fst snd].
  destruct (class_size c) as [size|]; [|reflexivity].
  rewrite Nat2Z.inj_succ, Z.pow_succ_r by lia. reflexivity.
Qed.

Lemma run_factor_one (c : ascii) :
  LicenseFormatter.run_factor class_size (c, 1%nat) = char_factor class_size c.
Proof.
  unfold LicenseFormatter.run_factor, char_factor. cbn [fst snd].
  destruct (class_size c) as [size|]; [|reflexivity]. apply Z.pow_1_r.
Qed.

(** The product over the runs is the product over the characters. *)
Lemma runs_product (l : list ascii) :
  foldr (fun r acc => LicenseFormatter.run_factor class_size r * acc) 1
        (LicenseFormatter.runs l)
  = product_of_chars class_size l.
Proof.
  induction l as [|c rest IH]; [reflexivity|].
  cbn [LicenseFormatter.runs product_of_chars foldr].
  fold (product_of_chars class_size rest). rewrite <- IH.
  destruct (LicenseFormatter.runs rest) as [|[c' n] rs].
  - cbn [foldr]. rewrite run_factor_one. reflexivity.
  - destruct (decide (c = c')) as [<-|Hne]; cbn [foldr].
    + rewrite run_factor_succ. lia.
    + rewrite run_factor_one. reflexivity.
Qed.

Lemma product_of_chars_app (l1 l2 : list ascii) :
  product_of_chars class_size (l1 ++ l2)
  = product_of_chars class_size l1 * product_of_chars class_size l2.
Proof.
  induction l1 as [|c l1 IH]; cbn [app product_of_chars foldr].
  - fold (product_of_chars class_size l2). lia.
  - fold (product_of_chars class_size (l1 ++ l2)).
    fold (product_of_chars class_size l1). rewrite IH. lia.
Qed.

Lemma list_ascii_of_string_app (s1 s2 : string) :
  list_ascii_of_string (s1 +:+ s2) = list_ascii_of_string s1 ++ list_ascii_of_string s2.
Proof.
  induction s1 as [|c s1 IH]; cbn; [reflexivity|]. rewrite <- IH. reflexivity.
Qed.

Lemma permutations_app (s1 s2 : string) :
  LicenseFormatter.get_format_permutations class_size (s1 +:+ s2)
  = LicenseFormatter.get_format_permutations class_size s1
    * LicenseFormatter.get_format_permutations class_size s2.
Proof.
  unfold LicenseFormatter.get_format_permutations.
  rewrite !runs_product, list_ascii_of_string_app. apply product_of_chars_app.
Qed.

Hypothesis class_nonempty : forall c size, class_size c = Some size -> 1 <= size.

Lemma product_of_chars_pos (l : list ascii) : 1 <= product_of_chars class_size l.
Proof.
  induction l as [|c l IH]; cbn [product_of_chars foldr]; [lia|].
  fold (product_of_chars class_size l).
  assert (1 <= char_factor class_size c).
  { unfold char_factor. destruct (class_size c) eqn:E; [eauto|lia]. }
  nia.
Qed.

Lemma permutations_pos (s : string) :
  1 <= LicenseFormatter.get_format_permutations class_size s.
Proof.
  unfold LicenseFormatter.get_format_permutations. rewrite runs_product.
  apply product_of_chars_pos.
Qed.

(** C9: when every character class has at least one member, appending a
    character to a template, or any run of characters, never lowers its
    permutation count, so a secure template stays secure. *)
Theorem format_permutations_monotone (template : string) :
  (forall c : ascii,
     LicenseFormatter.get_format_permutations class_size template
     <= LicenseFormatter.get_format_permutations class_size
          (template +:+ String c EmptyString) /\
     (LicenseFormatter.is_secure class_size min_permutation_count template = true ->
      LicenseFormatter.is_secure class_size min_permutation_count
        (template +:+ String c EmptyString) = true)) /\
  (forall suffix : string,
     LicenseFormatter.get_format_permutations class_size template
     <= LicenseFormatter.get_format_permutations class_size (template +:+ suffix) /\
     (LicenseFormatter.is_secure class_size min_permutation_count template = true ->
      LicenseFormatter.is_secure class_size min_permutation_count
        (template +:+ suffix) = true)).
Proof.
  assert (Hgen : forall suffix : string,
     LicenseFormatter.get_format_permutations class_size template
     <= LicenseFormatter.get_format_permutations class_size (template +:+ suffix) /\
     (LicenseFormatter.is_secure class_size min_permutation_count template = true ->
      LicenseFormatter.is_secure class_size min_permutation_count
        (template +:+ suffix) = true)).
  { intros suffix.
    assert (Hle : LicenseFormatter.get_format_permutations class_size template
                  <= LicenseFormatter.get_format_permutations class_size
                       (template +:+ suffix)).
    { rewrite permutations_app.
      pose proof (permutations_pos template). pose proof (permutations_pos suffix). nia. }
    split; [exact Hle|].
    unfold LicenseFormatter.is_secure. rewrite !Z.leb_le. lia. }
  split; [intros c; apply Hgen|exact Hgen].
Qed.

End FormatterProperties.

Lemma scenario_classes_nonempty (c : ascii) (size : Z) :
  scenario_classes c = Some size -> 1 <= size.
Proof.
  unfold scenario_classes. repeat case_decide; intros [= <-]; lia.
Defined.

(** The scenario of the specification: [XXXX-XXXX] yields 36^8 keys and is
    secure against that threshold, [AAAA] yields 10^4 and is not. *)
Example scenario_permutations :
  LicenseFormatter.get_format_permutations scenario_classes "XXXX-XXXX" = 36 ^ 8 /\
  LicenseFormatter.is_secure scenario_classes (36 ^ 8) "XXXX-XXXX" = true /\
  LicenseFormatter.get_format_permutations scenario_classes "AAAA" = 10 ^ 4 /\
  LicenseFormatter.is_secure scenario_classes (36 ^ 8) "AAAA" = false.
Proof. repeat split; vm_compute; reflexivity. Qed.

Lemma format_permutations_monotone_witness :
  LicenseFormatter.get_format_permutations scenario_classes "XXXX-XXXX"
  <= LicenseFormatter.get_format_permutations scenario_classes
       ("XXXX-XXXX" +:+ String "X"%char EmptyString) /\
  (LicenseFormatter.is_secure scenario_classes (36 ^ 8) "XXXX-XXXX" = true ->
   LicenseFormatter.is_secure scenario_classes (36 ^ 8)
     ("XXXX-XXXX" +:+ String "X"%char EmptyString) = true).
Proof.
  apply (proj1 (format_permutations_monotone scenario_classes (36 ^ 8)
                  scenario_classes_nonempty "XXXX-XXXX") "X"%char).
Defined.

(** * Properties of the further operations *)

(** ** ReminderActivations: the checks and the update path *)

(** X1: the three checks of [_post_save] accept exactly the rows whose
    first activation is positive, whose activations are all non-negative and
    which never increase from one activation to the next; every other row is
    refused with [FieldError]. *)
Theorem reminder_checks_accept_exactly (self : ReminderActivations.t) :
  (ReminderActivations._post_save self = Returned tt <-> accepted_activations self) /\
  (~ accepted_activations self ->
   ReminderActivations._post_save self = Raised FieldError).
Proof.
  split; [apply post_save_accepts|].
  intros Hn. destruct (ReminderActivations._post_save self) as [[]|e] eqn:E.
  - exfalso. apply Hn. apply post_save_accepts. exact E.
  - f_equal. eapply post_save_raises_FieldError. exact E.
Qed.

Lemma reminder_checks_accept_exactly_witness :
  ReminderActivations._post_save (ReminderActivations.mk None 10 20 0 0 0)
  = Raised FieldError.
Proof.
  apply (proj2 (reminder_checks_accept_exactly
                  (ReminderActivations.mk None 10 20 0 0 0))).
  unfold accepted_activations. cbn. lia.
Defined.

(** How [save] of a stored instance runs: the row is overwritten first,
    when it is still there, and the checks decide the result afterwards. *)
Lemma reminder_save_stored (d : DB) (self : ReminderActivations.t) (k : Z) :
  ReminderActivations.id self = Some k ->
  let d' := match reminders_settings d !! k with
            | Some _ => set_reminders_settings
                          (<[k := ReminderActivations.to_row self]> (reminders_settings d)) d
            | None => d
            end in
  ReminderActivations.save self d =
    (and_then (ReminderActivations._post_save self) (fun _ => Returned self), d', [d']).
Proof.
  intros Hid d'. unfold ReminderActivations.save. rewrite Hid.
  unfold execute_update, bind, execute, ret, lift. cbn. fold d'.
  destruct (ReminderActivations._post_save self) as [[]|e]; reflexivity.
Qed.

(** ** License.save and License.create *)

(** X2: [License.create] without [reminder_activations] is not all or
    nothing.  A key shorter than 14 characters makes it raise [FieldError], a
    key already in use [IntegrityError]; and whenever it raises, no license
    row was written but the new default reminder row stays in the storage. *)
Theorem license_create_failure_leaves_reminder_row
    (d : DB) (key : string) (guild : Guild.t) :
  let r := License.create key guild None d in
  let k := fresh (dom (reminders_settings d)) in
  (Z.of_nat (String.length key) < 14 -> result_of r = Raised FieldError) /\
  (14 <= Z.of_nat (String.length key) -> is_Some (licenses d !! key) ->
   result_of r = Raised IntegrityError) /\
  (forall e, result_of r = Raised e ->
     reminders_settings d !! k = None /\
     db_after r = set_reminders_settings
                    (<[k := mkReminderRow 720 0 0 0 0]> (reminders_settings d)) d).
Proof.
  cbv zeta. unfold License.create.
  rewrite (bind_write _ _ _ _ _ _ (reminder_create_defaults d)).
  cbn [ReminderActivations.id]. rewrite license_save_run.
  cbn [License.key License.to_row License.guild_id License.reminder_activations_id
       License.guild License.reminder_activations License._saved_in_db
       ReminderActivations.id mbind option_bind License.inactive].
  cbn [licenses set_reminders_settings].
  unfold License.KEY_MIN_LENGTH.
  destruct (Z.ltb_spec (Z.of_nat (String.length key)) 14) as [Hs|Hl].
  - split; [reflexivity|]. split; [lia|]. intros e _.
    split; [apply not_elem_of_dom, is_fresh|reflexivity].
  - split; [lia|].
    destruct (negb _ || bool_decide (is_Some (licenses d !! key))) eqn:Eref.
    + split; [reflexivity|]. intros e _.
      split; [apply not_elem_of_dom, is_fresh|reflexivity].
    + split.
      * intros _ Hsome. apply orb_false_iff in Eref. destruct Eref as [_ Ep].
        apply bool_decide_eq_false in Ep. contradiction.
      * intros e He. discriminate He.
Qed.

Lemma license_create_failure_leaves_reminder_row_witness :
  result_of (License.create "SHORT" guild_7 None empty_db) = Raised FieldError /\
  db_after (License.create "SHORT" guild_7 None empty_db)
  = set_reminders_settings
      (<[fresh (dom (reminders_settings empty_db)) := mkReminderRow 720 0 0 0 0]>
         (reminders_settings empty_db)) empty_db.
Proof.
  pose proof (license_create_failure_leaves_reminder_row empty_db "SHORT" guild_7)
    as (Hshort & _ & Horphan).
  assert (Hres : result_of (License.create "SHORT" guild_7 None empty_db)
                 = Raised FieldError) by (apply Hshort; cbn; lia).
  split; [exact Hres|]. exact (proj2 (Horphan FieldError Hres)).
Defined.

(** ** Role.get_or_create_easy *)

(** The run of [Role.create] for a role that is not stored yet, in a guild
    that is. *)
Lemma role_create_run (d : DB) (guild : Guild.t) (rid : Z) :
  roles d !! rid = None ->
  is_Some (guilds d !! Guild.id guild) ->
  let d' := set_roles (<[rid := mkRoleRow (Guild.id guild) 0 1]> (roles d)) d in
  RoleMethods.create guild rid d
  = (Returned (Role.mk rid (Some (Fetched guild)) 0 1 true), d', [d']).
Proof.
  intros Hnone Hguild d'. unfold RoleMethods.create, Role.save, Role._pre_save.
  cbn [Role.tier_level Role.tier_power RoleMethods.default_tier_level
       RoleMethods.default_tier_power].
  change (negb ((0 <=? 0) && (0 <=? 100))) with false.
  change (negb ((0 <=? 1) && (1 <=? 9))) with false.
  change (negb (0 =? 0)) with false. cbn iota.
  rewrite bind_pure with (a := Role.mk rid (Some (Fetched guild)) 0 1 false)
    by reflexivity.
  cbn [Role.to_row Role.guild_id Role.guild Role.tier_level Role.tier_power
       Role._saved_in_db Role.id mbind option_bind].
  unfold bind. rewrite execute_insert_run. unfold Role.foreign_keys.
  cbn [c_role_guild_id]. rewrite (bool_decide_eq_true_2 _ Hguild).
  rewrite Hnone. reflexivity.
Qed.

Lemma role_get_or_create_easy_stored (d : DB) (guild_id role_id : Z) (row : RoleRow) :
  roles d !! role_id = Some row ->
  RoleMethods.get_or_create_easy guild_id role_id d
  = (Returned (Found (RoleMethods.of_row role_id row)), d, []).
Proof.
  intros Hrow.
  unfold RoleMethods.get_or_create_easy, RoleMethods.get, bind, query, ret. cbn.
  rewrite Hrow. reflexivity.
Qed.

Lemma role_get_or_create_easy_created (d : DB) (guild_id role_id : Z) (g : GuildRow) :
  roles d !! role_id = None -> guilds d !! guild_id = Some g ->
  let d' := set_roles (<[role_id := mkRoleRow guild_id 0 1]> (roles d)) d in
  RoleMethods.get_or_create_easy guild_id role_id d
  = (Returned (Found (Role.mk role_id (Some (Fetched (Guild.of_row guild_id g)))
                        0 1 true)), d', [d']).
Proof.
  intros Hrole Hguild d'.
  unfold RoleMethods.get_or_create_easy, RoleMethods.get, RoleMethods.get_guild.
  rewrite bind_pure with (a := DoesNotExist)
    by (unfold query; rewrite Hrole; reflexivity).
  rewrite bind_pure with (a := Found (Guild.of_row guild_id g))
    by (unfold query; rewrite Hguild; reflexivity).
  rewrite (bind_write _ _ _ _ _ _
             (role_create_run d (Guild.of_row guild_id g) role_id Hrole
                    (ex_intro _ g Hguild))).
  reflexivity.
Qed.

(** X3: [get_or_create_easy] looks a role up by its id alone.  A stored
    role is handed back as stored, whatever [guild_id] says, and nothing is
    written; a missing role of a missing guild ends in [DoesNotExist] with
    nothing written; a missing role of a stored guild is inserted untiered,
    with [tier_level] 0 and [tier_power] 1, in that guild. *)
Theorem role_get_or_create_easy_spec (d : DB) (guild_id role_id : Z) :
  let r := RoleMethods.get_or_create_easy guild_id role_id d in
  (forall row, roles d !! role_id = Some row ->
     r = (Returned (Found (RoleMethods.of_row role_id row)), d, [])) /\
  (roles d !! role_id = None -> guilds d !! guild_id = None ->
     r = (Returned DoesNotExist, d, [])) /\
  (forall g, roles d !! role_id = None -> guilds d !! guild_id = Some g ->
     let d' := set_roles (<[role_id := mkRoleRow guild_id 0 1]> (roles d)) d in
     r = (Returned (Found (Role.mk role_id (Some (Fetched (Guild.of_row guild_id g)))
                             0 1 true)), d', [d'])).
Proof.
  cbv zeta. split; [|split].
  - intros row Hrow. apply role_get_or_create_easy_stored. exact Hrow.
  - intros Hrole Hguild.
    unfold RoleMethods.get_or_create_easy, RoleMethods.get, RoleMethods.get_guild,
      bind, query, ret. cbn. rewrite Hrole, Hguild. reflexivity.
  - intros g Hrole Hguild. apply role_get_or_create_easy_created; assumption.
Qed.

Lemma role_get_or_create_easy_spec_witness :
  RoleMethods.get_or_create_easy 99 1 db_guild_one_role
  = (Returned (Found (RoleMethods.of_row 1 (mkRoleRow 7 1 1))), db_guild_one_role, []) /\
  RoleMethods.get_or_create_easy 99 2 db_guild_one_role
  = (Returned DoesNotExist, db_guild_one_role, []) /\
  result_of (RoleMethods.get_or_create_easy 7 2 db_guild_one_role)
  = Returned (Found (Role.mk 2 (Some (Fetched (Guild.of_row 7 (mkGuildRow "" "" 1))))
                       0 1 true)).
Proof.
  split; [|split].
  - apply (proj1 (role_get_or_create_easy_spec db_guild_one_role 99 1)). reflexivity.
  - apply (proj1 (proj2 (role_get_or_create_easy_spec db_guild_one_role 99 2)));
      reflexivity.
  - rewrite (proj2 (proj2 (role_get_or_create_easy_spec db_guild_one_role 7 2))
               (mkGuildRow "" "" 1) eq_refl eq_refl).
    reflexivity.
Defined.

(** The cases of [get_or_create_easy], for the proofs below. *)
Lemma role_get_or_create_easy_cases (d : DB) (guild_id role_id : Z) :
  let r := RoleMethods.get_or_create_easy guild_id role_id d in
  (exists row, roles d !! role_id = Some row /\
     r = (Returned (Found (RoleMethods.of_row role_id row)), d, [])) \/
  (roles d !! role_id = None /\ guilds d !! guild_id = None /\
     r = (Returned DoesNotExist, d, [])) \/
  (exists g, roles d !! role_id = None /\ guilds d !! guild_id = Some g /\
     r = (Returned (Found (Role.mk role_id (Some (Fetched (Guild.of_row guild_id g)))
                             0 1 true)),
          set_roles (<[role_id := mkRoleRow guild_id 0 1]> (roles d)) d,
          [set_roles (<[role_id := mkRoleRow guild_id 0 1]> (roles d)) d])).
Proof.
  cbv zeta.
  unfold RoleMethods.get_or_create_easy, RoleMethods.get, RoleMethods.get_guild.
  destruct (roles d !! role_id) as [row|] eqn:Hrole.
  - left. exists row. split; [reflexivity|].
    unfold bind, query, ret. cbn. rewrite Hrole. reflexivity.
  - right. destruct (guilds d !! guild_id) as [g|] eqn:Hguild.
    + right. exists g. split; [reflexivity|]. split; [reflexivity|].
      rewrite bind_pure with (a := DoesNotExist)
        by (unfold query; rewrite Hrole; reflexivity).
      rewrite bind_pure with (a := Found (Guild.of_row guild_id g))
        by (unfold query; rewrite Hguild; reflexivity).
      rewrite (bind_write _ _ _ _ _ _
                 (role_create_run d (Guild.of_row guild_id g) role_id Hrole
                    (ex_intro _ g Hguild))).
      reflexivity.
    + left. split; [reflexivity|]. split; [reflexivity|].
      unfold bind, query, ret. cbn. rewrite Hrole, Hguild. reflexivity.
Qed.

(** X4: [get_or_create_easy] is idempotent and keeps the invariants of the
    role table.  After a call that found or created the role, a second call
    for the same id, with any guild id, writes nothing and hands back a role
    with the same id, guild and tier; and a call never breaks the uniqueness
    of the non-zero tier slots nor the ranges of the stored tier values. *)
Theorem role_get_or_create_easy_idempotent (d : DB) (guild_id role_id : Z) :
  let r := RoleMethods.get_or_create_easy guild_id role_id d in
  (forall role, result_of r = Returned (Found role) ->
     forall other_guild_id,
       let r2 := RoleMethods.get_or_create_easy other_guild_id role_id (db_after r) in
       db_after r2 = db_after r /\ writes_of r2 = [] /\
       exists role2,
         result_of r2 = Returned (Found role2) /\
         Role.id role2 = Role.id role /\
         Role.guild_id role2 = Role.guild_id role /\
         Role.tier_level role2 = Role.tier_level role /\
         Role.tier_power role2 = Role.tier_power role) /\
  (tier_slots_unique d -> tier_slots_unique (db_after r)) /\
  (stored_tiers_in_range d -> stored_tiers_in_range (db_after r)).
Proof.
  cbv zeta.
  destruct (role_get_or_create_easy_cases d guild_id role_id)
    as [(row & Hrow & ->)|[(Hrole & Hguild & ->)|(g & Hrole & Hguild & ->)]];
    unfold result_of, db_after, writes_of; cbn [fst snd].
  - split; [|auto]. intros role [= <-] other.
    rewrite (role_get_or_create_easy_stored d other role_id row Hrow).
    cbn [fst snd]. split; [reflexivity|]. split; [reflexivity|].
    eexists. split; [reflexivity|]. auto.
  - split; [|auto]. intros role [=].
  - split; [|split].
    + intros role [= <-] other.
      rewrite (role_get_or_create_easy_stored _ other role_id
                 (mkRoleRow guild_id 0 1)) by (cbn; apply lookup_insert_eq).
      cbn [fst snd]. split; [reflexivity|]. split; [reflexivity|].
      eexists. split; [reflexivity|]. repeat split.
    + intros Hu. apply tier_slots_unique_insert; [exact Hu|]. cbn. lia.
    + intros Hs. apply stored_tiers_in_range_insert; [exact Hs|]. cbn. lia.
Qed.

Lemma role_get_or_create_easy_idempotent_witness :
  let r := RoleMethods.get_or_create_easy 7 2 db_guild_one_role in
  (db_after (RoleMethods.get_or_create_easy 99 2 (db_after r)) = db_after r /\
   writes_of (RoleMethods.get_or_create_easy 99 2 (db_after r)) = []) /\
  tier_slots_unique (db_after r).
Proof.
  cbv zeta.
  pose proof (role_get_or_create_easy_idempotent db_guild_one_role 7 2)
    as (Hidem & Huniq & _).
  split.
  - destruct (Hidem (Role.mk 2 (Some (Fetched (Guild.of_row 7 (mkGuildRow "" "" 1))))
                      0 1 true)) with (other_guild_id := 99) as (H1 & H2 & _).
    + rewrite (role_get_or_create_easy_created db_guild_one_role 7 2
                 (mkGuildRow "" "" 1) eq_refl eq_refl).
      reflexivity.
    + auto.
  - apply Huniq. exact db_guild_one_role_unique.
Defined.

(** ** The command edit_role *)

(** [Role.save] raises [FieldError] for tier values out of range and
    [IntegrityError] otherwise, and a save that raises wrote nothing. *)
Lemma role_save_raised (d : DB) (self : Role.t) (e : exception) :
  result_of (Role.save self d) = Raised e ->
  ((e = FieldError /\ ~ tier_in_range self) \/
   (e = IntegrityError /\ tier_in_range self)) /\
  db_after (Role.save self d) = d /\ writes_of (Role.save self d) = [].
Proof.
  intros Hres. split.
  - revert Hres. unfold Role.save.
    destruct (role_pre_save_spec d self) as (o & Hpre & Ho).
    destruct o as [self'|e'].
    + rewrite (bind_step _ _ _ _ _ _ Hpre).
      destruct Ho as (Hr & _).
      destruct (Role.to_row self') as [row|]; [|cbn; intros [= <-]; auto].
      destruct (Role._saved_in_db self').
      * unfold bind. rewrite execute_update_run.
        destruct (negb _ && _); cbn; [intros [= <-]; auto|discriminate].
      * unfold bind. rewrite execute_insert_run.
        destruct (negb _ || _); cbn; [intros [= <-]; auto|discriminate].
    + rewrite (bind_raised _ _ _ _ _ _ Hpre). cbn. intros [= <-].
      destruct Ho as [[Hn ->]|(Hr & _ & -> & _)]; auto.
  - destruct (role_save_spec d self) as [(_ & Hd & Hw)|(gid & saved & Hret & _)]; auto.
    rewrite Hres in Hret. discriminate.
Qed.

Lemma role_save_keeps_unique (d : DB) (self : Role.t) :
  tier_slots_unique d -> tier_slots_unique (db_after (Role.save self d)).
Proof.
  intros Hu.
  destruct (role_save_spec d self)
    as [(_ & Hd & _)|(gid & saved & _ & Hr & Hgid & Hfree & _ & Hd)]; rewrite Hd; auto.
  destruct (role_written_cases d self
              (mkRoleRow gid (Role.tier_level self) (Role.tier_power self)))
    as [->| ->]; auto.
  apply tier_slots_unique_insert; auto. cbn.
  intros Hpos j rj Hj Hne Hg' Hl Hp.
  apply Hfree; [lia|]. exists j, rj. repeat split; auto. congruence.
Qed.

(** [edit_role] as one case distinction over its two steps. *)
Lemma edit_role_run (d : DB) (guild_id role_id tier_level tier_power : Z) :
  Roles.edit_role guild_id role_id tier_level tier_power d =
  match RoleMethods.get_or_create_easy guild_id role_id d with
  | (Returned (Found role), d0, w0) =>
      match Role.save (Roles.set_tier tier_level tier_power role) d0 with
      | (Returned _, d1, w1) => (Returned (Found success), d1, w0 ++ w1)
      | (Raised e, d1, w1) =>
          if is_IntegrityError e then (Returned (Found failure), d1, w0 ++ w1)
          else (Raised e, d1, w0 ++ w1)
      end
  | (Returned DoesNotExist, d0, w0) => (Returned DoesNotExist, d0, w0)
  | (Raised e, d0, w0) => (Raised e, d0, w0)
  end.
Proof.
  unfold Roles.edit_role. unfold bind at 1.
  destruct (RoleMethods.get_or_create_easy guild_id role_id d) as [[[[role|]|e] d0] w0];
    [| cbn; rewrite app_nil_r; reflexivity | reflexivity].
  unfold try_except, bind, ret, after_writes.
  destruct (Role.save (Roles.set_tier tier_level tier_power role) d0)
    as [[[saved|e] d1] w1]; cbn.
  - rewrite app_nil_r. reflexivity.
  - destruct (is_IntegrityError e); cbn; rewrite ?app_nil_r; reflexivity.
Qed.

Lemma slot_taken_in_held (d : DB) (role : Role.t) (gid : Z) :
  Role.guild_id role = Some gid ->
  slot_held_by_other d role <->
  slot_taken_in d gid (Role.id role) (Role.tier_level role) (Role.tier_power role).
Proof.
  intros Hg. unfold slot_held_by_other, slot_taken_in. rewrite Hg.
  split; intros (j & rj & H1 & H2 & H3 & H4 & H5); exists j, rj; repeat split; auto;
    congruence.
Qed.

Lemma slot_taken_in_insert (d : DB) (gid rid l p : Z) (row : RoleRow) :
  slot_taken_in (set_roles (<[rid := row]> (roles d)) d) gid rid l p
  <-> slot_taken_in d gid rid l p.
Proof.
  unfold slot_taken_in. cbn.
  split; intros (j & rj & H1 & H2 & H3); exists j, rj; repeat split; try tauto.
  - rewrite lookup_insert_ne in H1 by auto. exact H1.
  - rewrite lookup_insert_ne by auto. exact H1.
Qed.

Lemma role_save_out_of_range (d : DB) (self : Role.t) :
  ~ tier_in_range self -> Role.save self d = (Raised FieldError, d, []).
Proof.
  intros Hn. unfold Role.save.
  destruct (role_pre_save_spec d self) as (o & Hpre & Ho).
  destruct o as [self'|e]; [tauto|].
  rewrite (bind_raised _ _ _ _ _ _ Hpre).
  destruct Ho as [[_ ->]|(Hr & _)]; [reflexivity|tauto].
Qed.

Lemma role_save_slot_taken (d : DB) (self : Role.t) :
  tier_in_range self -> Role.tier_level self <> 0 -> slot_held_by_other d self ->
  Role.save self d = (Raised IntegrityError, d, []).
Proof.
  intros Hr Hl Hheld.
  destruct (role_save_spec d self) as [(Hraise & Hd & Hw)|(gid & saved & _ & _ & _ & Hfree & _)].
  - destruct (Role.save self d) as [[[saved|e] d1] w1] eqn:Hs; cbn in *; [tauto|].
    subst d1 w1.
    destruct (role_save_raised d self e) as [[[_ Hn]|[-> _]] _];
      [rewrite Hs; reflexivity|tauto|reflexivity].
  - exfalso. exact (Hfree Hl Hheld).
Qed.

(** X5: the command [edit_role].  Tier values out of range end in an
    uncaught [FieldError].  When another role of the guild holds the slot the
    reply is the failure message, and a role that was not stored before has
    nevertheless been inserted, untiered; a stored role keeps its row.  When
    the slot is free, or [tier_level] is 0, the reply is the success message
    and the row of the role holds the new tier values.  No run breaks the
    uniqueness of the non-zero tier slots. *)
Theorem edit_role_spec (d : DB) (guild_id role_id tier_level tier_power : Z) :
  let r := Roles.edit_role guild_id role_id tier_level tier_power d in
  (roles d !! role_id = None -> guilds d !! guild_id = None ->
   r = (Returned DoesNotExist, d, [])) /\
  (~ tier_values_in_range tier_level tier_power ->
   is_Some (roles d !! role_id) \/ is_Some (guilds d !! guild_id) ->
   result_of r = Raised FieldError) /\
  (tier_values_in_range tier_level tier_power -> tier_level <> 0 ->
   roles d !! role_id = None -> is_Some (guilds d !! guild_id) ->
   slot_taken_in d guild_id role_id tier_level tier_power ->
   result_of r = Returned (Found failure) /\
   db_after r = set_roles (<[role_id := mkRoleRow guild_id 0 1]> (roles d)) d) /\
  (forall row,
     tier_values_in_range tier_level tier_power -> tier_level <> 0 ->
     roles d !! role_id = Some row ->
     slot_taken_in d (c_role_guild_id row) role_id tier_level tier_power ->
     result_of r = Returned (Found failure) /\ db_after r = d) /\
  (tier_values_in_range tier_level tier_power ->
   roles d !! role_id = None -> is_Some (guilds d !! guild_id) ->
   tier_level = 0 \/ ~ slot_taken_in d guild_id role_id tier_level tier_power ->
   result_of r = Returned (Found success) /\
   roles (db_after r) !! role_id = Some (mkRoleRow guild_id tier_level tier_power)) /\
  (forall row,
     tier_values_in_range tier_level tier_power ->
     roles d !! role_id = Some row -> is_Some (guilds d !! c_role_guild_id row) ->
     tier_level = 0 \/
     ~ slot_taken_in d (c_role_guild_id row) role_id tier_level tier_power ->
     result_of r = Returned (Found success) /\
     roles (db_after r) !! role_id
       = Some (mkRoleRow (c_role_guild_id row) tier_level tier_power)) /\
  (tier_slots_unique d -> tier_slots_unique (db_after r)).
Proof.
  cbv zeta. rewrite edit_role_run.
  split; [|split; [|split; [|split; [|split; [|split]]]]].
  - intros Hrole Hguild.
    destruct (role_get_or_create_easy_cases d guild_id role_id)
      as [(row & Hrow & _)|[(_ & _ & ->)|(g & _ & Hg & _)]]; [congruence|reflexivity|congruence].
  - intros Hn Hsome.
    destruct (role_get_or_create_easy_cases d guild_id role_id)
      as [(row & Hrow & ->)|[(Hr0 & Hg0 & _)|(g & _ & Hg & ->)]].
    + rewrite role_save_out_of_range by exact Hn. reflexivity.
    + exfalso. destruct Hsome as [[? H]|[? H]]; congruence.
    + rewrite role_save_out_of_range by exact Hn. reflexivity.
  - intros Hr Hl Hrole [g Hg] Htaken.
    rewrite (role_get_or_create_easy_created d guild_id role_id g Hrole Hg).
    rewrite role_save_slot_taken; [auto|exact Hr|exact Hl|].
    apply (slot_taken_in_held _ _ guild_id); [reflexivity|].
    apply slot_taken_in_insert. exact Htaken.
  - intros row Hr Hl Hrow Htaken.
    rewrite (role_get_or_create_easy_stored d guild_id role_id row Hrow).
    rewrite role_save_slot_taken; [auto|exact Hr|exact Hl|].
    apply (slot_taken_in_held _ _ (c_role_guild_id row)); [reflexivity|exact Htaken].
  - intros Hr Hrole [g Hg] Hfree.
    rewrite (role_get_or_create_easy_created d guild_id role_id g Hrole Hg).
    set (d0 := set_roles _ d).
    set (role := Roles.set_tier tier_level tier_power _).
    destruct (role_save_returns d0 role) as (gid & saved & Hgid & Hres & Hstored).
    + exact Hr.
    + exists g. exact Hg.
    + destruct Hfree as [->|Hfree]; [left; reflexivity|right].
      intros Hheld. apply Hfree.
      apply (slot_taken_in_held _ _ guild_id) in Hheld; [|reflexivity].
      apply slot_taken_in_insert in Hheld. exact Hheld.
    + unfold role_flag_accurate. subst role d0. cbn.
      rewrite lookup_insert_eq. reflexivity.
    + injection Hgid as <-.
      destruct (Role.save role d0) as [[[s|e] d1] w1]; cbn in Hres, Hstored;
        [|discriminate]. auto.
  - intros row Hr Hrow Hguild Hfree.
    rewrite (role_get_or_create_easy_stored d guild_id role_id row Hrow).
    set (role := Roles.set_tier tier_level tier_power _).
    destruct (role_save_returns d role) as (gid & saved & Hgid & Hres & Hstored).
    + exact Hr.
    + exact Hguild.
    + destruct Hfree as [->|Hfree]; [left; reflexivity|right].
      intros Hheld. apply Hfree.
      apply (slot_taken_in_held _ _ (c_role_guild_id row)) in Hheld; [|reflexivity].
      exact Hheld.
    + unfold role_flag_accurate. subst role. cbn. rewrite Hrow. reflexivity.
    + injection Hgid as <-.
      destruct (Role.save role d) as [[[s|e] d1] w1]; cbn in Hres, Hstored;
        [|discriminate]. auto.
  - intros Hu.
    destruct (role_get_or_create_easy_cases d guild_id role_id)
      as [(row & Hrow & ->)|[(_ & _ & ->)|(g & _ & Hg & ->)]]; [| exact Hu |].
    + pose proof (role_save_keeps_unique d
                    (Roles.set_tier tier_level tier_power
                       (RoleMethods.of_row role_id row)) Hu) as Hk.
      destruct (Role.save _ d) as [[[s|e] d1] w1]; cbn in Hk |- *;
        [|destruct (is_IntegrityError e)]; exact Hk.
    + assert (Hu0 : tier_slots_unique
                      (set_roles (<[role_id := mkRoleRow guild_id 0 1]> (roles d)) d))
        by (apply tier_slots_unique_insert; [exact Hu|cbn; lia]).
      pose proof (role_save_keeps_unique _
                    (Roles.set_tier tier_level tier_power
                       (Role.mk role_id (Some (Fetched (Guild.of_row guild_id g)))
                          0 1 true)) Hu0) as Hk.
      destruct (Role.save _ _) as [[[s|e] d1] w1]; cbn in Hk |- *;
        [|destruct (is_IntegrityError e)]; exact Hk.
Qed.

Lemma edit_role_spec_witness :
  result_of (Roles.edit_role 7 2 101 1 db_guild_one_role) = Raised FieldError /\
  (result_of (Roles.edit_role 7 2 1 1 db_guild_one_role) = Returned (Found failure) /\
   db_after (Roles.edit_role 7 2 1 1 db_guild_one_role)
   = set_roles (<[2 := mkRoleRow 7 0 1]> (roles db_guild_one_role)) db_guild_one_role) /\
  (result_of (Roles.edit_role 7 2 1 2 db_guild_one_role) = Returned (Found success) /\
   roles (db_after (Roles.edit_role 7 2 1 2 db_guild_one_role)) !! 2
   = Some (mkRoleRow 7 1 2)) /\
  tier_slots_unique (db_after (Roles.edit_role 7 2 1 2 db_guild_one_role)).
Proof.
  split; [|split; [|split]].
  - apply (proj1 (proj2 (edit_role_spec db_guild_one_role 7 2 101 1))).
    + unfold tier_values_in_range. lia.
    + right. eexists. reflexivity.
  - apply (proj1 (proj2 (proj2 (edit_role_spec db_guild_one_role 7 2 1 1)))).
    + unfold tier_values_in_range. lia.
    + discriminate.
    + reflexivity.
    + eexists. reflexivity.
    + exists 1, (mkRoleRow 7 1 1). split; [reflexivity|]. split; [discriminate|].
      repeat split.
  - apply (proj1 (proj2 (proj2 (proj2 (proj2 (edit_role_spec db_guild_one_role 7 2 1 2)))))).
    + unfold tier_values_in_range. lia.
    + reflexivity.
    + eexists. reflexivity.
    + right. intros (j & rj & Hj & _ & _ & _ & Hp). cbn in Hj.
      apply lookup_singleton_Some in Hj. destruct Hj as [_ <-]. discriminate Hp.
  - apply (proj2 (proj2 (proj2 (proj2 (proj2 (proj2
             (edit_role_spec db_guild_one_role 7 2 1 2))))))).
    exact db_guild_one_role_unique.
Defined.

(** ** The command edit_default_reminders *)

Lemma edit_default_reminders_run (d : DB) (guild_id : Z) (g : GuildRow) (old : ReminderRow)
    (a1 : Z) (o2 o3 o4 o5 : option Z) :
  guilds d !! guild_id = Some g ->
  reminders_settings d !! c_guild_reminder_activations_id g = Some old ->
  let k := c_guild_reminder_activations_id g in
  let new := ReminderActivations.mk (Some k) a1 (default 0 o2) (default 0 o3)
               (default 0 o4) (default 0 o5) in
  let d' := set_reminders_settings
              (<[k := ReminderActivations.to_row new]> (reminders_settings d)) d in
  Configuration.edit_default_reminders guild_id a1 o2 o3 o4 o5 d
  = (match ReminderActivations._post_save new with
     | Returned _ => Returned (Found success)
     | Raised _ => Returned (Found failure)
     end, d', [d']).
Proof.
  intros Hg Hold. cbv zeta.
  unfold Configuration.edit_default_reminders, Configuration.get_reminders_of_guild.
  rewrite bind_pure
    with (a := Found (ReminderActivations.of_row (c_guild_reminder_activations_id g) old))
    by (unfold query; rewrite Hg, Hold; reflexivity).
  cbn [ReminderActivations.of_row ReminderActivations.id].
  unfold try_except, bind.
  rewrite (reminder_save_stored d
             (ReminderActivations.mk (Some (c_guild_reminder_activations_id g)) a1
                (default 0 o2) (default 0 o3) (default 0 o4) (default 0 o5))
             (c_guild_reminder_activations_id g) eq_refl).
  cbv zeta. rewrite Hold.
  destruct (ReminderActivations._post_save _) as [[]|e] eqn:Epost; cbn.
  - reflexivity.
  - rewrite (post_save_raises_FieldError _ e Epost). reflexivity.
Qed.

(** X6: the command [edit_default_reminders] overwrites the reminder row of
    the guild with the five given values in every case, and only then learns
    whether they are valid: it replies with the success message when the
    checks accept them and with the failure message when they do not, the
    rejected values being stored all the same.  For a guild that is not
    stored it ends in [DoesNotExist] and writes nothing. *)
Theorem edit_default_reminders_spec (d : DB) (guild_id : Z)
    (a1 : Z) (o2 o3 o4 o5 : option Z) :
  let r := Configuration.edit_default_reminders guild_id a1 o2 o3 o4 o5 d in
  let values := mkReminderRow a1 (default 0 o2) (default 0 o3) (default 0 o4)
                  (default 0 o5) in
  (forall g old,
     guilds d !! guild_id = Some g ->
     reminders_settings d !! c_guild_reminder_activations_id g = Some old ->
     let k := c_guild_reminder_activations_id g in
     db_after r = set_reminders_settings (<[k := values]> (reminders_settings d)) d /\
     (accepted_activations (ReminderActivations.of_row k values) ->
      result_of r = Returned (Found success)) /\
     (~ accepted_activations (ReminderActivations.of_row k values) ->
      result_of r = Returned (Found failure))) /\
  (guilds d !! guild_id = None -> r = (Returned DoesNotExist, d, [])).
Proof.
  cbv zeta. split.
  - intros g old Hg Hold.
    rewrite (edit_default_reminders_run d guild_id g old a1 o2 o3 o4 o5 Hg Hold).
    unfold db_after, result_of. cbn [fst snd].
    split; [reflexivity|].
    change (ReminderActivations.of_row (c_guild_reminder_activations_id g)
              (mkReminderRow a1 (default 0 o2) (default 0 o3) (default 0 o4)
                 (default 0 o5)))
      with (ReminderActivations.mk (Some (c_guild_reminder_activations_id g)) a1
              (default 0 o2) (default 0 o3) (default 0 o4) (default 0 o5)).
    split.
    + intros Hacc. apply post_save_accepts in Hacc. rewrite Hacc. reflexivity.
    + intros Hn.
      destruct (ReminderActivations._post_save _) as [[]|e] eqn:E; [|reflexivity].
      exfalso. apply Hn. apply post_save_accepts. exact E.
  - intros Hg.
    unfold Configuration.edit_default_reminders, Configuration.get_reminders_of_guild,
      bind, query, ret. cbn. rewrite Hg. reflexivity.
Qed.

Lemma edit_default_reminders_spec_witness :
  result_of (Configuration.edit_default_reminders 7 0 None None None None
               db_guild_reminders) = Returned (Found failure) /\
  reminders_settings
    (db_after (Configuration.edit_default_reminders 7 0 None None None None
                 db_guild_reminders)) !! 1 = Some (mkReminderRow 0 0 0 0 0).
Proof.
  pose proof (proj1 (edit_default_reminders_spec db_guild_reminders 7 0
                       None None None None)
                (mkGuildRow "" "" 1) (mkReminderRow 100 50 0 0 0) eq_refl eq_refl)
    as (Hdb & _ & Hfail).
  split.
  - apply Hfail. unfold accepted_activations. cbn. lia.
  - rewrite Hdb. reflexivity.
Defined.

(** ** MultipleUseLicense *)

(** X7: a multiple-use license passes [_pre_save] exactly when
    [uses_left] lies between 0 and 1,000,000, both included, and its key has
    at least 14 characters; every other license is refused with
    [FieldError]. *)
Theorem multiple_use_license_accepts_exactly (self : MultipleUseLicense.t) :
  let valid :=
    0 <= MultipleUseLicense.uses_left self <= 1000000 /\
    14 <= Z.of_nat (String.length (License.key (MultipleUseLicense.base self))) in
  (MultipleUseLicense._pre_save self = Returned tt <-> valid) /\
  (~ valid -> MultipleUseLicense._pre_save self = Raised FieldError).
Proof.
  cbv zeta.
  unfold MultipleUseLicense._pre_save, MultipleUseLicense.MAXIMUM_USES_LEFT,
    License._pre_save, License.KEY_MIN_LENGTH.
  rewrite Z.gtb_ltb.
  destruct (Z.ltb_spec (MultipleUseLicense.uses_left self) 0);
    [split; [split; [discriminate|lia]|reflexivity]|].
  destruct (Z.ltb_spec 1000000 (MultipleUseLicense.uses_left self));
    [split; [split; [discriminate|lia]|reflexivity]|].
  destruct (Z.ltb_spec
              (Z.of_nat (String.length (License.key (MultipleUseLicense.base self)))) 14);
    [split; [split; [discriminate|lia]|reflexivity]|].
  split; [split; [lia|reflexivity]|]. intros Hn. exfalso. apply Hn. lia.
Qed.

Lemma multiple_use_license_accepts_exactly_witness :
  MultipleUseLicense._pre_save license_uses_7 = Raised FieldError.
Proof.
  apply (proj2 (multiple_use_license_accepts_exactly license_uses_7)).
  cbn. lia.
Defined.

(** ** RolePacket.create *)

Lemma role_packet_pre_save_spec (self : RolePacket.t) :
  (packet_fields_valid (RolePacket.name self) (RolePacket.default_role_duration self) ->
   RolePacketMethods._pre_save self = Returned tt) /\
  (~ packet_fields_valid (RolePacket.name self) (RolePacket.default_role_duration self) ->
   RolePacketMethods._pre_save self = Raised FieldError).
Proof.
  unfold RolePacketMethods._pre_save, RolePacketMethods.name_max_length,
    packet_fields_valid. cbv zeta.
  destruct (Z.ltb_spec 50 (Z.of_nat (String.length (RolePacket.name self))));
    [split; [lia|reflexivity]|].
  case_bool_decide as Hname.
  { rewrite Hname. cbn. split; [lia|reflexivity]. }
  assert (1 <= Z.of_nat (String.length (RolePacket.name self))).
  { destruct (RolePacket.name self); [contradiction|cbn; lia]. }
  destruct (Z.ltb_spec (RolePacket.default_role_duration self) 0);
    [split; [lia|reflexivity]|].
  split; [reflexivity|]. intros Hn. exfalso. apply Hn. lia.
Qed.

Lemma name_taken_spec (d : DB) (gid : Z) (name : string) :
  (RolePacketMethods.name_taken gid name d = true <-> packet_name_taken d gid name) /\
  (RolePacketMethods.name_taken gid name d = false <-> ~ packet_name_taken d gid name).
Proof.
  unfold RolePacketMethods.name_taken, packet_name_taken.
  rewrite bool_decide_eq_true, bool_decide_eq_false, map_Exists_lookup. tauto.
Qed.

(** The ways [RolePacket.create] runs. *)
Lemma role_packet_create_run (d : DB) (guild : Guild.t) (name : string) (dur : Z) :
  let k := fresh (dom (role_packets d)) in
  let d' := set_role_packets
              (<[k := mkRolePacketRow (Guild.id guild) name dur]> (role_packets d)) d in
  (~ packet_fields_valid name dur ->
   RolePacketMethods.create guild name dur d = (Raised FieldError, d, [])) /\
  (packet_fields_valid name dur -> packet_name_taken d (Guild.id guild) name ->
   RolePacketMethods.create guild name dur d = (Raised IntegrityError, d, [])) /\
  (packet_fields_valid name dur -> guilds d !! Guild.id guild = None ->
   RolePacketMethods.create guild name dur d = (Raised IntegrityError, d, [])) /\
  (packet_fields_valid name dur -> ~ packet_name_taken d (Guild.id guild) name ->
   is_Some (guilds d !! Guild.id guild) ->
   RolePacketMethods.create guild name dur d
   = (Returned (RolePacket.mk k (Some (Fetched guild)) name dur), d', [d'])).
Proof.
  cbv zeta. unfold RolePacketMethods.create.
  rewrite bind_pure with (a := fresh (dom (role_packets d))) by reflexivity.
  cbv zeta.
  set (self := RolePacket.mk _ _ name dur).
  pose proof (role_packet_pre_save_spec self) as [Hok Hbad]. cbn in Hok, Hbad.
  unfold RolePacketMethods.foreign_keys. cbn [c_packet_guild_id].
  split; [|split; [|split]].
  - intros Hn. unfold lift. rewrite (Hbad Hn). reflexivity.
  - intros Hv Ht. unfold lift. rewrite (Hok Hv).
    rewrite bind_pure with (a := tt) by reflexivity.
    rewrite bind_pure with (a := true)
      by (unfold query; rewrite (proj2 (proj1 (name_taken_spec d _ _)) Ht);
          rewrite orb_true_r; reflexivity).
    reflexivity.
  - intros Hv Hg. unfold lift. rewrite (Hok Hv).
    rewrite bind_pure with (a := tt) by reflexivity.
    rewrite bind_pure with (a := true)
      by (unfold query; rewrite bool_decide_eq_false_2
            by (rewrite Hg; intros [? ?]; discriminate); reflexivity).
    reflexivity.
  - intros Hv Ht Hg. unfold lift. rewrite (Hok Hv).
    rewrite bind_pure with (a := tt) by reflexivity.
    rewrite bind_pure with (a := false)
      by (unfold query; rewrite (proj2 (proj2 (name_taken_spec d _ _)) Ht);
          rewrite (bool_decide_eq_true_2 _ Hg); reflexivity).
    reflexivity.
Qed.

(** Every run is one of these. *)
Lemma role_packet_create_cases (d : DB) (guild : Guild.t) (name : string) (dur : Z) :
  RolePacketMethods.create guild name dur d = (Raised FieldError, d, []) \/
  RolePacketMethods.create guild name dur d = (Raised IntegrityError, d, []) \/
  (packet_fields_valid name dur /\ ~ packet_name_taken d (Guild.id guild) name /\
   is_Some (guilds d !! Guild.id guild) /\
   RolePacketMethods.create guild name dur d
   = (Returned (RolePacket.mk (fresh (dom (role_packets d))) (Some (Fetched guild))
                  name dur),
      set_role_packets
        (<[fresh (dom (role_packets d)) := mkRolePacketRow (Guild.id guild) name dur]>
           (role_packets d)) d,
      [set_role_packets
         (<[fresh (dom (role_packets d)) := mkRolePacketRow (Guild.id guild) name dur]>
            (role_packets d)) d])).
Proof.
  destruct (role_packet_create_run d guild name dur) as (Hbad & Htaken & Hguild & Hok).
  cbv zeta in Hbad, Htaken, Hguild, Hok.
  destruct (decide (0 <= dur)) as [Hd|Hd].
  2:{ left. apply Hbad. unfold packet_fields_valid. lia. }
  destruct (decide (1 <= Z.of_nat (String.length name) <= 50)) as [Hn|Hn].
  2:{ left. apply Hbad. unfold packet_fields_valid. lia. }
  assert (Hv : packet_fields_valid name dur) by (split; assumption).
  destruct (RolePacketMethods.name_taken (Guild.id guild) name d) eqn:Et.
  { right. left. apply Htaken; [exact Hv|]. apply name_taken_spec. exact Et. }
  apply name_taken_spec in Et.
  destruct (guilds d !! Guild.id guild) as [g|] eqn:Eg.
  - right. right. split; [exact Hv|]. split; [exact Et|]. split; [eauto|].
    apply Hok; eauto.
  - right. left. apply Hguild; auto.
Qed.

(** X8: [RolePacket.create] stores a packet exactly when its name has 1 to
    50 characters, its default duration is not negative, no packet of the
    guild has that name yet, and the row of the guild is stored.  A bad name
    or duration is refused with [FieldError], a name in use and a guild that
    is not stored with [IntegrityError], and nothing is written then;
    otherwise the packet is stored under a new key with the values given.
    Either way all stored packets stay valid and their names unique within a
    guild. *)
Theorem role_packet_create_spec (d : DB) (guild : Guild.t) (name : string) (dur : Z) :
  let r := RolePacketMethods.create guild name dur d in
  let k := fresh (dom (role_packets d)) in
  (~ packet_fields_valid name dur -> r = (Raised FieldError, d, [])) /\
  (packet_fields_valid name dur -> packet_name_taken d (Guild.id guild) name ->
   r = (Raised IntegrityError, d, [])) /\
  (packet_fields_valid name dur -> guilds d !! Guild.id guild = None ->
   r = (Raised IntegrityError, d, [])) /\
  (packet_fields_valid name dur -> ~ packet_name_taken d (Guild.id guild) name ->
   is_Some (guilds d !! Guild.id guild) ->
   role_packets d !! k = None /\
   result_of r = Returned (RolePacket.mk k (Some (Fetched guild)) name dur) /\
   role_packets (db_after r) !! k = Some (mkRolePacketRow (Guild.id guild) name dur)) /\
  (stored_packets_valid d -> stored_packets_valid (db_after r)) /\
  (packet_names_unique d -> packet_names_unique (db_after r)).
Proof.
  cbv zeta.
  destruct (role_packet_create_run d guild name dur) as (Hbad & Htaken & Hguild & Hok).
  cbv zeta in Hbad, Htaken, Hguild, Hok.
  pose proof (role_packet_create_cases d guild name dur) as Hcases.
  split; [exact Hbad|]. split; [exact Htaken|]. split; [exact Hguild|].
  split; [|split].
  - intros Hv Ht Hg. rewrite (Hok Hv Ht Hg). unfold result_of, db_after. cbn [fst snd].
    split; [apply not_elem_of_dom, is_fresh|]. split; [reflexivity|].
    cbn. apply lookup_insert_eq.
  - intros Hs. destruct Hcases as [->|[->|(Hv & Ht & _ & ->)]]; try exact Hs.
    intros j r Hj. unfold db_after in Hj. cbn in Hj.
    apply lookup_insert_Some in Hj. destruct Hj as [[_ <-]|[_ Hj]]; [exact Hv|eauto].
  - intros Hu. destruct Hcases as [->|[->|(Hv & Ht & _ & ->)]]; try exact Hu.
    intros i j ri rj Hi Hj Hg Hn. unfold db_after in Hi, Hj. cbn in Hi, Hj.
    apply lookup_insert_Some in Hi. apply lookup_insert_Some in Hj.
    destruct Hi as [[<- <-]|[Hik Hi]], Hj as [[<- <-]|[Hjk Hj]]; auto.
    + exfalso. apply Ht. exists j, rj. cbn in Hg, Hn. auto.
    + exfalso. apply Ht. exists i, ri. cbn in Hg, Hn. auto.
    + eapply Hu; eauto.
Qed.

Lemma role_packet_create_spec_witness :
  RolePacketMethods.create guild_7 "" 60 db_guild_only
  = (Raised FieldError, db_guild_only, []) /\
  RolePacketMethods.create guild_7 "gold" 60 empty_db
  = (Raised IntegrityError, empty_db, []) /\
  (result_of (RolePacketMethods.create guild_7 "gold" 60 db_guild_only)
   = Returned (RolePacket.mk (fresh (dom (role_packets db_guild_only)))
                 (Some (Fetched guild_7)) "gold" 60) /\
   role_packets (db_after (RolePacketMethods.create guild_7 "gold" 60 db_guild_only))
     !! fresh (dom (role_packets db_guild_only))
   = Some (mkRolePacketRow 7 "gold" 60)) /\
  packet_names_unique
    (db_after (RolePacketMethods.create guild_7 "gold" 60 db_guild_only)).
Proof.
  split; [|split; [|split]].
  - apply (proj1 (role_packet_create_spec db_guild_only guild_7 "" 60)).
    unfold packet_fields_valid. cbn. lia.
  - apply (proj1 (proj2 (proj2 (role_packet_create_spec empty_db guild_7 "gold" 60)))).
    + unfold packet_fields_valid. cbn. lia.
    + reflexivity.
  - apply (proj1 (proj2 (proj2 (proj2
             (role_packet_create_spec db_guild_only guild_7 "gold" 60))))).
    + unfold packet_fields_valid. cbn. lia.
    + intros (j & r & Hj & _). cbn in Hj. rewrite lookup_empty in Hj. discriminate.
    + eexists. reflexivity.
  - apply (proj2 (proj2 (proj2 (proj2 (proj2
             (role_packet_create_spec db_guild_only guild_7 "gold" 60)))))).
    intros i j ri rj Hi. cbn in Hi. rewrite lookup_empty in Hi. discriminate.
Defined.

(** ** PacketRole.create *)

(** [save] of a new packet role: [_pre_save] decides first, then the
    constraints of the table, and the row goes under a new key. *)
Lemma packet_role_save_new_run (d : DB) (self : PacketRole.t) :
  PacketRole.id self = None ->
  let k := fresh (dom (packet_roles d)) in
  let d' := set_packet_roles (<[k := PacketRole.to_row self]> (packet_roles d)) d in
  PacketRole.save self d
  = match result_of (PacketRole._pre_save self d) with
    | Returned _ =>
        if PacketRole.constraints k (PacketRole.to_row self) d then
          (Returned (PacketRole.set_id k self), d', [d'])
        else (Raised IntegrityError, d, [])
    | Raised e => (Raised e, d, [])
    end.
Proof.
  intros Hid. cbv zeta. unfold PacketRole.save.
  destruct (packet_role_pre_save_spec d self) as (o & Hpre & _).
  rewrite Hpre. unfold result_of. cbn [fst].
  destruct o as [[]|e].
  - rewrite (bind_pure _ _ _ _ Hpre). rewrite Hid.
    unfold bind.
    rewrite (execute_insert_generated_run packet_roles set_packet_roles
               PacketRole.constraints (PacketRole.to_row self) d).
    destruct (PacketRole.constraints _ _ d); reflexivity.
  - rewrite (bind_raised _ _ _ _ _ _ Hpre). reflexivity.
Qed.

Lemma packet_role_pre_save_negative (d : DB) (self : PacketRole.t) :
  (PacketRole.duration self < 0 ->
   PacketRole._pre_save self d = (Raised FieldError, d, [])) /\
  (0 <= PacketRole.duration self ->
   result_of (PacketRole._pre_save self d) <> Raised FieldError).
Proof.
  unfold PacketRole._pre_save.
  destruct (Z.ltb_spec (PacketRole.duration self) 0) as [Hneg|Hpos].
  { split; [reflexivity|lia]. }
  split; [lia|intros _].
  destruct (PacketRole.role_packet self) as [p|fk]; [|cbn; discriminate].
  unfold RolePacket.count_packet_roles.
  unfold bind at 1. unfold bind at 1. unfold query at 1. cbn beta iota.
  destruct (_ >? _); [cbn; discriminate|]. cbn [ret].
  destruct (PacketRole.role self) as [r|fk]; [|cbn; discriminate].
  destruct (load_guild_pure d (Role.guild r)) as [g1 Hg1].
  destruct (load_guild_pure d (RolePacket.guild p)) as [g2 Hg2].
  rewrite (bind_step _ _ _ _ _ _ Hg1), (bind_step _ _ _ _ _ _ Hg2).
  destruct g1 as [g1|]; [|cbn; discriminate].
  destruct g2 as [g2|]; [|cbn; discriminate].
  cbn. destruct (_ =? _); cbn; discriminate.
Qed.

Lemma packet_role_create_unfold (d : DB) (role : ForeignKeyRelation Role.t)
    (p : RolePacket.t) (duration : option Z) :
  PacketRole.create role (Fetched p) duration d
  = PacketRole.save (PacketRole.mk None role (Fetched p) (effective_duration p duration)) d.
Proof.
  unfold PacketRole.create, effective_duration.
  destruct duration as [v|]; [destruct (v =? 0)|];
    (rewrite bind_pure with (a := effective_duration p _) by reflexivity) ||
    idtac; unfold bind, ret;
    destruct (PacketRole.save _ d) as [[o d1] w1]; reflexivity.
Qed.

(** X9: the duration [PacketRole.create] stores.  A duration left out, and
    also a duration of 0, is replaced by the packet's
    [default_role_duration]; any other duration is kept.  When the call
    returns, the new row holds that duration under a key that was free; a
    negative duration is refused with [FieldError] and nothing is written; a
    role the packet already holds is refused and nothing is written; and the
    call returns whenever that duration is not negative, the packet has
    room, role and packet share their guild, the rows of the role and of the
    packet are stored and the packet does not hold the role yet. *)
Theorem packet_role_create_duration (d : DB) (role : ForeignKeyRelation Role.t)
    (p : RolePacket.t) (duration : option Z) :
  let r := PacketRole.create role (Fetched p) duration d in
  let self := PacketRole.mk None role (Fetched p) (effective_duration p duration) in
  (forall saved, result_of r = Returned saved ->
     exists k, saved = PacketRole.set_id k self /\
       packet_roles d !! k = None /\
       packet_roles (db_after r) !! k
       = Some (mkPacketRoleRow (PacketRole.role_id self) (RolePacket.id p)
                 (effective_duration p duration))) /\
  (effective_duration p duration < 0 -> r = (Raised FieldError, d, [])) /\
  (role_in_packet d (PacketRole.role_id self) (RolePacket.id p) ->
   raises (result_of r) /\ db_after r = d) /\
  (0 <= effective_duration p duration ->
   Z.of_nat (packet_size d (RolePacket.id p)) < RolePacket.MAXIMUM_ROLES ->
   same_guild_available d self ->
   role_and_packet_stored d self ->
   ~ role_in_packet d (PacketRole.role_id self) (RolePacket.id p) ->
   exists saved, result_of r = Returned saved).
Proof.
  cbv zeta. rewrite packet_role_create_unfold.
  set (self := PacketRole.mk None role (Fetched p) (effective_duration p duration)).
  rewrite (packet_role_save_new_run d self eq_refl). cbv zeta.
  split; [|split; [|split]].
  - intros saved Hres.
    destruct (result_of (PacketRole._pre_save self d)) as [[]|e]; [|discriminate Hres].
    destruct (PacketRole.constraints _ _ d); [|discriminate Hres].
    unfold result_of in Hres. cbn in Hres. injection Hres as <-.
    eexists. split; [reflexivity|]. split; [apply not_elem_of_dom, is_fresh|].
    unfold db_after. cbn. apply lookup_insert_eq.
  - intros Hneg.
    rewrite (proj1 (packet_role_pre_save_negative d self) Hneg). reflexivity.
  - intros Hin.
    destruct (result_of (PacketRole._pre_save self d)) as [[]|e]; [|cbn; auto].
    rewrite (packet_role_constraints_duplicate d self _
               (proj1 (not_elem_of_dom _ _) (is_fresh _)) Hin).
    cbn. auto.
  - intros Hpos Hroom Hg Hstored Hnew.
    destruct (packet_role_pre_save_spec d self) as (o & Hpre & _ & _ & Hok).
    rewrite Hpre. unfold result_of at 1. cbn [fst].
    rewrite (Hok Hpos ltac:(cbn in *; lia) Hg).
    rewrite (packet_role_constraints_hold d self _ Hstored Hnew).
    eexists. reflexivity.
Qed.

Lemma packet_role_create_duration_witness :
  PacketRole.create (Fetched role_500) (Fetched (RolePacket.mk 5 None "p" (-1))) (Some 0)
    db_two_packets
  = (Raised FieldError, db_two_packets, []) /\
  (raises (result_of (PacketRole.create (Fetched role_1) (Fetched packet_5) (Some 0)
                        db_two_packets)) /\
   db_after (PacketRole.create (Fetched role_1) (Fetched packet_5) (Some 0)
               db_two_packets)
   = db_two_packets) /\
  exists saved,
    result_of (PacketRole.create (Fetched role_500) (Fetched packet_5) (Some 0)
                 db_two_packets)
    = Returned saved.
Proof.
  split; [|split].
  - apply (proj1 (proj2 (packet_role_create_duration db_two_packets (Fetched role_500)
                           (RolePacket.mk 5 None "p" (-1)) (Some 0)))).
    cbn. lia.
  - apply (proj1 (proj2 (proj2 (packet_role_create_duration db_two_packets
                                  (Fetched role_1) packet_5 (Some 0))))).
    exists 1, (mkPacketRoleRow 1 5 60). split; [vm_compute; reflexivity|].
    split; reflexivity.
  - apply (proj2 (proj2 (proj2 (packet_role_create_duration db_two_packets
                                  (Fetched role_500) packet_5 (Some 0))))).
    + cbn. lia.
    + vm_compute. reflexivity.
    + exists guild_7, guild_7. repeat split.
    + split; eexists; reflexivity.
    + exact role_500_not_in_packet_5.
Defined.

(** X10: a packet made by [RolePacket.create] can always take a role
    without an explicit duration, as far as the duration check goes: its
    default duration is not negative, so [PacketRole.create] with the
    duration left out never ends in [FieldError], on any storage. *)
Theorem created_packet_default_duration_accepted
    (d : DB) (guild : Guild.t) (name : string) (dur : Z) (p : RolePacket.t) :
  result_of (RolePacketMethods.create guild name dur d) = Returned p ->
  0 <= RolePacket.default_role_duration p /\
  forall d' role,
    result_of (PacketRole.create role (Fetched p) None d') <> Raised FieldError.
Proof.
  intros Hres.
  assert (Hdur : 0 <= RolePacket.default_role_duration p).
  { destruct (role_packet_create_cases d guild name dur)
      as [Hrun|[Hrun|(Hv & _ & _ & Hrun)]]; rewrite Hrun in Hres;
      try discriminate Hres.
    injection Hres as <-. apply Hv. }
  split; [exact Hdur|]. intros d' role.
  rewrite packet_role_create_unfold.
  rewrite (packet_role_save_new_run d'
             (PacketRole.mk None role (Fetched p) (effective_duration p None)) eq_refl).
  cbv zeta.
  pose proof (proj2 (packet_role_pre_save_negative d'
                       (PacketRole.mk None role (Fetched p) (effective_duration p None)))
                Hdur) as Hne.
  destruct (result_of (PacketRole._pre_save _ d')) as [[]|e].
  - destruct (PacketRole.constraints _ _ d'); discriminate.
  - unfold result_of. cbn. congruence.
Qed.

Lemma created_packet_default_duration_accepted_witness :
  0 <= 60 /\
  result_of (PacketRole.create (Fetched role_500)
               (Fetched (RolePacket.mk (fresh (dom (role_packets empty_db)))
                           (Some (Fetched guild_7)) "gold" 60)) None empty_db)
  <> Raised FieldError.
Proof.
  destruct (created_packet_default_duration_accepted db_guild_only guild_7 "gold" 60
              (RolePacket.mk (fresh (dom (role_packets empty_db)))
                 (Some (Fetched guild_7)) "gold" 60)) as [Hd Hc].
  - vm_compute. reflexivity.
  - split; [exact Hd|apply Hc].
Defined.

(** ** AuthorizedRole *)

Lemma packet_load_guild_run (d : DB) (rel : option (ForeignKeyRelation Guild.t)) :
  PacketRole.load_guild rel d = (Returned (loaded_guild d rel), d, []).
Proof. destruct rel as [[g|fk]|]; reflexivity. Qed.

(** X11: [AuthorizedRole._pre_save] never writes.  It lets an entry through
    exactly when its authorization level is 1 or 2, its role is fetched, and
    the guild of the role and the guild of the entry both load and have the
    same id; then the entry comes back with its guild fetched.  A level
    outside 1..2 is refused with [FieldError], two guilds with different ids
    with [IntegrityError]. *)
Theorem authorized_role_pre_save_spec (d : DB) (self : AuthorizedRole.t) :
  exists o,
    AuthorizedRole._pre_save self d = (o, d, []) /\
    ((exists self', o = Returned self') <->
     1 <= AuthorizedRole.authorization_level self <= 2 /\
     authorized_guilds_match d self) /\
    (forall self', o = Returned self' ->
     AuthorizedRole.role self' = AuthorizedRole.role self /\
     AuthorizedRole.authorization_level self' = AuthorizedRole.authorization_level self /\
     AuthorizedRole.guild self'
     = Fetched <$> loaded_guild d (AuthorizedRole.guild self)) /\
    (~ 1 <= AuthorizedRole.authorization_level self <= 2 -> o = Raised FieldError) /\
    (1 <= AuthorizedRole.authorization_level self <= 2 ->
     forall r g1 g2,
       AuthorizedRole.role self = Fetched r ->
       loaded_guild d (Role.guild r) = Some g1 ->
       loaded_guild d (AuthorizedRole.guild self) = Some g2 ->
       Guild.id g1 <> Guild.id g2 -> o = Raised IntegrityError).
Proof.
  unfold AuthorizedRole._pre_save, AuthorizedRole.AuthorizationLevel.is_valid,
    authorized_guilds_match.
  destruct (Z.leb_spec 1 (AuthorizedRole.authorization_level self)) as [H1|H1];
    cbn [andb negb].
  2:{ eexists. split; [reflexivity|]. split; [|split; [|split]].
      - split; [intros [? [=]]|lia].
      - intros ? [=].
      - reflexivity.
      - lia. }
  destruct (Z.leb_spec (AuthorizedRole.authorization_level self) 2) as [H2|H2];
    cbn [negb].
  2:{ eexists. split; [reflexivity|]. split; [|split; [|split]].
      - split; [intros [? [=]]|lia].
      - intros ? [=].
      - reflexivity.
      - lia. }
  destruct (AuthorizedRole.role self) as [r|fk] eqn:Erole.
  2:{ eexists. split; [reflexivity|]. split; [|split; [|split]].
      - split; [intros [? [=]]|tauto].
      - intros ? [=].
      - lia.
      - intros _ r g1 g2 [=]. }
  rewrite (bind_pure _ _ _ _ (packet_load_guild_run d (Role.guild r))).
  assert (Hload : exists self0,
            (match AuthorizedRole.guild self with
             | Some (QuerySet fk) =>
                 g <- Guild.first fk ;;
                 ret (AuthorizedRole.set_guild (Fetched <$> g) self)
             | _ => ret self
             end) d = (Returned self0, d, []) /\
            AuthorizedRole.role self0 = AuthorizedRole.role self /\
            AuthorizedRole.authorization_level self0
            = AuthorizedRole.authorization_level self /\
            AuthorizedRole.guild self0
            = Fetched <$> loaded_guild d (AuthorizedRole.guild self)).
  { destruct self as [ro [[g|fk]|] lv]; cbn.
    - eexists. split; [reflexivity|]. auto.
    - eexists. split; [reflexivity|]. auto.
    - eexists. split; [reflexivity|]. auto. }
  destruct Hload as (self0 & Hrun & Hro & Hlv & Hg0).
  rewrite (bind_pure _ _ _ _ Hrun). rewrite Hg0.
  destruct (loaded_guild d (Role.guild r)) as [g1|] eqn:Eg1.
  2:{ eexists. split; [reflexivity|]. split; [|split; [|split]].
      - split; [intros [? [=]]|intros (_ & a & b & [=] & _)].
      - intros ? [=].
      - lia.
      - intros _ r' a b [= <-]. rewrite Eg1. intros [=]. }
  unfold lift. cbn [PacketRole.guild_id_of].
  rewrite bind_pure with (a := Guild.id g1) by reflexivity.
  destruct (loaded_guild d (AuthorizedRole.guild self)) as [g2|] eqn:Eg2; cbn [fmap option_fmap option_map].
  2:{ eexists. split; [reflexivity|]. split; [|split; [|split]].
      - split; [intros [? [=]]|intros (_ & a & b & _ & [=] & _)].
      - intros ? [=].
      - lia.
      - intros _ r' a b _ _ [=]. }
  rewrite bind_pure with (a := Guild.id g2) by reflexivity.
  destruct (Z.eqb_spec (Guild.id g1) (Guild.id g2)) as [He|He]; cbn [negb].
  - eexists. split; [reflexivity|]. split; [|split; [|split]].
    + split; [intros _; split; [lia|]; exists g1, g2; auto|eauto].
    + intros ? [= <-]. split; [congruence|]. split; [congruence|].
      rewrite Hg0. reflexivity.
    + lia.
    + intros _ r' a b [= <-]. rewrite Eg1. intros [= <-] [= <-]. contradiction.
  - eexists. split; [reflexivity|]. split; [|split; [|split]].
    + split; [intros [? [=]]|].
      intros (_ & a & b & [= <-] & [= <-] & Heq). contradiction.
    + intros ? [=].
    + lia.
    + reflexivity.
Qed.

Lemma authorized_role_pre_save_spec_witness :
  AuthorizedRole._pre_save
    (AuthorizedRole.mk (Fetched role_500) (Some (QuerySet 7)) 3) db_guild_only
  = (Raised FieldError, db_guild_only, []) /\
  exists self',
    result_of (AuthorizedRole._pre_save
                 (AuthorizedRole.mk (Fetched role_500) (Some (QuerySet 7)) 2)
                 db_guild_only) = Returned self'.
Proof.
  split.
  - destruct (authorized_role_pre_save_spec db_guild_only
                (AuthorizedRole.mk (Fetched role_500) (Some (QuerySet 7)) 3))
      as (o & Hrun & _ & _ & Hfield & _).
    rewrite Hrun. rewrite Hfield; [reflexivity|]. cbn. lia.
  - destruct (authorized_role_pre_save_spec db_guild_only
                (AuthorizedRole.mk (Fetched role_500) (Some (QuerySet 7)) 2))
      as (o & Hrun & Hiff & _).
    rewrite Hrun. apply Hiff. split; [cbn; lia|].
    eexists. eexists. split; [reflexivity|]. split; reflexivity.
Defined.

(** ** Guild._pre_save and Guild.create *)

Section GuildValidation.

Variable is_secure : string -> bool.
Variable LANGUAGES : list string.
Variable islower : ascii -> bool.

Lemma existsb_not_islower (l : list ascii) :
  existsb (fun char => negb (islower char)) l = false
  <-> Forall (fun char => islower char = true) l.
Proof.
  induction l as [|c l IH]; cbn.
  - split; [constructor|reflexivity].
  - rewrite orb_false_iff, negb_false_iff, IH, Forall_cons. reflexivity.
Qed.

(** [_pre_save] returns on valid fields and raises [FieldError] on all
    others. *)
Lemma guild_pre_save_cases (self : GuildMethods.t) :
  (GuildMethods._pre_save is_secure LANGUAGES islower self = Returned tt /\
   guild_fields_valid is_secure LANGUAGES islower self) \/
  (GuildMethods._pre_save is_secure LANGUAGES islower self = Raised FieldError /\
   ~ guild_fields_valid is_secure LANGUAGES islower self).
Proof.
  unfold GuildMethods._pre_save, guild_fields_valid, GuildMethods.MAX_PREFIX_LENGTH,
    GuildMethods.MAX_BRANDING_LENGTH, GuildMethods.custom_license_format_max_length,
    GuildMethods.language_max_length.
  rewrite !Z.gtb_ltb.
  destruct (Z.ltb_spec 10 (Z.of_nat (String.length (GuildMethods.custom_prefix self))));
    [right; split; [reflexivity|lia]|].
  destruct (Z.ltb_spec 100
              (Z.of_nat (String.length (GuildMethods.custom_license_format self))));
    [right; split; [reflexivity|lia]|].
  destruct (negb (bool_decide (GuildMethods.custom_license_format self = EmptyString))
            && negb (is_secure (GuildMethods.custom_license_format self))) eqn:Efmt.
  { right. split; [reflexivity|]. intros (_ & _ & Hf & _).
    apply andb_true_iff in Efmt. destruct Efmt as [He Hs].
    apply negb_true_iff in He, Hs. apply bool_decide_eq_false in He.
    destruct Hf; congruence. }
  assert (Hfmt : GuildMethods.custom_license_format self = EmptyString \/
                 is_secure (GuildMethods.custom_license_format self) = true).
  { apply andb_false_iff in Efmt. destruct Efmt as [He|Hs].
    - left. apply negb_false_iff in He. apply bool_decide_eq_true in He. exact He.
    - right. apply negb_false_iff in Hs. exact Hs. }
  destruct (Z.ltb_spec 50 (Z.of_nat (String.length (GuildMethods.license_branding self))));
    [right; split; [reflexivity|lia]|].
  destruct (Z.leb_spec (-12) (GuildMethods.timezone self)); cbn [andb negb];
    [|right; split; [reflexivity|lia]].
  destruct (Z.ltb_spec (GuildMethods.timezone self) 15); cbn [negb];
    [|right; split; [reflexivity|lia]].
  destruct (existsb _ (list_ascii_of_string (GuildMethods.language self))) eqn:Elow.
  { right. split; [reflexivity|]. intros (_ & _ & _ & _ & _ & Hl & _).
    apply existsb_not_islower in Hl. congruence. }
  apply existsb_not_islower in Elow.
  destruct (bool_decide (GuildMethods.language self ∈ LANGUAGES)) eqn:Hlang;
    cbn [negb orb].
  2:{ right. split; [reflexivity|]. apply bool_decide_eq_false in Hlang.
      intros (_ & _ & _ & _ & _ & _ & Hin & _). contradiction. }
  apply bool_decide_eq_true in Hlang.
  destruct (Z.ltb_spec 2 (Z.of_nat (String.length (GuildMethods.language self))));
    [right; split; [reflexivity|lia]|].
  left. split; [reflexivity|]. repeat split; auto; lia.
Qed.

(** X12: [Guild._pre_save] lets a guild through exactly when its prefix has
    at most 10 characters, its license format at most 100 and is empty or
    secure (an empty format is never put to the security check), its
    branding has at most 50 characters, its timezone lies between -12 and 14,
    and its language has at most 2 characters, all of them lower case, and is
    a supported language.  Every other guild is refused with [FieldError]. *)
Theorem guild_pre_save_accepts_exactly (self : GuildMethods.t) :
  (GuildMethods._pre_save is_secure LANGUAGES islower self = Returned tt
   <-> guild_fields_valid is_secure LANGUAGES islower self) /\
  (~ guild_fields_valid is_secure LANGUAGES islower self ->
   GuildMethods._pre_save is_secure LANGUAGES islower self = Raised FieldError).
Proof.
  destruct (guild_pre_save_cases self) as [[Hret Hv]|[Hraise Hn]].
  - split; [split; auto|contradiction].
  - split; [|auto]. rewrite Hraise. split; [discriminate|contradiction].
Qed.

(** X13: [Guild.create] without [reminder_activations] first stores a new
    default reminder row (720, 0, 0, 0, 0).  A guild that passes
    [_pre_save] and whose id is free is then stored, pointing to that row; a
    guild that fails [_pre_save] ends in [FieldError] and an id in use in
    [IntegrityError]; and whenever the call raises, the guild table is as
    before while the new reminder row stays behind. *)
Theorem guild_create_spec (d : DB) (self : GuildMethods.t) :
  let r := GuildMethods.create is_secure LANGUAGES islower self None d in
  let k := fresh (dom (reminders_settings d)) in
  let d1 := set_reminders_settings
              (<[k := mkReminderRow 720 0 0 0 0]> (reminders_settings d)) d in
  reminders_settings d !! k = None /\
  (guild_fields_valid is_secure LANGUAGES islower self ->
   guilds d !! GuildMethods.id self = None ->
   result_of r
   = Returned (Guild.mk (GuildMethods.id self) (GuildMethods.custom_license_format self)
                 (GuildMethods.license_branding self)
                 (Fetched (ReminderActivations.mk (Some k) 720 0 0 0 0))) /\
   db_after r
   = set_guilds (<[GuildMethods.id self :=
                     mkGuildRow (GuildMethods.custom_license_format self)
                       (GuildMethods.license_branding self) k]> (guilds d)) d1) /\
  (~ guild_fields_valid is_secure LANGUAGES islower self ->
   result_of r = Raised FieldError) /\
  (guild_fields_valid is_secure LANGUAGES islower self ->
   is_Some (guilds d !! GuildMethods.id self) ->
   result_of r = Raised IntegrityError) /\
  (forall e, result_of r = Raised e -> db_after r = d1).
Proof.
  cbv zeta. split; [apply not_elem_of_dom, is_fresh|].
  unfold GuildMethods.create.
  rewrite (bind_write _ _ _ _ _ _ (reminder_create_defaults d)).
  cbn [ReminderActivations.id].
  set (k := fresh (dom (reminders_settings d))).
  set (d1 := set_reminders_settings _ d).
  assert (Hfk : forall row, c_guild_reminder_activations_id row = k ->
                            Guild.foreign_keys row d1 = true).
  { intros row Hrow. unfold Guild.foreign_keys. apply bool_decide_eq_true.
    rewrite Hrow. subst d1. cbn. rewrite lookup_insert_eq. eauto. }
  unfold lift.
  destruct (guild_pre_save_cases self) as [[Hret Hv]|[Hraise Hn]].
  - rewrite Hret. rewrite bind_pure with (a := tt) by reflexivity.
    destruct (bool_decide (is_Some (guilds d !! GuildMethods.id self))) eqn:Ep.
    + rewrite (bind_raised _ _ _ IntegrityError d1 [])
        by (rewrite execute_insert_run, Hfk by reflexivity;
            change (guilds d1) with (guilds d); rewrite Ep; reflexivity).
      apply bool_decide_eq_true in Ep.
      unfold after_writes, result_of, db_after. cbn [fst snd].
      split; [intros _ Hnone; rewrite Hnone in Ep; destruct Ep; discriminate|].
      split; [contradiction|]. split; [reflexivity|]. intros e _. reflexivity.
    + erewrite bind_write
        by (rewrite execute_insert_run, Hfk by reflexivity;
            change (guilds d1) with (guilds d); rewrite Ep; reflexivity).
      apply bool_decide_eq_false in Ep.
      unfold ret, after_writes, result_of, db_after. cbn [fst snd].
      split; [intros _ _; split; reflexivity|].
      split; [contradiction|]. split; [intros _ Hs; contradiction|].
      intros e [=].
  - rewrite Hraise.
    unfold bind, raise, after_writes, result_of, db_after. cbn [fst snd].
    split; [contradiction|]. split; [reflexivity|]. split; [contradiction|].
    intros e _. reflexivity.
Qed.

End GuildValidation.

Lemma guild_fields_default_valid :
  guild_fields_valid long_is_secure sample_languages ascii_islower guild_fields_default.
Proof.
  unfold guild_fields_valid. cbn.
  split; [lia|]. split; [lia|]. split; [left; reflexivity|]. split; [lia|].
  split; [lia|]. split; [repeat constructor|]. split; [apply list_elem_of_here|lia].
Defined.

Lemma guild_pre_save_accepts_exactly_witness :
  GuildMethods._pre_save long_is_secure sample_languages ascii_islower
    guild_fields_timezone_15 = Raised FieldError.
Proof.
  apply (proj2 (guild_pre_save_accepts_exactly long_is_secure sample_languages
                  ascii_islower guild_fields_timezone_15)).
  unfold guild_fields_valid. cbn. lia.
Defined.

Lemma guild_create_spec_witness :
  result_of (GuildMethods.create long_is_secure sample_languages ascii_islower
               guild_fields_default None empty_db)
  = Returned (Guild.mk 7 "" ""
                (Fetched (ReminderActivations.mk
                            (Some (fresh (dom (reminders_settings empty_db))))
                            720 0 0 0 0))) /\
  result_of (GuildMethods.create long_is_secure sample_languages ascii_islower
               guild_fields_timezone_15 None empty_db) = Raised FieldError.
Proof.
  split.
  - apply (proj1 (proj2 (guild_create_spec long_is_secure sample_languages
                           ascii_islower empty_db guild_fields_default))).
    + exact guild_fields_default_valid.
    + reflexivity.
  - apply (proj1 (proj2 (proj2 (guild_create_spec long_is_secure sample_languages
                                  ascii_islower empty_db guild_fields_timezone_15)))).
    unfold guild_fields_valid. cbn. lia.
Defined.

(** ** The commands license_branding and license_format *)

Lemma update_license_branding_guilds (d : DB) (guild_id : Z) (b : string) :
  Configuration.update_license_branding guild_id b d
  = (Returned tt,
     match guilds d !! guild_id with
     | Some g => set_guilds (<[guild_id := mkGuildRow (c_custom_license_format g) b
                                  (c_guild_reminder_activations_id g)]> (guilds d)) d
     | None => d
     end,
     [match guilds d !! guild_id with
      | Some g => set_guilds (<[guild_id := mkGuildRow (c_custom_license_format g) b
                                   (c_guild_reminder_activations_id g)]> (guilds d)) d
      | None => d
      end]).
Proof. reflexivity. Qed.

(** X14: the command [license_branding].  A branding of more than 50
    characters is answered with the failure message and nothing is written.
    Any other branding is answered with the success message: the row of the
    guild then holds the new branding and keeps its license format and its
    reminder row, and when the guild is not stored nothing changes at all.
    No stored branding ever exceeds 50 characters once none did. *)
Theorem license_branding_command_spec (d : DB) (guild_id : Z) (b : string) :
  let r := Configuration.license_branding guild_id b d in
  (50 < Z.of_nat (String.length b) -> r = (Returned failure, d, [])) /\
  (Z.of_nat (String.length b) <= 50 ->
   result_of r = Returned success /\
   (forall g, guilds d !! guild_id = Some g ->
      db_after r
      = set_guilds (<[guild_id := mkGuildRow (c_custom_license_format g) b
                         (c_guild_reminder_activations_id g)]> (guilds d)) d) /\
   (guilds d !! guild_id = None -> db_after r = d)) /\
  (brandings_short d -> brandings_short (db_after r)).
Proof.
  cbv zeta. unfold Configuration.license_branding, GuildMethods.MAX_BRANDING_LENGTH.
  rewrite Z.gtb_ltb.
  destruct (Z.ltb_spec 50 (Z.of_nat (String.length b))) as [Hlong|Hshort].
  - split; [reflexivity|]. split; [lia|]. auto.
  - rewrite (bind_write _ _ _ _ _ _ (update_license_branding_guilds d guild_id b)).
    unfold ret, after_writes, result_of, db_after. cbn [fst snd].
    split; [lia|]. split.
    + intros _. split; [reflexivity|].
      split; [intros g ->; reflexivity|intros ->; reflexivity].
    + intros Hs. destruct (guilds d !! guild_id) as [g|] eqn:Hg; [|exact Hs].
      intros i gi Hi. cbn in Hi. apply lookup_insert_Some in Hi.
      destruct Hi as [[_ <-]|[_ Hi]]; [exact Hshort|eauto].
Qed.

Lemma license_branding_command_spec_witness :
  Configuration.license_branding 7
    "123456789012345678901234567890123456789012345678901" db_guild_only
  = (Returned failure, db_guild_only, []) /\
  result_of (Configuration.license_branding 8 "brand" db_guild_only) = Returned success /\
  db_after (Configuration.license_branding 8 "brand" db_guild_only) = db_guild_only /\
  db_after (Configuration.license_branding 7 "brand" db_guild_only)
  = set_guilds (<[7 := mkGuildRow "" "brand" 1]> (guilds db_guild_only)) db_guild_only.
Proof.
  split; [|split; [|split]].
  - apply (proj1 (license_branding_command_spec db_guild_only 7
                    "123456789012345678901234567890123456789012345678901")).
    cbn. lia.
  - destruct (proj1 (proj2 (license_branding_command_spec db_guild_only 8 "brand")))
      as (Hres & _); [cbn; lia|exact Hres].
  - destruct (proj1 (proj2 (license_branding_command_spec db_guild_only 8 "brand")))
      as (_ & _ & Hnone); [cbn; lia|]. apply Hnone. reflexivity.
  - destruct (proj1 (proj2 (license_branding_command_spec db_guild_only 7 "brand")))
      as (_ & Hrow & _); [cbn; lia|].
    apply (Hrow (mkGuildRow "" "" 1)). reflexivity.
Defined.

Section LicenseFormatCommand.

Variable is_secure : string -> bool.

(** X15: the command [license_format].  A format the formatter does not
    take to be secure is answered with the failure message and nothing is
    written; a secure one is answered with the success message, and the row
    of the guild, when the guild is stored, then holds it and keeps its
    branding and reminder row.  So every stored format stays empty or
    secure. *)
Theorem license_format_command_spec (d : DB) (guild_id : Z) (fmt : string) :
  let r := Configuration.license_format is_secure guild_id fmt d in
  (is_secure fmt = false -> r = (Returned failure, d, [])) /\
  (is_secure fmt = true ->
   result_of r = Returned success /\
   (forall g, guilds d !! guild_id = Some g ->
      db_after r
      = set_guilds (<[guild_id := mkGuildRow fmt (c_license_branding g)
                         (c_guild_reminder_activations_id g)]> (guilds d)) d) /\
   (guilds d !! guild_id = None -> db_after r = d)) /\
  (formats_secure is_secure d -> formats_secure is_secure (db_after r)).
Proof.
  cbv zeta. unfold Configuration.license_format.
  destruct (is_secure fmt) eqn:Es.
  - unfold Configuration.update_custom_license_format, bind, execute, ret,
      result_of, db_after.
    cbn [fst snd].
    split; [discriminate|]. split.
    + intros _. split; [reflexivity|].
      split; [intros g ->; reflexivity|intros ->; reflexivity].
    + intros Hs. destruct (guilds d !! guild_id) as [g|] eqn:Hg; [|exact Hs].
      intros i gi Hi. cbn in Hi. apply lookup_insert_Some in Hi.
      destruct Hi as [[_ <-]|[_ Hi]]; [right; exact Es|eauto].
  - split; [reflexivity|]. split; [discriminate|]. auto.
Qed.

End LicenseFormatCommand.

Lemma license_format_command_spec_witness :
  Configuration.license_format long_is_secure 7 "XXXX" db_guild_only
  = (Returned failure, db_guild_only, []) /\
  db_after (Configuration.license_format long_is_secure 7 "XXXX-XXXX-XXXX" db_guild_only)
  = set_guilds (<[7 := mkGuildRow "XXXX-XXXX-XXXX" "" 1]> (guilds db_guild_only))
      db_guild_only.
Proof.
  split.
  - apply (proj1 (license_format_command_spec long_is_secure db_guild_only 7 "XXXX")).
    reflexivity.
  - destruct (proj1 (proj2 (license_format_command_spec long_is_secure db_guild_only 7
                              "XXXX-XXXX-XXXX")) eq_refl) as (_ & Hrow & _).
    apply (Hrow (mkGuildRow "" "" 1)). reflexivity.
Defined.

(** ** The command show_tier_hierarchy *)

Lemma key_le_spec (a b : Z * Z) :
  Roles.key_le a b = true <-> a.1 < b.1 \/ (a.1 = b.1 /\ a.2 <= b.2).
Proof.
  unfold Roles.key_le.
  rewrite orb_true_iff, andb_true_iff, Z.ltb_lt, Z.eqb_eq, Z.leb_le. reflexivity.
Qed.

Lemma key_le_false (a b : Z * Z) :
  Roles.key_le a b = false -> Roles.key_le b a = true /\ a <> b.
Proof.
  intros Hf. split.
  - apply key_le_spec. destruct (Roles.key_le a b) eqn:E; [discriminate|].
    clear Hf. apply not_true_iff_false in E. rewrite key_le_spec in E. lia.
  - intros ->. apply not_true_iff_false in Hf. apply Hf. apply key_le_spec. lia.
Qed.

Lemma key_order_trans (a b c : Role.t) : key_order a b -> key_order b c -> key_order a c.
Proof. unfold key_order. rewrite !key_le_spec. lia. Qed.

Lemma insert_by_key_perm (x : Role.t) (l : list Role.t) :
  Roles.insert_by_key x l ≡ₚ x :: l.
Proof.
  induction l as [|y l IH]; cbn; [reflexivity|].
  destruct (Roles.key_le _ _); [reflexivity|]. rewrite IH. apply Permutation_swap.
Qed.

Lemma sorted_perm (roles : list Role.t) : Roles.sorted roles ≡ₚ roles.
Proof.
  induction roles as [|x l IH]; cbn; [reflexivity|].
  rewrite insert_by_key_perm. rewrite IH. reflexivity.
Qed.

Lemma insert_by_key_sorted (x : Role.t) (l : list Role.t) :
  StronglySorted key_order l -> StronglySorted key_order (Roles.insert_by_key x l).
Proof.
  induction 1 as [|y l Hs IH Hall]; cbn.
  - repeat constructor.
  - destruct (Roles.key_le (Roles.sort_key x) (Roles.sort_key y)) eqn:E.
    + constructor; [constructor; assumption|].
      constructor; [exact E|].
      eapply Forall_impl; [exact Hall|]. intros z Hz. eapply key_order_trans; eauto.
    + constructor; [exact IH|]. rewrite insert_by_key_perm.
      constructor; [|exact Hall]. apply key_le_false in E. apply E.
Qed.

Lemma sorted_sorted (roles : list Role.t) : StronglySorted key_order (Roles.sorted roles).
Proof.
  induction roles as [|x l IH]; cbn; [constructor|].
  apply insert_by_key_sorted. exact IH.
Qed.

Lemma insert_by_key_same_key (k : Z * Z) (x : Role.t) (l : list Role.t) :
  filter (fun r => Roles.sort_key r = k) (Roles.insert_by_key x l)
  = filter (fun r => Roles.sort_key r = k) (x :: l).
Proof.
  induction l as [|y l IH]; cbn [Roles.insert_by_key]; [reflexivity|].
  destruct (Roles.key_le (Roles.sort_key x) (Roles.sort_key y)) eqn:E; [reflexivity|].
  apply key_le_false in E. destruct E as [_ Hne].
  rewrite (filter_cons _ y), IH, !(filter_cons _ x), (filter_cons _ y).
  destruct (decide (Roles.sort_key y = k)) as [Hy|Hy];
    destruct (decide (Roles.sort_key x = k)) as [Hx|Hx]; try reflexivity.
  congruence.
Qed.

Lemma StronglySorted_weaken {A} (R1 R2 : A -> A -> Prop) (l : list A) :
  (forall a b, R1 a b -> R2 a b) -> StronglySorted R1 l -> StronglySorted R2 l.
Proof.
  intros Himp. induction 1 as [|x l Hs IH Hall]; constructor; [exact IH|].
  eapply Forall_impl; [exact Hall|]. intros b Hb. apply Himp. exact Hb.
Qed.

(** X16: the order [show_tier_hierarchy] puts the roles in.  The sorted list
    holds the same roles, each as often as before; it is ordered by
    [tier_power] first and by [tier_level] within one [tier_power]; and roles
    that agree on both keep the order the query gave them. *)
Theorem tier_hierarchy_sorted (roles : list Role.t) :
  Roles.sorted roles ≡ₚ roles /\
  StronglySorted
    (fun a b => Role.tier_power a < Role.tier_power b \/
                (Role.tier_power a = Role.tier_power b /\
                 Role.tier_level a <= Role.tier_level b))
    (Roles.sorted roles) /\
  (forall power level,
     filter (fun r => Roles.sort_key r = (power, level)) (Roles.sorted roles)
     = filter (fun r => Roles.sort_key r = (power, level)) roles).
Proof.
  split; [apply sorted_perm|]. split.
  - eapply StronglySorted_weaken; [|apply sorted_sorted].
    intros a b H. apply key_le_spec in H. exact H.
  - intros power level. induction roles as [|x l IH]; [reflexivity|].
    cbn [Roles.sorted foldr]. fold (Roles.sorted l).
    rewrite insert_by_key_same_key, !(filter_cons _ x), IH. reflexivity.
Qed.

Lemma tier_hierarchy_sorted_witness :
  Roles.sorted sample_roles ≡ₚ sample_roles /\
  Roles.sorted sample_roles
  = [Role.mk 12 (Some (QuerySet 7)) 1 1 true;
     Role.mk 13 (Some (QuerySet 7)) 1 2 true;
     Role.mk 11 (Some (QuerySet 7)) 2 2 true] /\
  filter (fun r => Roles.sort_key r = (2, 1)) (Roles.sorted sample_roles)
  = [Role.mk 13 (Some (QuerySet 7)) 1 2 true].
Proof.
  destruct (tier_hierarchy_sorted sample_roles) as (Hperm & _ & Hstable).
  split; [exact Hperm|]. split; [reflexivity|].
  rewrite Hstable. reflexivity.
Defined.

Lemma group_of_setdefault_append (p k : Z) (v : Z * Z) (levels : list (Z * list (Z * Z))) :
  group_of p (Roles.setdefault_append k v levels)
  = group_of p levels ++ (if decide (p = k) then [v] else []).
Proof.
  induction levels as [|[k' vs] L IH]; cbn.
  - destruct (decide (p = k)); reflexivity.
  - destruct (decide (k = k')) as [->|Hk]; cbn.
    + destruct (decide (p = k')); [reflexivity|]. rewrite app_nil_r. reflexivity.
    + destruct (decide (p = k')) as [->|Hp]; [|exact IH].
      destruct (decide (k' = k)); [congruence|]. rewrite app_nil_r. reflexivity.
Qed.

Lemma setdefault_append_keys (k : Z) (v : Z * Z) (levels : list (Z * list (Z * Z))) :
  (Roles.setdefault_append k v levels).*1
  = if decide (k ∈ levels.*1) then levels.*1 else levels.*1 ++ [k].
Proof.
  induction levels as [|[k' vs] L IH]; cbn.
  - destruct (decide (k ∈ [])) as [H|_]; [|reflexivity].
    apply elem_of_nil in H. destruct H.
  - destruct (decide (k = k')) as [->|Hk]; cbn.
    + destruct (decide (k' ∈ k' :: L.*1)) as [_|H]; [reflexivity|].
      destruct H. apply list_elem_of_here.
    + rewrite IH. destruct (decide (k ∈ L.*1)) as [Hin|Hin];
        destruct (decide (k ∈ k' :: L.*1)) as [Hin'|Hin']; try reflexivity.
      * destruct Hin'. apply elem_of_cons. right. exact Hin.
      * apply elem_of_cons in Hin'. destruct Hin' as [?|?]; [congruence|contradiction].
Qed.

Lemma setdefault_append_values (k : Z) (v : Z * Z) (levels : list (Z * list (Z * Z))) :
  concat (Roles.setdefault_append k v levels).*2 ≡ₚ concat levels.*2 ++ [v].
Proof.
  induction levels as [|[k' vs] L IH]; cbn; [reflexivity|].
  destruct (decide (k = k')) as [->|Hk]; cbn.
  - rewrite <- !app_assoc. apply Permutation_app_head. apply Permutation_app_comm.
  - rewrite IH. rewrite app_assoc. reflexivity.
Qed.

Lemma fill_levels_cons (role : Role.t) (hierarchy : list Role.t)
      (levels : list (Z * list (Z * Z))) :
  Roles.fill_levels (role :: hierarchy) levels
  = Roles.fill_levels hierarchy
      (Roles.setdefault_append (Role.tier_power role) (Roles.entry role) levels).
Proof. reflexivity. Qed.

Lemma fill_levels_group (p : Z) (hierarchy : list Role.t) (levels : list (Z * list (Z * Z))) :
  group_of p (Roles.fill_levels hierarchy levels)
  = group_of p levels ++ (Roles.entry <$> with_power p hierarchy).
Proof.
  revert levels. induction hierarchy as [|r h IH]; intros L.
  - cbn. rewrite app_nil_r. reflexivity.
  - rewrite fill_levels_cons, IH, group_of_setdefault_append.
    unfold with_power. rewrite (filter_cons _ r).
    destruct (decide (p = Role.tier_power r)) as [->|Hp].
    + destruct (decide (Role.tier_power r = Role.tier_power r)); [|congruence].
      rewrite <- app_assoc. reflexivity.
    + destruct (decide (Role.tier_power r = p)); [congruence|].
      rewrite app_nil_r. reflexivity.
Qed.

Lemma fill_levels_keys (p : Z) (hierarchy : list Role.t) (levels : list (Z * list (Z * Z))) :
  p ∈ (Roles.fill_levels hierarchy levels).*1
  <-> p ∈ levels.*1 \/ with_power p hierarchy <> [].
Proof.
  revert levels. induction hierarchy as [|r h IH]; intros L.
  - cbn. split; [auto|]. intros [H|H]; [exact H|]. destruct H. reflexivity.
  - rewrite fill_levels_cons, IH, setdefault_append_keys.
    unfold with_power. rewrite (filter_cons _ r).
    destruct (decide (Role.tier_power r = p)) as [<-|Hp].
    + destruct (decide (Role.tier_power r ∈ L.*1)) as [Hin|Hin].
      * split; [auto|]. intros _. left. exact Hin.
      * split; [intros _; right; discriminate|]. intros _. left.
        apply elem_of_app. right. apply list_elem_of_here.
    + destruct (decide (Role.tier_power r ∈ L.*1)) as [Hin|Hin]; [reflexivity|].
      rewrite elem_of_app, list_elem_of_singleton. split.
      * intros [[H|H]|H]; [left; exact H|congruence|right; exact H].
      * intros [H|H]; [left; left; exact H|right; exact H].
Qed.

Lemma fill_levels_values (hierarchy : list Role.t) (levels : list (Z * list (Z * Z))) :
  concat (Roles.fill_levels hierarchy levels).*2
  ≡ₚ concat levels.*2 ++ (Roles.entry <$> hierarchy).
Proof.
  revert levels. induction hierarchy as [|r h IH]; intros L.
  - cbn. rewrite app_nil_r. reflexivity.
  - rewrite fill_levels_cons, IH, setdefault_append_values.
    rewrite <- app_assoc. reflexivity.
Qed.

Lemma fill_levels_keys_sorted (hierarchy : list Role.t) (levels : list (Z * list (Z * Z))) :
  StronglySorted Z.lt levels.*1 ->
  StronglySorted key_order hierarchy ->
  Forall (fun r => Forall (fun k => k <= Role.tier_power r) levels.*1) hierarchy ->
  StronglySorted Z.lt (Roles.fill_levels hierarchy levels).*1.
Proof.
  revert levels. induction hierarchy as [|r h IH]; intros L HL Hh Hle; [exact HL|].
  rewrite fill_levels_cons.
  apply StronglySorted_inv in Hh. destruct Hh as [Hh Hr].
  apply Forall_cons in Hle. destruct Hle as [Hler Hleh].
  assert (Hkeys : forall k, k ∈ (Roles.setdefault_append (Role.tier_power r)
                                   (Roles.entry r) L).*1 ->
                            k ∈ L.*1 \/ k = Role.tier_power r).
  { intros k. rewrite setdefault_append_keys.
    destruct (decide (Role.tier_power r ∈ L.*1)); [auto|].
    rewrite elem_of_app, list_elem_of_singleton. auto. }
  apply IH; [|exact Hh|].
  - rewrite setdefault_append_keys.
    destruct (decide (Role.tier_power r ∈ L.*1)) as [Hin|Hin]; [exact HL|].
    apply StronglySorted_app_2; [|exact HL|repeat constructor].
    intros x1 x2 Hx1 Hx2. apply list_elem_of_singleton in Hx2. subst x2.
    rewrite Forall_forall in Hler. pose proof (Hler _ Hx1) as Hx.
    assert (x1 <> Role.tier_power r) by (intros ->; contradiction). lia.
  - rewrite Forall_forall in *. intros r' Hr'. rewrite Forall_forall. intros k Hk.
    destruct (Hkeys k Hk) as [Hin| ->].
    + pose proof (Hleh r' Hr') as H. rewrite Forall_forall in H. apply H. exact Hin.
    + pose proof (Hr r' Hr') as H. unfold key_order in H. apply key_le_spec in H.
      cbn in H. lia.
Qed.

Lemma sorted_lt_NoDup (l : list Z) : StronglySorted Z.lt l -> NoDup l.
Proof.
  induction 1 as [|x l Hs IH Hall]; constructor; [|exact IH].
  intros Hin. rewrite Forall_forall in Hall. pose proof (Hall x Hin). lia.
Qed.

Lemma elem_of_levels (p : Z) (vs : list (Z * Z)) (levels : list (Z * list (Z * Z))) :
  NoDup levels.*1 ->
  (p, vs) ∈ levels <-> p ∈ levels.*1 /\ group_of p levels = vs.
Proof.
  induction levels as [|[k ws] L IH]; intros Hnd.
  - cbn. rewrite !elem_of_nil. tauto.
  - cbn in Hnd. apply NoDup_cons in Hnd. destruct Hnd as [Hk Hnd].
    cbn [fmap list_fmap fst group_of]. rewrite !elem_of_cons, (IH Hnd).
    destruct (decide (p = k)) as [->|Hp].
    + split.
      * intros [Heq|[Hin _]]; [|contradiction].
        injection Heq as ->. auto.
      * intros [_ ->]. left. reflexivity.
    + split.
      * intros [Heq|[Hin Hg]]; [congruence|]. auto.
      * intros [[?|Hin] Hg]; [congruence|]. right. auto.
Qed.

Lemma with_power_levels_sorted (p : Z) (l : list Role.t) :
  StronglySorted key_order l ->
  StronglySorted Z.le (Roles.entry <$> with_power p l).*2.
Proof.
  induction 1 as [|x l Hs IH Hall]; [constructor|].
  unfold with_power in *. rewrite (filter_cons _ x).
  destruct (decide (Role.tier_power x = p)) as [Hx|Hx]; [|exact IH].
  cbn. constructor; [exact IH|].
  rewrite Forall_forall. intros z Hz.
  apply list_elem_of_fmap in Hz. destruct Hz as ([i lv] & -> & Hz).
  apply list_elem_of_fmap in Hz. destruct Hz as (r & Heq & Hr).
  apply list_elem_of_filter in Hr. destruct Hr as [Hrp Hr].
  rewrite Forall_forall in Hall. pose proof (Hall r Hr) as Hxr.
  unfold key_order in Hxr. apply key_le_spec in Hxr. cbn in Hxr.
  unfold Roles.entry in Heq. injection Heq as -> ->. cbn. lia.
Qed.

(** X17: the dictionary [levels] that [show_tier_hierarchy] prints.  Without
    roles the command reports that no hierarchy is set.  Otherwise the keys
    of [levels] are the tier powers in use, each once and in ascending order;
    the entry of a tier power lists exactly the roles of that power, by
    ascending tier level; and every role of the query is listed exactly
    once. *)
Theorem tier_hierarchy_levels (roles : list Role.t) :
  match Roles.tier_hierarchy roles with
  | None => roles = []
  | Some levels =>
      roles <> [] /\
      StronglySorted Z.lt levels.*1 /\
      (forall p vs,
         (p, vs) ∈ levels
         <-> vs <> [] /\ vs = Roles.entry <$> with_power p (Roles.sorted roles)) /\
      (forall p vs, (p, vs) ∈ levels -> StronglySorted Z.le vs.*2) /\
      (forall p, p ∈ levels.*1 <-> exists r, r ∈ roles /\ Role.tier_power r = p) /\
      concat levels.*2 ≡ₚ Roles.entry <$> roles
  end.
Proof.
  destruct roles as [|r0 roles0] eqn:Hroles; [reflexivity|].
  rewrite <- Hroles. assert (Hne : roles <> []) by (rewrite Hroles; discriminate).
  assert (Hth : Roles.tier_hierarchy roles = Some (Roles.fill_levels (Roles.sorted roles) []))
    by (rewrite Hroles; reflexivity).
  rewrite Hth. clear Hroles r0 roles0 Hth.
  assert (Hsorted : StronglySorted Z.lt (Roles.fill_levels (Roles.sorted roles) []).*1).
  { apply fill_levels_keys_sorted; [constructor|apply sorted_sorted|].
    rewrite Forall_forall. intros r _. constructor. }
  assert (Hchar : forall p vs,
             (p, vs) ∈ Roles.fill_levels (Roles.sorted roles) []
             <-> vs <> [] /\ vs = Roles.entry <$> with_power p (Roles.sorted roles)).
  { intros p vs. rewrite (elem_of_levels _ _ _ (sorted_lt_NoDup _ Hsorted)).
    rewrite fill_levels_keys, fill_levels_group. cbn [fmap list_fmap group_of app].
    rewrite elem_of_nil. split.
    - intros [[[]|Hw] <-]. split; [|reflexivity].
      intros Hnil. apply fmap_nil_inv in Hnil. contradiction.
    - intros [Hvs ->]. split; [|reflexivity]. right.
      intros Hnil. rewrite Hnil in Hvs. apply Hvs. reflexivity. }
  split; [exact Hne|]. split; [exact Hsorted|]. split; [exact Hchar|]. split; [|split].
  - intros p vs Hin. apply Hchar in Hin. destruct Hin as [_ ->].
    apply with_power_levels_sorted. apply sorted_sorted.
  - intros p. rewrite fill_levels_keys. cbn [fmap list_fmap]. rewrite elem_of_nil. split.
    + intros [[]|Hw]. destruct (with_power p (Roles.sorted roles)) as [|r l] eqn:E;
        [congruence|].
      assert (Hr : r ∈ with_power p (Roles.sorted roles)) by (rewrite E; apply list_elem_of_here).
      unfold with_power in Hr. apply list_elem_of_filter in Hr. destruct Hr as [Hp Hr].
      exists r. split; [|exact Hp]. rewrite <- (sorted_perm roles). exact Hr.
    + intros (r & Hr & Hp). right. intros Hnil.
      assert (Hin : r ∈ with_power p (Roles.sorted roles)).
      { unfold with_power. apply list_elem_of_filter. split; [exact Hp|].
        rewrite (sorted_perm roles). exact Hr. }
      rewrite Hnil in Hin. apply elem_of_nil in Hin. exact Hin.
  - rewrite fill_levels_values. cbn [fmap list_fmap concat app].
    rewrite (sorted_perm roles). reflexivity.
Qed.

Lemma tier_hierarchy_levels_witness :
  exists levels,
    Roles.tier_hierarchy sample_roles = Some levels /\
    levels = [(1, [(12, 1)]); (2, [(13, 1); (11, 2)])] /\
    StronglySorted Z.lt levels.*1 /\
    (2, [(13, 1); (11, 2)]) ∈ levels /\
    concat levels.*2 ≡ₚ Roles.entry <$> sample_roles.
Proof.
  pose proof (tier_hierarchy_levels sample_roles) as H.
  change (Roles.tier_hierarchy sample_roles)
    with (Some [(1, [(12, 1)]); (2, [(13, 1); (11, 2)])]) in H.
  destruct H as (_ & Hs & Hchar & _ & _ & Hperm).
  eexists. split; [reflexivity|]. split; [reflexivity|].
  split; [exact Hs|]. split; [|exact Hperm].
  apply Hchar. split; [discriminate|reflexivity].
Defined.

(** ** Foreign keys *)

(** X18: the foreign key of the roles table.  A role whose tier values are
    in range and whose guild has no stored row is refused with
    [IntegrityError] and nothing is written, whether the role is new or its
    row is stored. *)
Theorem role_save_guild_missing (d : DB) (self : Role.t) (gid : Z) :
  tier_in_range self ->
  Role.guild_id self = Some gid -> guilds d !! gid = None ->
  Role._saved_in_db self = false \/ is_Some (roles d !! Role.id self) ->
  Role.save self d = (Raised IntegrityError, d, []).
Proof.
  intros Hr Hgid Hnone Hrow. unfold Role.save.
  destruct (role_pre_save_spec d self) as (o & Hpre & Ho).
  destruct o as [self'|e].
  2:{ rewrite (bind_raised _ _ _ _ _ _ Hpre).
      destruct Ho as [[Hn _]|(_ & _ & -> & _)]; [contradiction|reflexivity]. }
  rewrite (bind_pure _ _ _ _ Hpre).
  destruct Ho as (_ & Hid & Hl & Hp & Hs & _ & Hg).
  unfold Role.to_row. destruct Hg as [Hg|[Hg _]]; rewrite Hg; [|reflexivity].
  rewrite Hgid. cbn [mbind option_bind].
  assert (Hfk : Role.foreign_keys
                  (mkRoleRow gid (Role.tier_level self') (Role.tier_power self')) d = false).
  { unfold Role.foreign_keys. cbn [c_role_guild_id]. rewrite Hnone.
    apply bool_decide_eq_false. intros [? ?]; discriminate. }
  rewrite Hs, Hid. destruct (Role._saved_in_db self) eqn:Esaved.
  - destruct Hrow as [Hrow|Hrow]; [discriminate|].
    unfold bind. rewrite execute_update_run, Hfk.
    rewrite (bool_decide_eq_true_2 _ Hrow). reflexivity.
  - unfold bind. rewrite execute_insert_run, Hfk. reflexivity.
Qed.

Lemma role_save_guild_missing_witness :
  Role.save role_power_zero empty_db = (Raised IntegrityError, empty_db, []).
Proof.
  apply (role_save_guild_missing empty_db role_power_zero 7).
  - unfold tier_in_range. cbn. lia.
  - reflexivity.
  - reflexivity.
  - left. reflexivity.
Defined.

(** X19: the foreign key of the licenses table.  [License.create] without
    [reminder_activations], for a key of at least 14 characters and a guild
    whose row is not stored, ends in [IntegrityError]: no license row is
    written, and the default reminder row the call created first stays
    behind. *)
Theorem license_create_guild_missing (d : DB) (key : string) (guild : Guild.t) :
  14 <= Z.of_nat (String.length key) ->
  guilds d !! Guild.id guild = None ->
  let k := fresh (dom (reminders_settings d)) in
  let d1 := set_reminders_settings
              (<[k := mkReminderRow 720 0 0 0 0]> (reminders_settings d)) d in
  License.create key guild None d = (Raised IntegrityError, d1, [d1]).
Proof.
  intros Hlong Hnone. cbv zeta. unfold License.create.
  rewrite (bind_write _ _ _ _ _ _ (reminder_create_defaults d)).
  cbn [ReminderActivations.id]. rewrite license_save_run.
  cbn [License.key License.to_row License.guild_id License.reminder_activations_id
       License.guild License.reminder_activations License._saved_in_db
       ReminderActivations.id mbind option_bind License.inactive].
  unfold License.KEY_MIN_LENGTH.
  destruct (Z.ltb_spec (Z.of_nat (String.length key)) 14) as [Hs|_]; [lia|].
  unfold License.foreign_keys at 1. cbn [c_license_guild_id].
  change (guilds (set_reminders_settings _ d)) with (guilds d).
  rewrite Hnone.
  rewrite (bool_decide_eq_false_2 (is_Some None)) by (intros [? ?]; discriminate).
  reflexivity.
Qed.

Lemma license_create_guild_missing_witness :
  License.create "ABCDEFGHIJKLMN" guild_7 None empty_db
  = (Raised IntegrityError,
     set_reminders_settings
       (<[fresh (dom (reminders_settings empty_db)) := mkReminderRow 720 0 0 0 0]>
          (reminders_settings empty_db)) empty_db,
     [set_reminders_settings
        (<[fresh (dom (reminders_settings empty_db)) := mkReminderRow 720 0 0 0 0]>
           (reminders_settings empty_db)) empty_db]).
Proof.
  apply (license_create_guild_missing empty_db "ABCDEFGHIJKLMN" guild_7).
  - cbn. lia.
  - reflexivity.
Defined.
